(** * Document Q&A service: the retrieval core, embedded and verified

    A shallow embedding of the backend of the document question-answering
    service: the vector index ([VectorStoreManager]), the chunker
    ([splitText]), the ingestion pipeline ([DocumentIngestionService]), the
    runtime configuration ([updateConfig]) and the query engine ([QAEngine]).

    Conventions of the embedding.
    - A JavaScript string is a [string]; each character stands for one
      UTF-16 code unit below 256, so [String.length] is [.length].
    - A JavaScript number is a rational ([Q]) where the code computes with
      it and a [nat] where it counts or indexes; NaN, the infinities and
      rounding are outside the model.
    - [undefined] is [None].
    - A method that mutates [this] and may throw is a function from the
      object's state to an [outcome] and the state it leaves behind; a
      [throw] does not roll the state back.
    - [await] is sequencing: one request runs at a time.
    - LangChain, the embedding service, the language model, the file system
      and the clock are not code of the repository; they are parameters. *)

From Stdlib Require Import String Ascii ZArith QArith Qminmax List Lia Lqa.
From stdpp Require Import base option list gmap strings pretty fin_maps.

Local Open Scope string_scope.
Local Open Scope list_scope.
Local Open Scope nat_scope.
Set Warnings "-abstract-large-number".

(** ** Errors and outcomes *)

(** The error classes of [models/types.ts] and [config/config.ts];
    [PlainError] is an [Error] of none of those classes. *)
Inductive ErrorClass :=
| VectorStoreError
| DocumentProcessingError
| LLMError
| RetrievalError
| ConfigurationError
| PlainError.

Global Instance ErrorClass_eq_dec : EqDecision ErrorClass.
Proof. solve_decision. Defined.

Record Exn := mkExn { exn_class : ErrorClass; exn_message : string }.

Inductive outcome (A : Type) :=
| Returns (a : A)
| Throws (e : Exn).
Arguments Returns {A} a.
Arguments Throws {A} e.

(** [M S A]: a method of an object with state [S] whose result is an [A]. *)
Definition M (S A : Type) : Type := S → outcome A * S.

Global Instance M_ret {S} : MRet (M S) := λ A a s, (Returns a, s).
Global Instance M_bind {S} : MBind (M S) := λ A B f m s,
  match m s with
  | (Returns a, s') => f a s'
  | (Throws e, s') => (Throws e, s')
  end.

Definition throw {S A} (c : ErrorClass) (msg : string) : M S A :=
  λ s, (Throws (mkExn c msg), s).

Definition get {S} : M S S := λ s, (Returns s, s).
Definition modify {S} (f : S → S) : M S unit := λ s, (Returns tt, f s).

(** An [await]ed call into a collaborator whose result is already known. *)
Definition call {S A} (o : outcome A) : M S A := λ s, (o, s).

(** [try { body } catch (error) { handler(error) }]. *)
Definition try_catch {S A} (body : M S A) (handler : Exn → M S A) : M S A :=
  λ s, match body s with
       | (Returns a, s') => (Returns a, s')
       | (Throws e, s') => handler e s'
       end.

(** [catch (error) { throw new C(`${prefix}${error instanceof Error ?
    error.message : String(error)}`) }]. *)
Definition rethrow_as {S A} (c : ErrorClass) (prefix : string) (e : Exn) : M S A :=
  throw c (prefix +:+ exn_message e).

Definition when_ {S} (b : bool) (m : M S unit) : M S unit :=
  if b then m else mret tt.

(** Sequencing of calls that may throw, outside any object. *)
Definition andThen {A B} (o : outcome A) (k : A → outcome B) : outcome B :=
  match o with
  | Returns a => k a
  | Throws e => Throws e
  end.

(** ** Strings *)

(** ECMAScript WhiteSpace and LineTerminator code units below 256. *)
Definition isWhiteSpace (a : ascii) : bool :=
  let n := nat_of_ascii a in
  (Nat.leb 9 n && Nat.leb n 13) || Nat.eqb n 32 || Nat.eqb n 160.

Fixpoint trimStart (s : string) : string :=
  match s with
  | String a r => if isWhiteSpace a then trimStart r else s
  | EmptyString => EmptyString
  end.

Fixpoint trimEnd (s : string) : string :=
  match s with
  | String a r =>
      match trimEnd r with
      | EmptyString => if isWhiteSpace a then EmptyString else String a EmptyString
      | r' => String a r'
      end
  | EmptyString => EmptyString
  end.

(** [String.prototype.trim]. *)
Definition trim (s : string) : string := trimEnd (trimStart s).

(** [!s || s.trim() === ""]. *)
Definition blank (s : string) : bool :=
  bool_decide (s = "") || bool_decide (trim s = "").

(** ** Documents *)

(** [Document.metadata] is a [Record<string, any>]; the embedding keeps the
    keys the backend reads or writes, each at the type the code uses it at. *)
Record Metadata := mkMetadata {
  md_documentId : option string;
  md_filename : option string;
  md_fileType : option string;
  md_fileSize : option Q;
  md_pageCount : option Q;
  md_chunkIndex : option nat;
  md_totalChunks : option nat;
  md_score : option Q
}.

Definition emptyMetadata : Metadata :=
  mkMetadata None None None None None None None None.

Record Document := mkDocument { pageContent : string; metadata : Metadata }.

(** JavaScript truthiness of a value that is a string or [undefined]. *)
Definition truthy (v : option string) : bool :=
  match v with
  | Some s => negb (bool_decide (s = ""))
  | None => false
  end.

(** A string-or-undefined inside a template literal. *)
Definition interpolate (v : option string) : string :=
  match v with
  | Some s => s
  | None => "undefined"
  end.

(** [doc.metadata.documentId === documentId]. *)
Definition belongsTo (documentId : string) (doc : Document) : bool :=
  bool_decide (md_documentId (metadata doc) = Some documentId).

(** ** The vector index ([services/vectorStore.service.ts]) *)

(** LangChain's [MemoryVectorStore] over [OpenAIEmbeddings], as far as the
    manager uses it.  The store keeps its documents in insertion order; the
    vectors matter only through the order they induce on a query. *)
Class VectorBackend := {
  (** [embeddings.embedDocuments(texts)]: throws when the service fails. *)
  embedDocuments : list string → outcome unit;
  (** The documents of a store, most similar to the query first; throws
      when embedding the query fails. *)
  ranked : string → list Document → outcome (list Document)
}.

(** [Array.prototype.slice(0, k)] for an integer [k]: a negative [k] counts
    back from the end of the array. *)
Definition slice0 {A} (k : Z) (l : list A) : list A :=
  if (0 <=? k)%Z then take (Z.to_nat k) l
  else take (length l - Z.to_nat (- k)) l.

Module MemoryVectorStore.
Section Store.
Context {backend : VectorBackend}.

Definition t := list Document.

(** [new MemoryVectorStore(embeddings)]. *)
Definition create : t := [].

Definition addDocuments (documents : list Document) (vs : t) : outcome t :=
  match embedDocuments (pageContent <$> documents) with
  | Returns _ => Returns (vs ++ documents)
  | Throws e => Throws e
  end.

Definition similaritySearch (query : string) (k : nat) (vs : t)
  : outcome (list Document) :=
  match ranked query vs with
  | Returns r => Returns (take k r)
  | Throws e => Throws e
  end.

(** The same call for an integer [k] that has passed no guard: the library
    cuts the ranking with [.slice(0, k)]. *)
Definition similaritySearchSigned (query : string) (k : Z) (vs : t)
  : outcome (list Document) :=
  match ranked query vs with
  | Returns r => Returns (slice0 k r)
  | Throws e => Throws e
  end.
End Store.
End MemoryVectorStore.

Record VectorStoreManager := mkVSM {
  vectorStore : option MemoryVectorStore.t;
  documentRegistry : gmap string (list string)
}.

Definition setVectorStore (vs : option MemoryVectorStore.t) (s : VectorStoreManager) :=
  mkVSM vs (documentRegistry s).
Definition setDocumentRegistry (reg : gmap string (list string)) (s : VectorStoreManager) :=
  mkVSM (vectorStore s) reg.

(** The manager as its constructor leaves it. *)
Definition newVectorStoreManager : VectorStoreManager := mkVSM None ∅.

(** The chunks the store holds; none before the store exists. *)
Definition storeDocs (s : VectorStoreManager) : list Document :=
  default [] (vectorStore s).

(** [`${documentId}_chunk_${index}_${Date.now()}`]. *)
Definition chunkId (documentId : option string) (index : nat) (now : Z) : string :=
  interpolate documentId +:+ "_chunk_" +:+ pretty index +:+ "_" +:+ pretty now.

(** One turn of the [forEach] of [addDocuments]: mint the id, and register
    it when the chunk's [documentId] is truthy. *)
Definition trackChunk (now : nat → Z)
    (acc : list string * gmap string (list string))
    (index : nat) (doc : Document) : list string * gmap string (list string) :=
  let documentId := md_documentId (metadata doc) in
  let cid := chunkId documentId index (now index) in
  let ids := acc.1 ++ [cid] in
  match documentId with
  | Some d =>
      if truthy (Some d)
      then (ids, <[d := default [] (acc.2 !! d) ++ [cid]]> (acc.2))
      else (ids, acc.2)
  | None => (ids, acc.2)
  end.

Fixpoint trackChunks (now : nat → Z) (index : nat) (documents : list Document)
    (acc : list string * gmap string (list string))
    : list string * gmap string (list string) :=
  match documents with
  | [] => acc
  | doc :: rest => trackChunks now (S index) rest (trackChunk now acc index doc)
  end.

Section Manager.
Context {backend : VectorBackend}.

Definition initializeStore : M VectorStoreManager unit :=
  try_catch
    (s ← get;
     match vectorStore s with
     | Some _ => mret tt
     | None => modify (setVectorStore (Some MemoryVectorStore.create))
     end)
    (rethrow_as VectorStoreError "Failed to initialize vector store: ").

(** [if (!this.vectorStore) { await this.initializeStore(); }]. *)
Definition ensureStore : M VectorStoreManager unit :=
  s ← get;
  when_ (bool_decide (vectorStore s = None)) initializeStore.

(** [now i] is what [Date.now()] reads while the id of the chunk at
    position [i] is minted. *)
Definition addDocuments (now : nat → Z) (documents : list Document)
  : M VectorStoreManager (list string) :=
  try_catch
    (_ ← ensureStore;
     s ← get;
     match vectorStore s with
     | None => throw VectorStoreError "Vector store not initialized"
     | Some vs =>
         if bool_decide (length documents = 0) then mret []
         else
           vs' ← call (MemoryVectorStore.addDocuments documents vs);
           _ ← modify (setVectorStore (Some vs'));
           s ← get;
           let r := trackChunks now 0 documents ([], documentRegistry s) in
           _ ← modify (setDocumentRegistry r.2);
           mret r.1
     end)
    (rethrow_as VectorStoreError "Failed to add documents to vector store: ").

Definition similaritySearch (query : string) (k : nat)
  : M VectorStoreManager (list Document) :=
  try_catch
    (_ ← ensureStore;
     s ← get;
     match vectorStore s with
     | None => throw VectorStoreError "Vector store not initialized"
     | Some vs =>
         if blank query then throw VectorStoreError "Query cannot be empty"
         else if bool_decide (k < 1) then throw VectorStoreError "k must be at least 1"
         else call (MemoryVectorStore.similaritySearch query k vs)
     end)
    (rethrow_as VectorStoreError "Failed to perform similarity search: ").

Definition deleteDocument (documentId : string) : M VectorStoreManager bool :=
  try_catch
    (_ ← ensureStore;
     if blank documentId then throw VectorStoreError "Document ID cannot be empty"
     else
       s ← get;
       match documentRegistry s !! documentId with
       | None => mret false
       | Some chunkIds =>
           if bool_decide (length chunkIds = 0) then mret false
           else
             _ ← match vectorStore s with
                 | Some vs =>
                     allDocs ← call (MemoryVectorStore.similaritySearch "" 10000 vs);
                     let remainingDocs :=
                       filter (λ doc, md_documentId (metadata doc) ≠ Some documentId) allDocs in
                     _ ← modify (setVectorStore (Some MemoryVectorStore.create));
                     if bool_decide (0 < length remainingDocs)
                     then
                       vs' ← call (MemoryVectorStore.addDocuments remainingDocs
                                     MemoryVectorStore.create);
                       modify (setVectorStore (Some vs'))
                     else mret tt
                 | None => mret tt
                 end;
             s ← get;
             _ ← modify (setDocumentRegistry (delete documentId (documentRegistry s)));
             mret true
       end)
    (rethrow_as VectorStoreError "Failed to delete document: ").

(** [Array.from(this.documentRegistry.keys())], up to the order. *)
Definition getStoredDocumentIds (s : VectorStoreManager) : list string :=
  (map_to_list (documentRegistry s)).*1.

Definition hasDocument (documentId : string) (s : VectorStoreManager) : bool :=
  bool_decide (is_Some (documentRegistry s !! documentId)).

Definition getDocumentChunkCount (documentId : string) (s : VectorStoreManager) : nat :=
  match documentRegistry s !! documentId with
  | Some chunkIds => length chunkIds
  | None => 0
  end.

Definition getDocumentMetadata (documentId : string)
  : M VectorStoreManager (list Document) :=
  try_catch
    (_ ← ensureStore;
     if blank documentId then throw VectorStoreError "Document ID cannot be empty"
     else
       s ← get;
       if negb (hasDocument documentId s) then mret []
       else
         allDocs ← call (MemoryVectorStore.similaritySearch "" 10000 (storeDocs s));
         mret (filter (λ doc, belongsTo documentId doc = true) allDocs))
    (rethrow_as VectorStoreError "Failed to retrieve document metadata: ").

(** [k] is an integer, of either sign: this method has no guard on it. *)
Definition searchWithinDocument (documentId query : string) (k : Z)
  : M VectorStoreManager (list Document) :=
  try_catch
    (_ ← ensureStore;
     if blank documentId then throw VectorStoreError "Document ID cannot be empty"
     else if blank query then throw VectorStoreError "Query cannot be empty"
     else
       s ← get;
       if negb (hasDocument documentId s) then mret []
       else
         results ← call (MemoryVectorStore.similaritySearchSigned query (k * 3)
                           (storeDocs s));
         mret (slice0 k (filter (λ doc, belongsTo documentId doc = true) results)))
    (rethrow_as VectorStoreError "Failed to search within document: ").

Record StoreStats := mkStoreStats {
  totalDocuments : nat;
  totalChunks : nat;
  documentIds : list string
}.

Definition getStoreStats (s : VectorStoreManager) : StoreStats :=
  let totalChunks :=
    map_fold (λ _ chunks sum, sum + length chunks) 0 (documentRegistry s) in
  mkStoreStats (size (documentRegistry s)) totalChunks (getStoredDocumentIds s).

Definition clearStore : M VectorStoreManager unit :=
  try_catch
    (_ ← modify (setVectorStore (Some MemoryVectorStore.create));
     modify (setDocumentRegistry ∅))
    (rethrow_as VectorStoreError "Failed to clear vector store: ").

End Manager.

(** A backend whose embedding service is down. *)
Definition downBackend : VectorBackend :=
  {| embedDocuments := λ _, Throws (mkExn PlainError "Connection error.");
     ranked := λ _ _, Throws (mkExn PlainError "Connection error.") |}.

(** A backend that never fails and ranks every document equally, so that a
    search returns the store in insertion order. *)
Definition tieBackend : VectorBackend :=
  {| embedDocuments := λ _, Returns tt; ranked := λ _ docs, Returns docs |}.

(** The number of chunk ids a registry holds for a document. *)
Definition countIn (reg : gmap string (list string)) (d : string) : nat :=
  match reg !! d with
  | Some chunkIds => length chunkIds
  | None => 0
  end.

(** Every key of the registry is a truthy id with at least one chunk id. *)
Definition registry_wf (reg : gmap string (list string)) : Prop :=
  ∀ d chunkIds, reg !! d = Some chunkIds → d ≠ "" ∧ chunkIds ≠ [].

(** The [reduce] of [getStoreStats]. *)
Definition sumChunks (reg : gmap string (list string)) : nat :=
  map_fold (λ _ chunks sum, sum + length chunks) 0 reg.

(** The operations of the vector index, and the manager each leaves behind
    (whether it returned or threw). *)
Inductive VectorIndexOp :=
| OpInitializeStore
| OpAddDocuments (now : nat → Z) (documents : list Document)
| OpSimilaritySearch (query : string) (k : nat)
| OpDeleteDocument (documentId : string)
| OpGetDocumentMetadata (documentId : string)
| OpSearchWithinDocument (documentId query : string) (k : Z)
| OpClearStore.

Definition stateAfter {backend : VectorBackend} (op : VectorIndexOp) (s : VectorStoreManager)
  : VectorStoreManager :=
  match op with
  | OpInitializeStore => (initializeStore s).2
  | OpAddDocuments now documents => (addDocuments now documents s).2
  | OpSimilaritySearch query k => (similaritySearch query k s).2
  | OpDeleteDocument documentId => (deleteDocument documentId s).2
  | OpGetDocumentMetadata documentId => (getDocumentMetadata documentId s).2
  | OpSearchWithinDocument documentId query k =>
      (searchWithinDocument documentId query k s).2
  | OpClearStore => (clearStore s).2
  end.

(** The managers a program can hold: a new one, then any operations. *)
Inductive reachable {backend : VectorBackend} : VectorStoreManager → Prop :=
| reachable_new : reachable newVectorStoreManager
| reachable_step op s : reachable s → reachable (stateAfter op s).

(** ** The runtime configuration ([config/config.ts]) *)

Inductive VectorStoreType := memory | chroma.

(** A configuration whose numbers are finite, as [loadConfig] and the route
    of [PUT /api/config] produce them; module [JS] further down has the
    configuration with NaN, the infinities and [undefined]. *)
Record RAGConfig := mkRAGConfig {
  chunkSize : Q;
  chunkOverlap : Q;
  embeddingModel : string;
  vectorStoreType : VectorStoreType;
  vectorStorePath : option string;
  llmModel : string;
  llmTemperature : Q;
  llmMaxTokens : Q;
  topK : Q;
  scoreThreshold : Q
}.

(** [Partial<RAGConfig>]: [None] is a key the update does not have. *)
Record RAGConfigUpdate := mkRAGConfigUpdate {
  u_chunkSize : option Q;
  u_chunkOverlap : option Q;
  u_embeddingModel : option string;
  u_vectorStoreType : option VectorStoreType;
  u_vectorStorePath : option string;
  u_llmModel : option string;
  u_llmTemperature : option Q;
  u_llmMaxTokens : option Q;
  u_topK : option Q;
  u_scoreThreshold : option Q
}.

Definition noUpdate : RAGConfigUpdate :=
  mkRAGConfigUpdate None None None None None None None None None None.

Definition DEFAULT_CONFIG : RAGConfig := {|
  chunkSize := 1000;
  chunkOverlap := 200;
  embeddingModel := "text-embedding-ada-002";
  vectorStoreType := memory;
  vectorStorePath := Some "./data/vectorstore";
  llmModel := "gpt-3.5-turbo";
  llmTemperature := 0;
  llmMaxTokens := 500;
  topK := 4;
  scoreThreshold := 7 # 10
|}.

(** [a < b] and [a >= b] on numbers. *)
Definition Qltb (a b : Q) : bool := negb (Qle_bool b a).
Definition Qgeb (a b : Q) : bool := Qle_bool b a.

(** A numeric environment variable as [parseNumber] sees it: unset or
    empty, a string [Number] turns into NaN, or a number. *)
Inductive EnvNumber :=
| EnvUnset
| EnvNaN (raw : string)
| EnvNum (parsed : Q).

(** How JavaScript prints a number: [`${n}`] and [n.toFixed(2)]. *)
Class NumberFormat := {
  showNumber : Q → string;
  toFixed2 : Q → string
}.

(** [process.env]. *)
Class ProcessEnv := {
  CHUNK_SIZE : EnvNumber;
  CHUNK_OVERLAP : EnvNumber;
  EMBEDDING_MODEL : option string;
  VECTOR_STORE_TYPE : option string;
  VECTOR_STORE_PATH : option string;
  LLM_MODEL : option string;
  LLM_TEMPERATURE : EnvNumber;
  LLM_MAX_TOKENS : EnvNumber;
  TOP_K : EnvNumber;
  SCORE_THRESHOLD : EnvNumber
}.

Section Config.
Context {env : ProcessEnv} {fmt : NumberFormat}.

Definition parseNumber (value : EnvNumber) (defaultValue : Q)
    (min max : option Q) : outcome Q :=
  match value with
  | EnvUnset => Returns defaultValue
  | EnvNaN raw =>
      Throws (mkExn ConfigurationError
        ("Invalid number value: " +:+ raw +:+ ". Expected a valid number."))
  | EnvNum parsed =>
      if match min with Some m => Qltb parsed m | None => false end
      then Throws (mkExn ConfigurationError
             ("Value " +:+ showNumber parsed
              +:+ " is below minimum allowed value of "
              +:+ showNumber (default 0%Q min)))
      else if match max with Some m => Qltb m parsed | None => false end
      then Throws (mkExn ConfigurationError
             ("Value " +:+ showNumber parsed
              +:+ " exceeds maximum allowed value of "
              +:+ showNumber (default 0%Q max)))
      else Returns parsed
  end.

Definition validateVectorStoreType (value : option string) : outcome VectorStoreType :=
  match value with
  | None => Returns (vectorStoreType DEFAULT_CONFIG)
  | Some v =>
      if bool_decide (v = "") then Returns (vectorStoreType DEFAULT_CONFIG)
      else if bool_decide (v = "memory") then Returns memory
      else if bool_decide (v = "chroma") then Returns chroma
      else Throws (mkExn ConfigurationError
             ("Invalid vector store type: " +:+ v
              +:+ ". Must be either 'memory' or 'chroma'."))
  end.

Definition validateOptionalString (value : option string) (defaultValue : string)
  : string :=
  match value with
  | None => defaultValue
  | Some v => if blank v then defaultValue else trim v
  end.

Definition overlapMessage (c : RAGConfig) : string :=
  "Chunk overlap (" +:+ showNumber (chunkOverlap c)
  +:+ ") must be less than chunk size (" +:+ showNumber (chunkSize c) +:+ ")".

(** Every error raised inside [loadConfig] is a [ConfigurationError], so
    its [catch] rethrows it as it is. *)
Definition loadConfig : outcome RAGConfig :=
  andThen (parseNumber CHUNK_SIZE (chunkSize DEFAULT_CONFIG) (Some 100%Q) (Some 10000%Q))
  (λ cs,
  andThen (parseNumber CHUNK_OVERLAP (chunkOverlap DEFAULT_CONFIG) (Some 0%Q) (Some 5000%Q))
  (λ co,
  andThen (validateVectorStoreType VECTOR_STORE_TYPE)
  (λ vst,
  andThen (parseNumber LLM_TEMPERATURE (llmTemperature DEFAULT_CONFIG) (Some 0%Q) (Some 2%Q))
  (λ temp,
  andThen (parseNumber LLM_MAX_TOKENS (llmMaxTokens DEFAULT_CONFIG) (Some 1%Q) (Some 4000%Q))
  (λ tokens,
  andThen (parseNumber TOP_K (topK DEFAULT_CONFIG) (Some 1%Q) (Some 20%Q))
  (λ k,
  andThen (parseNumber SCORE_THRESHOLD (scoreThreshold DEFAULT_CONFIG) (Some 0%Q) (Some 1%Q))
  (λ threshold,
    let config := {|
      chunkSize := cs;
      chunkOverlap := co;
      embeddingModel :=
        validateOptionalString EMBEDDING_MODEL (embeddingModel DEFAULT_CONFIG);
      vectorStoreType := vst;
      vectorStorePath :=
        Some (validateOptionalString VECTOR_STORE_PATH
                (default "" (vectorStorePath DEFAULT_CONFIG)));
      llmModel := validateOptionalString LLM_MODEL (llmModel DEFAULT_CONFIG);
      llmTemperature := temp;
      llmMaxTokens := tokens;
      topK := k;
      scoreThreshold := threshold
    |} in
    if Qgeb (chunkOverlap config) (chunkSize config)
    then Throws (mkExn ConfigurationError (overlapMessage config))
    else Returns config))))))).

(** The module-level [configInstance]. *)
Definition ConfigInstance := option RAGConfig.

Definition getConfig : M ConfigInstance RAGConfig :=
  configInstance ← get;
  match configInstance with
  | Some config => mret config
  | None =>
      config ← call loadConfig;
      _ ← modify (λ _, Some config);
      mret config
  end.

(** [{ ...currentConfig, ...updates }]. *)
Definition mergeConfig (currentConfig : RAGConfig) (updates : RAGConfigUpdate)
  : RAGConfig := {|
  chunkSize := default (chunkSize currentConfig) (u_chunkSize updates);
  chunkOverlap := default (chunkOverlap currentConfig) (u_chunkOverlap updates);
  embeddingModel := default (embeddingModel currentConfig) (u_embeddingModel updates);
  vectorStoreType := default (vectorStoreType currentConfig) (u_vectorStoreType updates);
  vectorStorePath :=
    match u_vectorStorePath updates with
    | Some p => Some p
    | None => vectorStorePath currentConfig
    end;
  llmModel := default (llmModel currentConfig) (u_llmModel updates);
  llmTemperature := default (llmTemperature currentConfig) (u_llmTemperature updates);
  llmMaxTokens := default (llmMaxTokens currentConfig) (u_llmMaxTokens updates);
  topK := default (topK currentConfig) (u_topK updates);
  scoreThreshold := default (scoreThreshold currentConfig) (u_scoreThreshold updates)
|}.

(** [updateConfig] on finite numbers; [JS.updateConfig] is the function on
    every value, and agrees with this one on these. *)
Definition updateConfig (updates : RAGConfigUpdate) : M ConfigInstance RAGConfig :=
  currentConfig ← getConfig;
  let newConfig := mergeConfig currentConfig updates in
  if Qgeb (chunkOverlap newConfig) (chunkSize newConfig)
  then throw ConfigurationError (overlapMessage newConfig)
  else if Qltb (chunkSize newConfig) 100 || Qltb 10000 (chunkSize newConfig)
  then throw ConfigurationError
         ("Chunk size must be between 100 and 10000, got "
          +:+ showNumber (chunkSize newConfig))
  else if Qltb (topK newConfig) 1 || Qltb 20 (topK newConfig)
  then throw ConfigurationError
         ("topK must be between 1 and 20, got " +:+ showNumber (topK newConfig))
  else if Qltb (llmTemperature newConfig) 0 || Qltb 2 (llmTemperature newConfig)
  then throw ConfigurationError
         ("LLM temperature must be between 0 and 2, got "
          +:+ showNumber (llmTemperature newConfig))
  else if Qltb (scoreThreshold newConfig) 0 || Qltb 1 (scoreThreshold newConfig)
  then throw ConfigurationError
         ("Score threshold must be between 0 and 1, got "
          +:+ showNumber (scoreThreshold newConfig))
  else
    _ ← modify (λ _, Some newConfig);
    mret newConfig.

Definition resetConfig : M ConfigInstance unit := modify (λ _, None).

(** The message of the first check of [updateConfig] a configuration
    fails. *)
Definition rejection (c : RAGConfig) : string :=
  if Qgeb (chunkOverlap c) (chunkSize c) then overlapMessage c
  else if Qltb (chunkSize c) 100 || Qltb 10000 (chunkSize c)
  then "Chunk size must be between 100 and 10000, got " +:+ showNumber (chunkSize c)
  else if Qltb (topK c) 1 || Qltb 20 (topK c)
  then "topK must be between 1 and 20, got " +:+ showNumber (topK c)
  else if Qltb (llmTemperature c) 0 || Qltb 2 (llmTemperature c)
  then "LLM temperature must be between 0 and 2, got "
       +:+ showNumber (llmTemperature c)
  else "Score threshold must be between 0 and 1, got "
       +:+ showNumber (scoreThreshold c).

End Config.

(** The ranges [updateConfig] checks on the merged configuration. *)
Definition accepted (c : RAGConfig) : Prop :=
  (chunkOverlap c < chunkSize c
   ∧ (100 <= chunkSize c ∧ chunkSize c <= 10000)
   ∧ (1 <= topK c ∧ topK c <= 20)
   ∧ (0 <= llmTemperature c ∧ llmTemperature c <= 2)
   ∧ (0 <= scoreThreshold c ∧ scoreThreshold c <= 1))%Q.

(** The same checks, as [updateConfig] evaluates them. *)
Definition acceptedb (c : RAGConfig) : bool :=
  negb (Qgeb (chunkOverlap c) (chunkSize c))
  && negb (Qltb (chunkSize c) 100 || Qltb 10000 (chunkSize c))
  && negb (Qltb (topK c) 1 || Qltb 20 (topK c))
  && negb (Qltb (llmTemperature c) 0 || Qltb 2 (llmTemperature c))
  && negb (Qltb (scoreThreshold c) 0 || Qltb 1 (scoreThreshold c)).

(** An environment that sets nothing. *)
Definition emptyEnv : ProcessEnv := {|
  CHUNK_SIZE := EnvUnset; CHUNK_OVERLAP := EnvUnset; EMBEDDING_MODEL := None;
  VECTOR_STORE_TYPE := None; VECTOR_STORE_PATH := None; LLM_MODEL := None;
  LLM_TEMPERATURE := EnvUnset; LLM_MAX_TOKENS := EnvUnset; TOP_K := EnvUnset;
  SCORE_THRESHOLD := EnvUnset
|}.

(** Numbers printed as fractions. *)
Definition fractionFormat : NumberFormat := {|
  showNumber := λ q, pretty (Qnum q) +:+ "/" +:+ pretty (Zpos (Qden q));
  toFixed2 := λ q, pretty (Qnum q) +:+ "/" +:+ pretty (Zpos (Qden q))
|}.

(** ** The chunker ([utils/textSplitter.ts]) *)

(** LangChain's [RecursiveCharacterTextSplitter]:
    [new RecursiveCharacterTextSplitter({chunkSize, chunkOverlap,
    separators}).createDocuments([text], [metadata])]. *)
Class TextSplitter := {
  createDocuments : Q → Q → string → Metadata → outcome (list Document)
}.

(** [{ ...metadata, chunkIndex: index, totalChunks: total }]. *)
Definition withChunkPosition (m : Metadata) (index total : nat) : Metadata := {|
  md_documentId := md_documentId m;
  md_filename := md_filename m;
  md_fileType := md_fileType m;
  md_fileSize := md_fileSize m;
  md_pageCount := md_pageCount m;
  md_chunkIndex := Some index;
  md_totalChunks := Some total;
  md_score := md_score m
|}.

(** The [.length] of a string, as a number. *)
Definition lengthOf (s : string) : Q := inject_Z (Z.of_nat (String.length s)).

(** [catch (error) { if (error instanceof DocumentProcessingError) throw
    error; throw new DocumentProcessingError(`${prefix}${message}`) }]. *)
Definition keepProcessingError {A} (prefix : string) (o : outcome A) : outcome A :=
  match o with
  | Returns a => Returns a
  | Throws e =>
      if bool_decide (exn_class e = DocumentProcessingError) then Throws e
      else Throws (mkExn DocumentProcessingError (prefix +:+ exn_message e))
  end.

Section Chunker.
Context {splitter : TextSplitter} {fmt : NumberFormat}.

(** [extra] is the [metadata] argument of the source. *)
Definition splitText (text : string) (config : RAGConfig) (extra : Metadata)
  : outcome (list Document) :=
  keepProcessingError "Failed to split text: "
    (if blank text
     then Throws (mkExn DocumentProcessingError "Cannot split empty document")
     else
       let trimmedText := trim text in
       if Qle_bool (lengthOf trimmedText) (chunkSize config)
       then Returns [mkDocument trimmedText (withChunkPosition extra 0 1)]
       else
         andThen (createDocuments (chunkSize config) (chunkOverlap config)
                    trimmedText extra)
           (λ documents,
              Returns (imap (λ index doc,
                               mkDocument (pageContent doc)
                                 (withChunkPosition (metadata doc) index
                                    (length documents)))
                         documents))).

(** [validateSplittingConfig] on finite numbers; [JS.validateSplittingConfig]
    is the function on every value. *)
Definition validateSplittingConfig (config : RAGConfig) : outcome unit :=
  if Qle_bool (chunkSize config) 0
  then Throws (mkExn DocumentProcessingError
         ("Invalid chunk size: " +:+ showNumber (chunkSize config)
          +:+ ". Must be greater than 0."))
  else if Qltb (chunkOverlap config) 0
  then Throws (mkExn DocumentProcessingError
         ("Invalid chunk overlap: " +:+ showNumber (chunkOverlap config)
          +:+ ". Must be non-negative."))
  else if Qgeb (chunkOverlap config) (chunkSize config)
  then Throws (mkExn DocumentProcessingError
         ("Chunk overlap (" +:+ showNumber (chunkOverlap config)
          +:+ ") must be less than chunk size ("
          +:+ showNumber (chunkSize config) +:+ ")"))
  else Returns tt.

End Chunker.

(** ** The document loaders ([utils/documentLoaders.ts]) *)

Inductive DocumentType := PDF | TXT | DOCX.

Definition documentTypeName (t : DocumentType) : string :=
  match t with PDF => "pdf" | TXT => "txt" | DOCX => "docx" end.

Record LoadedDocument := mkLoadedDocument {
  ld_content : string;
  ld_filename : string;
  ld_fileType : string;
  ld_fileSize : Q;
  ld_pageCount : option Q
}.

(** Node's [fs/promises] and [path], [pdf-parse] and [mammoth]. *)
Class FileSystem := {
  (** [(await fs.stat(p)).size]. *)
  fs_stat_size : string → outcome Q;
  fs_access : string → outcome unit;
  fs_readFile : string → outcome string;
  (** [pdfParse(buffer)]: the text and the number of pages. *)
  pdfParse : string → outcome (string * Q);
  (** [(await mammoth.extractRawText({ path })).value]. *)
  mammoth_extractRawText : string → outcome string;
  path_basename : string → string;
  path_extname : string → string;
  toLowerCase : string → string
}.

(** [s.replace(".", "")]: the first dot goes. *)
Fixpoint removeFirstDot (s : string) : string :=
  match s with
  | String a r => if bool_decide (a = "."%char) then r else String a (removeFirstDot r)
  | EmptyString => EmptyString
  end.

Section Loaders.
Context {fs : FileSystem} {fmt : NumberFormat}.

Definition detectDocumentType (filename : string) : outcome DocumentType :=
  let ext := removeFirstDot (toLowerCase (path_extname filename)) in
  if bool_decide (ext = "pdf") then Returns PDF
  else if bool_decide (ext = "txt") then Returns TXT
  else if bool_decide (ext = "docx") then Returns DOCX
  else Throws (mkExn DocumentProcessingError
         ("Unsupported file type: " +:+ ext
          +:+ ". Supported types are: PDF, TXT, DOCX")).

Definition loadPDF (filePath : string) : outcome LoadedDocument :=
  keepProcessingError "Failed to load PDF file: "
    (andThen (fs_readFile filePath) (λ dataBuffer,
     andThen (pdfParse dataBuffer) (λ data,
     if blank data.1
     then Throws (mkExn DocumentProcessingError
            "PDF document is empty or contains no extractable text")
     else
       andThen (fs_stat_size filePath) (λ size,
       Returns (mkLoadedDocument data.1 (path_basename filePath) "pdf" size
                  (Some data.2)))))).

Definition loadTXT (filePath : string) : outcome LoadedDocument :=
  keepProcessingError "Failed to load TXT file: "
    (andThen (fs_readFile filePath) (λ content,
     if blank content
     then Throws (mkExn DocumentProcessingError "TXT document is empty")
     else
       andThen (fs_stat_size filePath) (λ size,
       Returns (mkLoadedDocument content (path_basename filePath) "txt" size None)))).

Definition loadDOCX (filePath : string) : outcome LoadedDocument :=
  keepProcessingError "Failed to load DOCX file: "
    (andThen (mammoth_extractRawText filePath) (λ value,
     if blank value
     then Throws (mkExn DocumentProcessingError
            "DOCX document is empty or contains no extractable text")
     else
       andThen (fs_stat_size filePath) (λ size,
       Returns (mkLoadedDocument value (path_basename filePath) "docx" size None)))).

Definition loadDocument (filePath : string) : outcome LoadedDocument :=
  match fs_access filePath with
  | Throws _ =>
      Throws (mkExn DocumentProcessingError
        ("File not found or not accessible: " +:+ filePath))
  | Returns _ =>
      let filename := path_basename filePath in
      andThen (detectDocumentType filename) (λ documentType,
      match documentType with
      | PDF => loadPDF filePath
      | TXT => loadTXT filePath
      | DOCX => loadDOCX filePath
      end)
  end.

(** [maxSizeBytes] is [10485760] when the caller passes none. *)
Definition validateFile (filePath : string) (maxSizeBytes : option Q) : outcome unit :=
  let maxSizeBytes := default 10485760%Q maxSizeBytes in
  keepProcessingError "File validation failed: "
    (andThen (fs_stat_size filePath) (λ size,
     if Qeq_bool size 0
     then Throws (mkExn DocumentProcessingError "File is empty")
     else if Qltb maxSizeBytes size
     then
       let maxSizeMB := toFixed2 (maxSizeBytes / (1024 * 1024)) in
       let fileSizeMB := toFixed2 (size / (1024 * 1024)) in
       Throws (mkExn DocumentProcessingError
         ("File size (" +:+ fileSizeMB +:+ "MB) exceeds maximum allowed size ("
          +:+ maxSizeMB +:+ "MB)"))
     else
       andThen (detectDocumentType (path_basename filePath)) (λ _, Returns tt))).

End Loaders.

(** ** The ingestion pipeline ([DocumentIngestionService]) *)

Inductive IngestionStatusName := processing | completed | failed.

Record DocumentMetadata := mkDocumentMetadata {
  dm_documentId : string;
  dm_filename : string;
  dm_fileType : string;
  dm_uploadDate : Z;
  dm_chunkCount : nat;
  dm_fileSize : Q
}.

Record IngestionState := mkIngestionState {
  is_documentId : string;
  is_status : IngestionStatusName;
  is_progress : nat;
  is_error : option string;
  is_metadata : option DocumentMetadata;
  is_chunks : option (list Document)
}.

Record IngestResult := mkIngestResult {
  success : bool;
  ir_documentId : string;
  ir_chunkCount : nat;
  ir_error : option string
}.

Record IngestionStatus := mkIngestionStatus {
  st_documentId : string;
  st_status : IngestionStatusName;
  st_progress : nat
}.

(** [state.status = status; state.progress = progress; if (error)
    state.error = error]. *)
Definition progressed (status : IngestionStatusName) (progress : nat)
    (error : option string) (state : IngestionState) : IngestionState := {|
  is_documentId := is_documentId state;
  is_status := status;
  is_progress := progress;
  is_error := if truthy error then error else is_error state;
  is_metadata := is_metadata state;
  is_chunks := is_chunks state
|}.

(** [state.metadata = metadata; state.chunks = chunks]. *)
Definition finished (metadata : DocumentMetadata) (chunks : list Document)
    (state : IngestionState) : IngestionState := {|
  is_documentId := is_documentId state;
  is_status := is_status state;
  is_progress := is_progress state;
  is_error := is_error state;
  is_metadata := Some metadata;
  is_chunks := Some chunks
|}.

(** The service's [ingestionStates]. *)
Abbreviation IngestionStates := (gmap string IngestionState).

Section Ingestion.
Context {fs : FileSystem} {splitter : TextSplitter} {fmt : NumberFormat}.

Definition updateProgress (documentId : string) (status : IngestionStatusName)
    (progress : nat) (error : option string) : M IngestionStates unit :=
  modify (alter (progressed status progress error) documentId).

(** The metadata [ingestDocument] hands to [splitText]. *)
Definition chunkMetadata (documentId : string) (loadedDoc : LoadedDocument)
  : Metadata := {|
  md_documentId := Some documentId;
  md_filename := Some (ld_filename loadedDoc);
  md_fileType := Some (ld_fileType loadedDoc);
  md_fileSize := Some (ld_fileSize loadedDoc);
  md_pageCount := ld_pageCount loadedDoc;
  md_chunkIndex := None;
  md_totalChunks := None;
  md_score := None
|}.

(** [uuid] is what [randomUUID()] returns and [today] what [new Date()]
    reads during the call. *)
Definition ingestDocument (uuid : string) (today : Z)
    (filePath : string) (config : RAGConfig) (maxFileSize : option Q)
  : M IngestionStates IngestResult :=
  let documentId := uuid in
  _ ← modify (insert documentId
                (mkIngestionState documentId processing 0 None None None));
  try_catch
    (_ ← updateProgress documentId processing 10 None;
     _ ← call (validateFile filePath maxFileSize);
     _ ← call (validateSplittingConfig config);
     _ ← updateProgress documentId processing 40 None;
     loadedDoc ← call (loadDocument filePath);
     _ ← updateProgress documentId processing 70 None;
     chunks ← call (splitText (ld_content loadedDoc) config
                      (chunkMetadata documentId loadedDoc));
     _ ← updateProgress documentId processing 90 None;
     let metadata :=
       mkDocumentMetadata documentId (ld_filename loadedDoc) (ld_fileType loadedDoc)
         today (length chunks) (ld_fileSize loadedDoc) in
     _ ← modify (alter (finished metadata chunks) documentId);
     _ ← updateProgress documentId completed 100 None;
     mret (mkIngestResult true documentId (length chunks) None))
    (λ error,
       let errorMessage := exn_message error in
       _ ← updateProgress documentId failed 0 (Some errorMessage);
       mret (mkIngestResult false documentId 0 (Some errorMessage))).

Definition getIngestionStatus (documentId : string)
  : M IngestionStates IngestionStatus :=
  states ← get;
  match states !! documentId with
  | None =>
      throw DocumentProcessingError
        ("No ingestion record found for document ID: " +:+ documentId)
  | Some state =>
      mret (mkIngestionStatus (is_documentId state) (is_status state)
              (is_progress state))
  end.

Definition getDocumentChunks (documentId : string) (states : IngestionStates)
  : option (list Document) :=
  state ← states !! documentId; is_chunks state.

Definition removeDocument (documentId : string) : M IngestionStates bool :=
  states ← get;
  _ ← modify (delete documentId);
  mret (bool_decide (is_Some (states !! documentId))).

(** The steps of [ingestDocument] that can fail, in the order it runs
    them, without the bookkeeping in between. *)
Definition prepared (uuid : string) (filePath : string) (config : RAGConfig)
    (maxFileSize : option Q) : outcome (LoadedDocument * list Document) :=
  andThen (validateFile filePath maxFileSize) (λ _,
  andThen (validateSplittingConfig config) (λ _,
  andThen (loadDocument filePath) (λ loadedDoc,
  andThen (splitText (ld_content loadedDoc) config (chunkMetadata uuid loadedDoc))
    (λ chunks, Returns (loadedDoc, chunks))))).

End Ingestion.

(** ** The query engine ([QAEngine]) *)

Record SourceDocument := mkSourceDocument {
  sd_documentId : string;
  sd_filename : string;
  sd_content : string;
  sd_chunkIndex : nat;
  sd_relevanceScore : Q
}.

Record QAResponse := mkQAResponse {
  answer : string;
  sources : list SourceDocument;
  confidence : Q;
  processingTime : Z
}.

Record QAConfig := mkQAConfig {
  qa_topK : Q;
  qa_temperature : Q;
  qa_maxTokens : Q
}.

(** [Partial<QAConfig>]. *)
Record QAConfigOverrides := mkQAConfigOverrides {
  o_topK : option Q;
  o_temperature : option Q;
  o_maxTokens : option Q
}.

Inductive Role := user | assistant.
Record Message := mkMessage { role : Role; content : string }.

Inductive BaseMessage :=
| HumanMessage (text : string)
| AIMessage (text : string).

(** [new ChatOpenAI({ modelName, temperature, maxTokens, openAIApiKey })];
    the key is the same for every client and is left out. *)
Record ChatOpenAI := mkChatOpenAI {
  modelName : string;
  temperature : Q;
  maxTokens : Q
}.

(** What a chain is built from.  A chain keeps the retriever and the
    language-model client it was given when it was built. *)
Inductive Retriever :=
| StoreRetriever (k : Q)
| HistoryAwareRetriever (rephraseLlm : ChatOpenAI) (retriever : Retriever).

Record RetrievalChain := mkRetrievalChain {
  chain_retriever : Retriever;
  chain_llm : ChatOpenAI;
  chain_with_history : bool
}.

(** What [chain.invoke] resolves to. *)
Record ChainResult := mkChainResult {
  result_answer : option string;
  result_context : option (list Document)
}.

(** LangChain's [chain.invoke({ input, chat_history })]: the retrieval and
    the call of the language model. *)
Class ChainRunner := {
  invoke : RetrievalChain → string → option (list BaseMessage) → outcome ChainResult
}.

Record QAEngine := mkQAEngine {
  llm : ChatOpenAI;
  qaChain : option RetrievalChain;
  conversationalChain : option RetrievalChain;
  chatHistory : list BaseMessage
}.

(** The objects a question touches: the module-level configuration, the
    vector store manager the engine was given, and the engine. *)
Record Service := mkService {
  configInstance : option RAGConfig;
  storeManager : VectorStoreManager;
  engine : QAEngine
}.

Definition onConfig {A} (m : M (option RAGConfig) A) : M Service A :=
  λ s, let r := m (configInstance s) in
       (r.1, mkService r.2 (storeManager s) (engine s)).

Definition onManager {A} (m : M VectorStoreManager A) : M Service A :=
  λ s, let r := m (storeManager s) in
       (r.1, mkService (configInstance s) r.2 (engine s)).

Definition setEngine (f : QAEngine → QAEngine) : M Service unit :=
  modify (λ s, mkService (configInstance s) (storeManager s) (f (engine s))).

Definition setLlm (client : ChatOpenAI) (e : QAEngine) : QAEngine :=
  mkQAEngine client (qaChain e) (conversationalChain e) (chatHistory e).
Definition setQaChain (chain : RetrievalChain) (e : QAEngine) : QAEngine :=
  mkQAEngine (llm e) (Some chain) (conversationalChain e) (chatHistory e).
Definition setConversationalChain (chain : RetrievalChain) (e : QAEngine) : QAEngine :=
  mkQAEngine (llm e) (qaChain e) (Some chain) (chatHistory e).

(** [a || b] on a string that may be [undefined]. *)
Definition orElse (a : option string) (b : string) : string :=
  match a with
  | Some s => if bool_decide (s = "") then b else s
  | None => b
  end.

Definition formatSourceDocuments (documents : list Document) : list SourceDocument :=
  imap (λ index doc,
          let metadata := metadata doc in
          {| sd_documentId := orElse (md_documentId metadata) ("unknown_" +:+ pretty index);
             sd_filename := orElse (md_filename metadata) "Unknown";
             sd_content := orElse (Some (pageContent doc)) "";
             sd_chunkIndex := default index (md_chunkIndex metadata);
             sd_relevanceScore := default 1%Q (md_score metadata) |})
       documents.

(** [scores.reduce((sum, score) => sum + score, 0)]; every score left by
    the filter is a number. *)
Definition sumScores (scores : list (option Q)) : Q :=
  foldl (λ sum score, sum + default 0 score)%Q 0%Q scores.

Definition calculateConfidence (documents : list Document) : Q :=
  if bool_decide (length documents = 0) then 0%Q
  else
    let scores :=
      filter (λ score, score ≠ None) ((λ doc, md_score (metadata doc)) <$> documents) in
    if bool_decide (0 < length scores)
    then
      let avgScore := (sumScores scores / inject_Z (Z.of_nat (length scores)))%Q in
      Qmin 1 (Qmax 0 avgScore)
    else
      let baseConfidence := Qmin (inject_Z (Z.of_nat (length documents)) / 4) 1 in
      (baseConfidence * (8 # 10))%Q.

(** [catch (error) { if (error instanceof RetrievalError || error
    instanceof LLMError) throw error; throw new LLMError(...) }]: what the
    caller gets to see of an error. *)
Definition queryError (prefix : string) (e : Exn) : Exn :=
  if bool_decide (exn_class e = RetrievalError) || bool_decide (exn_class e = LLMError)
  then e
  else mkExn LLMError (prefix +:+ exn_message e).

Definition keepQueryError {S A} (prefix : string) (e : Exn) : M S A :=
  λ s, (Throws (queryError prefix e), s).

Section Engine.
Context {env : ProcessEnv} {fmt : NumberFormat} {runner : ChainRunner}.

(** The engine as its constructor leaves it. *)
Definition newQAEngine (config : RAGConfig) : QAEngine :=
  mkQAEngine (mkChatOpenAI (llmModel config) (llmTemperature config)
                (llmMaxTokens config))
    None None [].

Definition initializeQAChain (config : QAConfig) : M Service unit :=
  try_catch
    (_ ← onManager initializeStore;
     s ← get;
     match vectorStore (storeManager s) with
     | None => throw RetrievalError "Vector store not initialized"
     | Some _ =>
         let retriever := StoreRetriever (qa_topK config) in
         setEngine (setQaChain (mkRetrievalChain retriever (llm (engine s)) false))
     end)
    (rethrow_as LLMError "Failed to initialize QA chain: ").

Definition initializeConversationalChain (config : QAConfig) : M Service unit :=
  try_catch
    (_ ← onManager initializeStore;
     s ← get;
     match vectorStore (storeManager s) with
     | None => throw RetrievalError "Vector store not initialized"
     | Some _ =>
         let retriever := StoreRetriever (qa_topK config) in
         let historyAwareRetriever :=
           HistoryAwareRetriever (llm (engine s)) retriever in
         setEngine (setConversationalChain
                      (mkRetrievalChain historyAwareRetriever (llm (engine s)) true))
     end)
    (rethrow_as LLMError "Failed to initialize conversational chain: ").

(** [config?.topK ?? ragConfig.topK] and its like. *)
Definition mergeQAConfig (config : option QAConfigOverrides) (ragConfig : RAGConfig)
  : QAConfig := {|
  qa_topK := default (topK ragConfig) (config ≫= o_topK);
  qa_temperature := default (llmTemperature ragConfig) (config ≫= o_temperature);
  qa_maxTokens := default (llmMaxTokens ragConfig) (config ≫= o_maxTokens)
|}.

(** [config?.temperature !== undefined || config?.maxTokens !== undefined]. *)
Definition overridesModel (config : option QAConfigOverrides) : bool :=
  bool_decide (is_Some (config ≫= o_temperature))
  || bool_decide (is_Some (config ≫= o_maxTokens)).

(** The engine after the update of its [llm] field that both ways of
    asking start with. *)
Definition withOverrides (config : option QAConfigOverrides) (ragConfig : RAGConfig)
    (e : QAEngine) : QAEngine :=
  if overridesModel config
  then setLlm (mkChatOpenAI (llmModel ragConfig)
                 (qa_temperature (mergeQAConfig config ragConfig))
                 (qa_maxTokens (mergeQAConfig config ragConfig))) e
  else e.

(** The response built from what the chain resolved to. *)
Definition respond (result : ChainResult) (startTime endTime : Z) : QAResponse :=
  let answer := orElse (result_answer result) "" in
  let sourceDocuments := default [] (result_context result) in
  mkQAResponse answer (formatSourceDocuments sourceDocuments)
    (calculateConfidence sourceDocuments) (endTime - startTime).

(** [startTime] and [endTime] are the two readings of [Date.now()]. *)
Definition askQuestion (startTime endTime : Z) (question : string)
    (config : option QAConfigOverrides) : M Service QAResponse :=
  try_catch
    (if blank question then throw RetrievalError "Question cannot be empty"
     else
       ragConfig ← onConfig getConfig;
       let qaConfig := mergeQAConfig config ragConfig in
       _ ← when_ (overridesModel config)
             (setEngine (setLlm (mkChatOpenAI (llmModel ragConfig)
                                   (qa_temperature qaConfig) (qa_maxTokens qaConfig))));
       s ← get;
       _ ← when_ (bool_decide (qaChain (engine s) = None)) (initializeQAChain qaConfig);
       s ← get;
       match qaChain (engine s) with
       | None => throw LLMError "QA chain not initialized"
       | Some chain =>
           result ← call (invoke chain question None);
           mret (respond result startTime endTime)
       end)
    (keepQueryError "Failed to process question: ").

Definition formatHistory (chatHistory : list Message) : list BaseMessage :=
  (λ message,
     match role message with
     | user => HumanMessage (content message)
     | assistant => AIMessage (content message)
     end) <$> chatHistory.

Definition askWithHistory (startTime endTime : Z) (question : string)
    (chatHistory : list Message) (config : option QAConfigOverrides)
  : M Service QAResponse :=
  try_catch
    (if blank question then throw RetrievalError "Question cannot be empty"
     else
       ragConfig ← onConfig getConfig;
       let qaConfig := mergeQAConfig config ragConfig in
       _ ← when_ (overridesModel config)
             (setEngine (setLlm (mkChatOpenAI (llmModel ragConfig)
                                   (qa_temperature qaConfig) (qa_maxTokens qaConfig))));
       s ← get;
       _ ← when_ (bool_decide (conversationalChain (engine s) = None))
             (initializeConversationalChain qaConfig);
       s ← get;
       match conversationalChain (engine s) with
       | None => throw LLMError "Conversational chain not initialized"
       | Some chain =>
           let formattedHistory := formatHistory chatHistory in
           result ← call (invoke chain question (Some formattedHistory));
           mret (respond result startTime endTime)
       end)
    (keepQueryError "Failed to process question with history: ").

End Engine.

(** The confidence as the specification words it. *)
Definition presentScores (documents : list Document) : list Q :=
  omap (λ doc, md_score (metadata doc)) documents.

Definition mean (scores : list Q) : Q :=
  (foldr Qplus 0 scores / inject_Z (Z.of_nat (length scores)))%Q.

Definition clamp01 (x : Q) : Q :=
  if Qltb x 0 then 0%Q else if Qltb 1 x then 1%Q else x.

(** A runner that answers with the question and no context. *)
Definition echoRunner : ChainRunner :=
  {| invoke := λ _ input _, Returns (mkChainResult (Some input) None) |}.

(** A service whose engine has built its chain under the default
    configuration: four chunks per question, temperature 0. *)
Definition defaultClient : ChatOpenAI := mkChatOpenAI "gpt-3.5-turbo" 0 500.
Definition builtChain : RetrievalChain :=
  mkRetrievalChain (StoreRetriever 4) defaultClient false.
Definition builtConversation : RetrievalChain :=
  mkRetrievalChain (HistoryAwareRetriever defaultClient (StoreRetriever 4))
    defaultClient true.
Definition freshService : Service :=
  mkService (Some DEFAULT_CONFIG) newVectorStoreManager
    (mkQAEngine defaultClient None None []).
Definition readyService : Service :=
  mkService (Some DEFAULT_CONFIG) (mkVSM (Some []) ∅)
    (mkQAEngine defaultClient (Some builtChain) (Some builtConversation) []).

(** Overrides asking for ten chunks at temperature 1. *)
Definition tenChunksWarm : QAConfigOverrides :=
  mkQAConfigOverrides (Some 10%Q) (Some 1%Q) None.

(** ** The rest of the vector index *)

(** [MemoryVectorStore.similaritySearchWithScore]: the documents of a store
    with their similarity to the query, most similar first. *)
Class ScoringBackend := {
  rankedWithScore : string → list Document → outcome (list (Document * Q))
}.

Definition similaritySearchWithScore {scoring : ScoringBackend}
    (query : string) (k : nat) : M VectorStoreManager (list (Document * Q)) :=
  try_catch
    (_ ← ensureStore;
     s ← get;
     match vectorStore s with
     | None => throw VectorStoreError "Vector store not initialized"
     | Some vs =>
         if blank query then throw VectorStoreError "Query cannot be empty"
         else if bool_decide (k < 1) then throw VectorStoreError "k must be at least 1"
         else call (match rankedWithScore query vs with
                    | Returns r => Returns (take k r)
                    | Throws e => Throws e
                    end)
     end)
    (rethrow_as VectorStoreError "Failed to perform similarity search with scores: ").

(** A scoring backend that gives every document the similarity 1. *)
Definition tieScoring : ScoringBackend :=
  {| rankedWithScore := λ _ docs, Returns ((λ doc, (doc, 1%Q)) <$> docs) |}.

(** The manager with its store created, as [ensureStore] leaves it. *)
Definition readied (s : VectorStoreManager) : VectorStoreManager :=
  setVectorStore (Some (storeDocs s)) s.

(** A backend that can rank but whose embedding of documents is down. *)
Definition scanOnlyBackend : VectorBackend :=
  {| embedDocuments := λ _, Throws (mkExn PlainError "Connection error.");
     ranked := λ _ docs, Returns docs |}.

(** ** The rest of the ingestion service *)

Global Instance IngestionStatusName_eq_dec : EqDecision IngestionStatusName.
Proof. solve_decision. Defined.

Module Ingestion.

Definition getDocumentMetadata (documentId : string) (states : IngestionStates)
  : option DocumentMetadata :=
  state ← states !! documentId; is_metadata state.

(** [state.metadata && state.status === "completed"]. *)
Definition listed (state : IngestionState) : option DocumentMetadata :=
  match is_metadata state with
  | Some metadata =>
      if bool_decide (is_status state = completed) then Some metadata else None
  | None => None
  end.

(** The metadata of the completed documents, up to the order. *)
Definition getAllDocuments (states : IngestionStates) : list DocumentMetadata :=
  omap (λ entry, listed entry.2) (map_to_list states).

Definition clearAll : M IngestionStates unit := modify (λ _, ∅).

Definition getDocumentCount (states : IngestionStates) : nat := size states.

End Ingestion.

(** What [ingestDocument] returns, and the state it records for the
    document, by the outcome of the steps that can fail. *)
Definition ingestResult (uuid : string)
    (o : outcome (LoadedDocument * list Document)) : IngestResult :=
  match o with
  | Returns (_, chunks) => mkIngestResult true uuid (length chunks) None
  | Throws e => mkIngestResult false uuid 0 (Some (exn_message e))
  end.

Definition ingestedMetadata (uuid : string) (today : Z)
    (loadedDoc : LoadedDocument) (chunks : list Document) : DocumentMetadata :=
  mkDocumentMetadata uuid (ld_filename loadedDoc) (ld_fileType loadedDoc) today
    (length chunks) (ld_fileSize loadedDoc).

Definition ingestedState (uuid : string) (today : Z)
    (o : outcome (LoadedDocument * list Document)) : IngestionState :=
  match o with
  | Returns (loadedDoc, chunks) =>
      mkIngestionState uuid completed 100 None
        (Some (ingestedMetadata uuid today loadedDoc chunks)) (Some chunks)
  | Throws e =>
      mkIngestionState uuid failed 0
        (if truthy (Some (exn_message e)) then Some (exn_message e) else None)
        None None
  end.

(** ** The rest of the configuration *)

(** The variables of [process.env] the server reads. *)
Class ServerEnv := {
  PORT : EnvNumber;
  NODE_ENV : option string;
  MAX_FILE_SIZE : EnvNumber;
  UPLOAD_DIR : option string;
  OPENAI_API_KEY : option string
}.

Record ServerConfig := mkServerConfig {
  port : Q;
  nodeEnv : string;
  maxFileSize : Q;
  uploadDir : string
}.

Section ServerConfiguration.
Context {server : ServerEnv} {fmt : NumberFormat}.

Definition validateRequiredString (value : option string) (fieldName : string)
  : outcome string :=
  match value with
  | Some v =>
      if blank v
      then Throws (mkExn ConfigurationError
             (fieldName +:+ " is required but not provided in environment variables"))
      else Returns (trim v)
  | None =>
      Throws (mkExn ConfigurationError
        (fieldName +:+ " is required but not provided in environment variables"))
  end.

Definition validateApiKey : outcome string :=
  validateRequiredString OPENAI_API_KEY "OPENAI_API_KEY".

Definition getServerConfig : outcome ServerConfig :=
  andThen (parseNumber PORT 5000 (Some 1%Q) (Some 65535%Q)) (λ port,
  andThen (parseNumber MAX_FILE_SIZE 10485760 (Some 1024%Q) None) (λ maxFileSize,
  Returns (mkServerConfig port (orElse NODE_ENV "development") maxFileSize
             (orElse UPLOAD_DIR "./uploads")))).

End ServerConfiguration.

(** The ranges the configuration documents: the ones [updateConfig] checks,
    and those of [chunkOverlap] and [llmMaxTokens]. *)
Definition documentedRanges (c : RAGConfig) : Prop :=
  accepted c
  ∧ (0 <= chunkOverlap c ∧ chunkOverlap c <= 5000
     ∧ 1 <= llmMaxTokens c ∧ llmMaxTokens c <= 4000)%Q.

(** A server environment that sets the port and the API key. *)
Definition portEnv : ServerEnv := {|
  PORT := EnvNum 8080; NODE_ENV := None; MAX_FILE_SIZE := EnvUnset;
  UPLOAD_DIR := None; OPENAI_API_KEY := Some "  sk-test  "
|}.

(** An environment that asks for chunks of 500 characters. *)
Definition smallChunksEnv : ProcessEnv := {|
  CHUNK_SIZE := EnvNum 500; CHUNK_OVERLAP := EnvNum 50; EMBEDDING_MODEL := None;
  VECTOR_STORE_TYPE := Some "chroma"; VECTOR_STORE_PATH := None; LLM_MODEL := None;
  LLM_TEMPERATURE := EnvUnset; LLM_MAX_TOKENS := EnvUnset; TOP_K := EnvNum 8;
  SCORE_THRESHOLD := EnvUnset
|}.

(** ** The rest of the query engine *)

Definition clearHistory (e : QAEngine) : QAEngine :=
  mkQAEngine (llm e) (qaChain e) (conversationalChain e) [].

(** [[...this.chatHistory]]. *)
Definition getHistory (e : QAEngine) : list BaseMessage := chatHistory e.

Definition addToHistory (r : Role) (text : string) (e : QAEngine) : QAEngine :=
  mkQAEngine (llm e) (qaChain e) (conversationalChain e)
    (chatHistory e ++ [match r with
                       | user => HumanMessage text
                       | assistant => AIMessage text
                       end]).

Definition setChatHistory (history : list BaseMessage) (s : Service) : Service :=
  mkService (configInstance s) (storeManager s)
    (mkQAEngine (llm (engine s)) (qaChain (engine s))
       (conversationalChain (engine s)) history).

(** The chain a question runs through: the one the engine holds, or the one
    [initializeQAChain] builds from the merged configuration. *)
Definition questionChain (config : option QAConfigOverrides) (ragConfig : RAGConfig)
    (e : QAEngine) : RetrievalChain :=
  match qaChain e with
  | Some chain => chain
  | None =>
      mkRetrievalChain
        (StoreRetriever (default (topK ragConfig) (config ≫= o_topK)))
        (llm (if bool_decide (is_Some (config ≫= o_temperature))
                 || bool_decide (is_Some (config ≫= o_maxTokens))
              then setLlm (mkChatOpenAI (llmModel ragConfig)
                             (default (llmTemperature ragConfig)
                                (config ≫= o_temperature))
                             (default (llmMaxTokens ragConfig)
                                (config ≫= o_maxTokens))) e
              else e))
        false
  end.

Definition conversationChain (config : option QAConfigOverrides)
    (ragConfig : RAGConfig) (e : QAEngine) : RetrievalChain :=
  match conversationalChain e with
  | Some chain => chain
  | None =>
      let client :=
        llm (if bool_decide (is_Some (config ≫= o_temperature))
                || bool_decide (is_Some (config ≫= o_maxTokens))
             then setLlm (mkChatOpenAI (llmModel ragConfig)
                            (default (llmTemperature ragConfig)
                               (config ≫= o_temperature))
                            (default (llmMaxTokens ragConfig)
                               (config ≫= o_maxTokens))) e
             else e) in
      mkRetrievalChain
        (HistoryAwareRetriever client
           (StoreRetriever (default (topK ragConfig) (config ≫= o_topK))))
        client true
  end.

(** A runner whose language model is down. *)
Definition downRunner : ChainRunner :=
  {| invoke := λ _ _ _, Throws (mkExn PlainError "429 Too Many Requests") |}.

(** ** The HTTP layer ([server.ts] and the routes) *)

(** What a handler sends: [res.status(status).json(payload)], or the body
    [{ error, message }] of the global error handler. *)
Inductive Reply (A : Type) :=
| Replied (status : nat) (payload : A)
| Errored (status : nat) (error message : string).
Arguments Replied {A} status payload.
Arguments Errored {A} status error message.

(** The global error handler, on the errors this repository raises; an
    error of none of its classes is taken to be a plain [Error], without a
    status code of its own.  [nodeEnv] is [serverConfig.nodeEnv]. *)
Definition errorHandler {A} (nodeEnv : string) (err : Exn) : Reply A :=
  match exn_class err with
  | DocumentProcessingError =>
      Errored 400 "Document processing failed" (exn_message err)
  | VectorStoreError => Errored 503 "Vector store unavailable" (exn_message err)
  | LLMError => Errored 503 "Language model API failure" (exn_message err)
  | RetrievalError => Errored 404 "No relevant information found" (exn_message err)
  | ConfigurationError =>
      Errored 500 "ConfigurationError"
        (if bool_decide (nodeEnv = "production") then "An unexpected error occurred"
         else orElse (Some (exn_message err)) "Internal server error")
  | PlainError =>
      Errored 500 "Error"
        (if bool_decide (nodeEnv = "production") then "An unexpected error occurred"
         else orElse (Some (exn_message err)) "Internal server error")
  end.

(** A value of a JSON body; a key that is missing is [None]. *)
Inductive JSONValue :=
| JNull
| JBool (b : bool)
| JNumber (q : Q)
| JString (s : string)
| JArray
| JObject.

(** The keys of the body of [PUT /api/config] the handler reads. *)
Record ConfigRequest := mkConfigRequest {
  b_chunkSize : option JSONValue;
  b_chunkOverlap : option JSONValue;
  b_topK : option JSONValue;
  b_embeddingModel : option JSONValue;
  b_llmModel : option JSONValue;
  b_llmTemperature : option JSONValue;
  b_llmMaxTokens : option JSONValue;
  b_scoreThreshold : option JSONValue;
  b_vectorStoreType : option JSONValue;
  b_vectorStorePath : option JSONValue
}.

(** [if (v !== undefined) { if (typeof v !== "number" || v < lo || v > hi)
    throw new ConfigurationError(message); validated = v }]. *)
Definition numberField (value : option JSONValue) (lo hi : Q) (message : string)
  : outcome (option Q) :=
  match value with
  | None => Returns None
  | Some (JNumber q) =>
      if Qltb q lo || Qltb hi q then Throws (mkExn ConfigurationError message)
      else Returns (Some q)
  | Some _ => Throws (mkExn ConfigurationError message)
  end.

(** The same for a model name: a string that is not empty after trimming,
    stored trimmed. *)
Definition nameField (value : option JSONValue) (message : string)
  : outcome (option string) :=
  match value with
  | None => Returns None
  | Some (JString s) =>
      if bool_decide (trim s = "") then Throws (mkExn ConfigurationError message)
      else Returns (Some (trim s))
  | Some _ => Throws (mkExn ConfigurationError message)
  end.

Definition storeTypeField (value : option JSONValue) : outcome (option VectorStoreType) :=
  match value with
  | None => Returns None
  | Some (JString s) =>
      if bool_decide (s = "memory") then Returns (Some memory)
      else if bool_decide (s = "chroma") then Returns (Some chroma)
      else Throws (mkExn ConfigurationError
             "vectorStoreType must be either 'memory' or 'chroma'")
  | Some _ =>
      Throws (mkExn ConfigurationError
        "vectorStoreType must be either 'memory' or 'chroma'")
  end.

Definition pathField (value : option JSONValue) : outcome (option string) :=
  match value with
  | None => Returns None
  | Some (JString s) => Returns (Some s)
  | Some _ => Throws (mkExn ConfigurationError "vectorStorePath must be a string")
  end.

(** The validation of [PUT /api/config]; [None] is a body that is not an
    object. *)
Definition validateUpdates (body : option ConfigRequest) : outcome RAGConfigUpdate :=
  match body with
  | None => Throws (mkExn ConfigurationError "Request body must be an object")
  | Some updates =>
      andThen (numberField (b_chunkSize updates) 100 10000
                 "chunkSize must be a number between 100 and 10000") (λ cs,
      andThen (numberField (b_chunkOverlap updates) 0 5000
                 "chunkOverlap must be a number between 0 and 5000") (λ co,
      andThen (numberField (b_topK updates) 1 20
                 "topK must be a number between 1 and 20") (λ k,
      andThen (nameField (b_embeddingModel updates)
                 "embeddingModel must be a non-empty string") (λ em,
      andThen (nameField (b_llmModel updates)
                 "llmModel must be a non-empty string") (λ lm,
      andThen (numberField (b_llmTemperature updates) 0 2
                 "llmTemperature must be a number between 0 and 2") (λ temp,
      andThen (numberField (b_llmMaxTokens updates) 1 4000
                 "llmMaxTokens must be a number between 1 and 4000") (λ tokens,
      andThen (numberField (b_scoreThreshold updates) 0 1
                 "scoreThreshold must be a number between 0 and 1") (λ threshold,
      andThen (storeTypeField (b_vectorStoreType updates)) (λ vst,
      andThen (pathField (b_vectorStorePath updates)) (λ vsp,
      Returns (mkRAGConfigUpdate cs co em vst vsp lm temp tokens k threshold)))))))))))
  end.

(** What [validateUpdates] lets through: every number within the range of
    the route. *)
Definition withinRouteRanges (updates : RAGConfigUpdate) : Prop :=
  (∀ q, u_chunkSize updates = Some q → (100 <= q ∧ q <= 10000)%Q)
  ∧ (∀ q, u_chunkOverlap updates = Some q → (0 <= q ∧ q <= 5000)%Q)
  ∧ (∀ q, u_topK updates = Some q → (1 <= q ∧ q <= 20)%Q)
  ∧ (∀ q, u_llmTemperature updates = Some q → (0 <= q ∧ q <= 2)%Q)
  ∧ (∀ q, u_llmMaxTokens updates = Some q → (1 <= q ∧ q <= 4000)%Q)
  ∧ (∀ q, u_scoreThreshold updates = Some q → (0 <= q ∧ q <= 1)%Q).

Section ConfigRoutes.
Context {env : ProcessEnv} {fmt : NumberFormat}.

(** [GET /api/config]. *)
Definition getConfigRoute (nodeEnv : string) : M ConfigInstance (Reply RAGConfig) :=
  try_catch
    (config ← getConfig; mret (Replied 200 config))
    (λ error, mret (errorHandler nodeEnv error)).

(** [PUT /api/config]. *)
Definition putConfigRoute (nodeEnv : string) (body : option ConfigRequest)
  : M ConfigInstance (Reply RAGConfig) :=
  try_catch
    (validatedUpdates ← call (validateUpdates body);
     updatedConfig ← updateConfig validatedUpdates;
     mret (Replied 200 updatedConfig))
    (λ error, mret (errorHandler nodeEnv error)).

End ConfigRoutes.

(** The module-level objects of the documents routes, and the uploaded
    files the upload handler has unlinked. *)
Record DocumentsApp := mkDocumentsApp {
  app_config : option RAGConfig;
  app_ingestion : IngestionStates;
  app_index : VectorStoreManager;
  app_unlinked : list string
}.

Definition onAppConfig {A} (m : M (option RAGConfig) A) : M DocumentsApp A :=
  λ s, let r := m (app_config s) in
       (r.1, mkDocumentsApp r.2 (app_ingestion s) (app_index s) (app_unlinked s)).

Definition onAppIngestion {A} (m : M IngestionStates A) : M DocumentsApp A :=
  λ s, let r := m (app_ingestion s) in
       (r.1, mkDocumentsApp (app_config s) r.2 (app_index s) (app_unlinked s)).

Definition onAppIndex {A} (m : M VectorStoreManager A) : M DocumentsApp A :=
  λ s, let r := m (app_index s) in
       (r.1, mkDocumentsApp (app_config s) (app_ingestion s) r.2 (app_unlinked s)).

(** [fs.unlinkSync(filePath)], taken to succeed on a file that exists. *)
Definition unlinkSync (filePath : string) : M DocumentsApp unit :=
  modify (λ s, mkDocumentsApp (app_config s) (app_ingestion s) (app_index s)
                 (app_unlinked s ++ [filePath])).

(** [fs.existsSync]. *)
Class UploadDirectory := { fs_existsSync : string → bool }.

(** The body of the reply to an upload. *)
Record Uploaded := mkUploaded {
  up_documentId : string;
  up_chunkCount : nat;
  up_metadata : option DocumentMetadata
}.

Section DocumentRoutes.
Context {env : ProcessEnv} {server : ServerEnv} {fmt : NumberFormat}
        {fs : FileSystem} {uploads : UploadDirectory} {splitter : TextSplitter}
        {backend : VectorBackend}.

(** [POST /api/documents/upload]; [file] is [req.file.path], [None] when no
    file came with the request.  [uuid], [today] and [now] are what
    [randomUUID()], [new Date()] and [Date.now()] give during the call. *)
Definition uploadRoute (nodeEnv : string) (uuid : string) (today : Z) (now : nat → Z)
    (file : option string) : M DocumentsApp (Reply Uploaded) :=
  try_catch
    (match file with
     | None => throw DocumentProcessingError "No file uploaded"
     | Some filePath =>
         config ← onAppConfig getConfig;
         serverConfig ← call getServerConfig;
         result ← onAppIngestion
                    (ingestDocument uuid today filePath config
                       (Some (maxFileSize serverConfig)));
         if negb (success result)
         then
           _ ← when_ (fs_existsSync filePath) (unlinkSync filePath);
           throw DocumentProcessingError
             (orElse (ir_error result) "Document processing failed")
         else
           app ← get;
           let chunks := getDocumentChunks (ir_documentId result) (app_ingestion app) in
           _ ← match chunks with
               | Some chunks =>
                   if bool_decide (0 < length chunks)
                   then _ ← onAppIndex (addDocuments now chunks); mret tt
                   else mret tt
               | None => mret tt
               end;
           app ← get;
           let metadata :=
             Ingestion.getDocumentMetadata (ir_documentId result) (app_ingestion app) in
           mret (Replied 201
                   (mkUploaded (ir_documentId result) (ir_chunkCount result) metadata))
     end)
    (λ error, mret (errorHandler nodeEnv error)).

(** [GET /api/documents]: the documents and their count. *)
Definition listRoute (s : DocumentsApp) : Reply (nat * list DocumentMetadata) :=
  let documents := Ingestion.getAllDocuments (app_ingestion s) in
  Replied 200 (length documents, documents).

(** [GET /api/documents/:id/status]. *)
Definition statusRoute (nodeEnv : string) (id : string)
  : M DocumentsApp (Reply IngestionStatus) :=
  try_catch
    (if bool_decide (id = "")
     then throw DocumentProcessingError "Document ID is required"
     else
       status ← onAppIngestion (getIngestionStatus id);
       mret (Replied 200 status))
    (λ error, mret (errorHandler nodeEnv error)).

(** [DELETE /api/documents/:id]; the payload is the id of the deleted
    document, [None] in the reply 404. *)
Definition deleteRoute (nodeEnv : string) (id : string)
  : M DocumentsApp (Reply (option string)) :=
  try_catch
    (if bool_decide (id = "")
     then throw DocumentProcessingError "Document ID is required"
     else
       deletedFromStore ← onAppIndex (deleteDocument id);
       deletedFromService ← onAppIngestion (removeDocument id);
       if negb deletedFromStore && negb deletedFromService
       then mret (Replied 404 None)
       else mret (Replied 200 (Some id)))
    (λ error, mret (errorHandler nodeEnv error)).

End DocumentRoutes.

(** A body that sets the chunk size and the overlap. *)
Definition resizeRequest (size overlap : Q) : ConfigRequest :=
  mkConfigRequest (Some (JNumber size)) (Some (JNumber overlap))
    None None None None None None None None.

(** An upload directory in which every file exists. *)
Definition allFiles : UploadDirectory := {| fs_existsSync := λ _, true |}.

(** The services of the documents routes before any request. *)
Definition emptyApp : DocumentsApp :=
  mkDocumentsApp None ∅ newVectorStoreManager [].

(** ** The configuration, on every value JavaScript can hand over

    [RAGConfig] above is a configuration whose numbers are finite, which is
    what [loadConfig] and the route of [PUT /api/config] produce.  But
    TypeScript's [number] includes NaN and the infinities, and a key of a
    [Partial<RAGConfig>] can be present with the value [undefined], which
    the spread of [updateConfig] copies.  Module [JS] models [updateConfig]
    and [validateSplittingConfig] on all of these; on finite numbers they
    are the functions above. *)

(** A number as JavaScript knows it: a rational, an infinity, or NaN. *)
Inductive JSNumber :=
| Finite (q : Q)
| PlusInfinity
| MinusInfinity
| NotANumber.

Module JS.

(** What a numeric key of a configuration object holds. *)
Inductive NumberValue :=
| Undefined
| Number (n : JSNumber).

Definition num (q : Q) : NumberValue := Number (Finite q).

(** [ToNumber], which the comparisons apply: [undefined] becomes NaN. *)
Definition toNumber (v : NumberValue) : JSNumber :=
  match v with
  | Undefined => NotANumber
  | Number n => n
  end.

(** [a < b] and [a <= b] on numbers: false as soon as one side is NaN. *)
Definition ltb (a b : JSNumber) : bool :=
  match a, b with
  | NotANumber, _ | _, NotANumber => false
  | Finite x, Finite y => Qltb x y
  | _, MinusInfinity => false
  | MinusInfinity, _ => true
  | PlusInfinity, _ => false
  | Finite _, PlusInfinity => true
  end.

Definition leb (a b : JSNumber) : bool :=
  match a, b with
  | NotANumber, _ | _, NotANumber => false
  | Finite x, Finite y => Qle_bool x y
  | MinusInfinity, _ => true
  | _, PlusInfinity => true
  | _, MinusInfinity => false
  | PlusInfinity, _ => false
  end.

(** [a < b], [a <= b], [a > b] and [a >= b] on two values. *)
Definition lt (a b : NumberValue) : bool := ltb (toNumber a) (toNumber b).
Definition le (a b : NumberValue) : bool := leb (toNumber a) (toNumber b).
Definition gt (a b : NumberValue) : bool := lt b a.
Definition ge (a b : NumberValue) : bool := le b a.

(** A [RAGConfig] object at run time; [None] is [undefined]. *)
Record Config := mkConfig {
  chunkSize : NumberValue;
  chunkOverlap : NumberValue;
  embeddingModel : option string;
  vectorStoreType : option VectorStoreType;
  vectorStorePath : option string;
  llmModel : option string;
  llmTemperature : NumberValue;
  llmMaxTokens : NumberValue;
  topK : NumberValue;
  scoreThreshold : NumberValue
}.

(** A [Partial<RAGConfig>] object: [None] is a key the object does not
    have, [Some] a key it has, be it with the value [undefined]. *)
Record Update := mkUpdate {
  u_chunkSize : option NumberValue;
  u_chunkOverlap : option NumberValue;
  u_embeddingModel : option (option string);
  u_vectorStoreType : option (option VectorStoreType);
  u_vectorStorePath : option (option string);
  u_llmModel : option (option string);
  u_llmTemperature : option NumberValue;
  u_llmMaxTokens : option NumberValue;
  u_topK : option NumberValue;
  u_scoreThreshold : option NumberValue
}.

(** The object [{ chunkSize: v }]. *)
Definition onlyChunkSize (v : NumberValue) : Update :=
  mkUpdate (Some v) None None None None None None None None None.

(** A configuration of finite numbers, as the object it is. *)
Definition ofFinite (c : RAGConfig) : Config :=
  let 'mkRAGConfig size overlap embedding type path model temperature tokens k
         threshold := c in
  mkConfig (num size) (num overlap) (Some embedding) (Some type) path (Some model)
    (num temperature) (num tokens) (num k) (num threshold).

(** An update of finite numbers, as the object it is. *)
Definition ofFiniteUpdate (u : RAGConfigUpdate) : Update :=
  let 'mkRAGConfigUpdate size overlap embedding type path model temperature tokens k
         threshold := u in
  mkUpdate (num <$> size) (num <$> overlap) (Some <$> embedding) (Some <$> type)
    (Some <$> path) (Some <$> model) (num <$> temperature) (num <$> tokens)
    (num <$> k) (num <$> threshold).

(** [{ ...currentConfig, ...updates }]: every key of the update wins. *)
Definition merge (currentConfig : Config) (updates : Update) : Config := {|
  chunkSize := default (chunkSize currentConfig) (u_chunkSize updates);
  chunkOverlap := default (chunkOverlap currentConfig) (u_chunkOverlap updates);
  embeddingModel := default (embeddingModel currentConfig) (u_embeddingModel updates);
  vectorStoreType := default (vectorStoreType currentConfig) (u_vectorStoreType updates);
  vectorStorePath := default (vectorStorePath currentConfig) (u_vectorStorePath updates);
  llmModel := default (llmModel currentConfig) (u_llmModel updates);
  llmTemperature := default (llmTemperature currentConfig) (u_llmTemperature updates);
  llmMaxTokens := default (llmMaxTokens currentConfig) (u_llmMaxTokens updates);
  topK := default (topK currentConfig) (u_topK updates);
  scoreThreshold := default (scoreThreshold currentConfig) (u_scoreThreshold updates)
|}.

Section Functions.
Context {env : ProcessEnv} {fmt : NumberFormat}.

(** [`${v}`]. *)
Definition show (v : NumberValue) : string :=
  match v with
  | Undefined => "undefined"
  | Number (Finite q) => showNumber q
  | Number PlusInfinity => "Infinity"
  | Number MinusInfinity => "-Infinity"
  | Number NotANumber => "NaN"
  end.

Definition getConfig : M (option Config) Config :=
  configInstance ← get;
  match configInstance with
  | Some config => mret config
  | None =>
      config ← call loadConfig;
      _ ← modify (λ _, Some (ofFinite config));
      mret (ofFinite config)
  end.

Definition updateConfig (updates : Update) : M (option Config) Config :=
  currentConfig ← getConfig;
  let newConfig := merge currentConfig updates in
  if ge (chunkOverlap newConfig) (chunkSize newConfig)
  then throw ConfigurationError
         ("Chunk overlap (" +:+ show (chunkOverlap newConfig)
          +:+ ") must be less than chunk size (" +:+ show (chunkSize newConfig)
          +:+ ")")
  else if lt (chunkSize newConfig) (num 100) || gt (chunkSize newConfig) (num 10000)
  then throw ConfigurationError
         ("Chunk size must be between 100 and 10000, got "
          +:+ show (chunkSize newConfig))
  else if lt (topK newConfig) (num 1) || gt (topK newConfig) (num 20)
  then throw ConfigurationError
         ("topK must be between 1 and 20, got " +:+ show (topK newConfig))
  else if lt (llmTemperature newConfig) (num 0) || gt (llmTemperature newConfig) (num 2)
  then throw ConfigurationError
         ("LLM temperature must be between 0 and 2, got "
          +:+ show (llmTemperature newConfig))
  else if lt (scoreThreshold newConfig) (num 0) || gt (scoreThreshold newConfig) (num 1)
  then throw ConfigurationError
         ("Score threshold must be between 0 and 1, got "
          +:+ show (scoreThreshold newConfig))
  else
    _ ← modify (λ _, Some newConfig);
    mret newConfig.

Definition validateSplittingConfig (config : Config) : outcome unit :=
  if le (chunkSize config) (num 0)
  then Throws (mkExn DocumentProcessingError
         ("Invalid chunk size: " +:+ show (chunkSize config)
          +:+ ". Must be greater than 0."))
  else if lt (chunkOverlap config) (num 0)
  then Throws (mkExn DocumentProcessingError
         ("Invalid chunk overlap: " +:+ show (chunkOverlap config)
          +:+ ". Must be non-negative."))
  else if ge (chunkOverlap config) (chunkSize config)
  then Throws (mkExn DocumentProcessingError
         ("Chunk overlap (" +:+ show (chunkOverlap config)
          +:+ ") must be less than chunk size ("
          +:+ show (chunkSize config) +:+ ")"))
  else Returns tt.

End Functions.
End JS.

(** ** Worked instances *)

(** A chunk of document [documentId] at position [i]. *)
Definition chunkOf (documentId : string) (i : nat) (text : string) : Document :=
  mkDocument text (mkMetadata (Some documentId) None None None None (Some i) None None).

(** A chunk whose metadata carries no [documentId]. *)
Definition strayChunk : Document := mkDocument "stray text" emptyMetadata.

Definition fixedClock : nat → Z := λ _, 1700000000000%Z.

(** A manager after one upload of two chunks of ["a"] and one of ["b"]. *)
Definition twoDocuments : VectorStoreManager :=
  mkVSM (Some [chunkOf "a" 0 "alpha"; chunkOf "b" 0 "beta"; chunkOf "a" 1 "gamma"])
        (<["b" := ["b_chunk_1_1700000000000"]]>
           (<["a" := ["a_chunk_0_1700000000000"; "a_chunk_2_1700000000000"]]> ∅)).

(** A chunk whose [documentId] is the empty string. *)
Definition emptyIdChunk : Document :=
  mkDocument "text" (mkMetadata (Some "") None None None None (Some 0) None None).

(** An upload of 10000 chunks of ["a"] followed by one chunk without a
    [documentId]. *)
Definition largeBatch : list Document :=
  replicate 10000 (chunkOf "a" 0 "alpha") ++ [strayChunk].

(** A splitter that cuts a text into pieces of one hundred characters
    without overlap. *)
Fixpoint pieces (fuel : nat) (text : string) : list string :=
  match fuel with
  | 0 => []
  | S fuel' =>
      if bool_decide (text = "") then []
      else substring 0 100 text
           :: pieces fuel' (substring 100 (String.length text - 100) text)
  end.

Definition hundredsSplitter : TextSplitter :=
  {| createDocuments := λ _ _ text extra,
       Returns ((λ piece, mkDocument piece extra) <$> pieces (String.length text) text) |}.

(** A file system holding the one text file [notes.txt]. *)
Definition notesFile : FileSystem := {|
  fs_stat_size := λ p,
    if bool_decide (p = "notes.txt") then Returns 50%Q
    else Throws (mkExn PlainError "ENOENT: no such file or directory");
  fs_access := λ p,
    if bool_decide (p = "notes.txt") then Returns tt
    else Throws (mkExn PlainError "ENOENT: no such file or directory");
  fs_readFile := λ p,
    if bool_decide (p = "notes.txt")
    then Returns "  The capital of France is Paris, on the Seine.  "
    else Throws (mkExn PlainError "ENOENT: no such file or directory");
  pdfParse := λ _, Throws (mkExn PlainError "Invalid PDF structure");
  mammoth_extractRawText := λ _, Throws (mkExn PlainError "Could not find file in options");
  path_basename := λ p, p;
  path_extname := λ p,
    if bool_decide (p = "notes.txt") then ".txt"
    else if bool_decide (p = "notes.exe") then ".exe" else "";
  toLowerCase := λ s, s
|}.

(** ** More worked instances *)

(** A runner that answers from two retrieved chunks, one with a score. *)
Definition twoSourcesRunner : ChainRunner :=
  {| invoke := λ _ _ _,
       Returns (mkChainResult (Some "Paris.")
                  (Some [chunkOf "a" 0 "alpha";
                         mkDocument "beta"
                           (mkMetadata (Some "b") (Some "b.txt") None None None
                              (Some 3) None (Some (1 # 2)))])) |}.

(** ** Facts about the vector index *)

Ltac unfold_M :=
  unfold ensureStore, initializeStore, when_, rethrow_as, try_catch, throw,
    call, modify, get, mbind, M_bind, mret, M_ret in *.

Lemma truthy_Some (d : string) : truthy (Some d) = true ↔ d ≠ "".
Proof.
  unfold truthy. destruct (decide (d = "")) as [->|Hd].
  - rewrite bool_decide_eq_true_2 by done. simpl. split; [discriminate | done].
  - rewrite bool_decide_eq_false_2 by done. simpl. done.
Qed.

Lemma blank_false_nonempty (d : string) : blank d = false → d ≠ "".
Proof.
  unfold blank. intros Hb ->. simpl in Hb. discriminate.
Qed.

Lemma belongsTo_true (d : string) (doc : Document) :
  belongsTo d doc = true ↔ md_documentId (metadata doc) = Some d.
Proof. unfold belongsTo. apply bool_decide_eq_true. Qed.

Lemma filter_none {A} (P : A → Prop) `{∀ x, Decision (P x)} (l : list A) :
  Forall (λ x, ¬ P x) l → filter P l = [].
Proof.
  induction 1 as [|x l Hx _ IH]; [done|].
  by rewrite filter_cons, decide_False.
Qed.

Section ManagerFacts.
Context {backend : VectorBackend}.

(** The lazy initialisation creates an empty store when there is none and
    touches nothing else. *)
Lemma ensureStore_run (s : VectorStoreManager) :
  ensureStore s = (Returns tt, setVectorStore (Some (storeDocs s)) s).
Proof. destruct s as [[vs|] reg]; reflexivity. Qed.

Lemma storeDocs_ensured (s : VectorStoreManager) :
  storeDocs (setVectorStore (Some (storeDocs s)) s) = storeDocs s.
Proof. reflexivity. Qed.

(** *** The registry bookkeeping of [addDocuments] *)

Lemma trackChunk_ids now acc i doc :
  (trackChunk now acc i doc).1
  = acc.1 ++ [chunkId (md_documentId (metadata doc)) i (now i)].
Proof.
  unfold trackChunk. destruct (md_documentId (metadata doc)) as [d|]; [|done].
  by destruct (truthy (Some d)).
Qed.

Lemma trackChunk_count now acc i doc (d : string) :
  d ≠ "" →
  countIn (trackChunk now acc i doc).2 d
  = countIn acc.2 d + (if belongsTo d doc then 1 else 0).
Proof.
  intros Hd. unfold trackChunk, belongsTo.
  destruct (md_documentId (metadata doc)) as [d'|] eqn:Hid.
  - destruct (truthy (Some d')) eqn:Ht; simpl.
    + destruct (decide (d' = d)) as [->|Hne].
      * rewrite bool_decide_eq_true_2 by done.
        unfold countIn. rewrite lookup_insert_eq.
        destruct (acc.2 !! d); simpl; rewrite ?length_app; simpl; lia.
      * rewrite bool_decide_eq_false_2 by congruence.
        unfold countIn. rewrite lookup_insert_ne by done. lia.
    + rewrite bool_decide_eq_false_2; [lia|].
      intros [= ->]. apply truthy_Some in Hd. congruence.
  - rewrite bool_decide_eq_false_2 by done. simpl. lia.
Qed.

Lemma trackChunks_ids now docs : ∀ i acc,
  length (trackChunks now i docs acc).1 = length acc.1 + length docs
  ∧ (∀ j, j < length acc.1 → (trackChunks now i docs acc).1 !! j = acc.1 !! j)
  ∧ (∀ j doc, docs !! j = Some doc →
       (trackChunks now i docs acc).1 !! (length acc.1 + j)
       = Some (chunkId (md_documentId (metadata doc)) (i + j) (now (i + j)))).
Proof.
  induction docs as [|doc rest IH]; intros i acc; simpl.
  - split; [lia|]. split; [done|]. intros j d Hj. by rewrite lookup_nil in Hj.
  - destruct (IH (S i) (trackChunk now acc i doc)) as (Hlen & Hold & Hnew).
    rewrite trackChunk_ids in Hlen, Hold, Hnew.
    rewrite length_app in Hlen, Hold, Hnew. simpl in *.
    split; [lia|]. split.
    + intros j Hj. rewrite Hold by lia. by rewrite lookup_app_l.
    + intros [|j] d Hj; simpl in Hj.
      * injection Hj as <-. rewrite Hold by lia.
        rewrite !Nat.add_0_r. rewrite lookup_app_r by lia.
        by rewrite Nat.sub_diag.
      * specialize (Hnew j d Hj).
        replace (length acc.1 + S j) with (length acc.1 + 1 + j) by lia.
        rewrite Hnew. replace (i + S j) with (S (i + j)) by lia. done.
Qed.

Lemma trackChunks_count now docs (d : string) : d ≠ "" → ∀ i acc,
  countIn (trackChunks now i docs acc).2 d
  = countIn acc.2 d + length (filter (λ doc, belongsTo d doc = true) docs).
Proof.
  intros Hd. induction docs as [|doc rest IH]; intros i acc; simpl.
  - lia.
  - rewrite IH, trackChunk_count by done.
    rewrite filter_cons. destruct (belongsTo d doc) eqn:Hb.
    + rewrite decide_True by done. simpl. lia.
    + rewrite decide_False by (by intros ?). lia.
Qed.

(** What a call of [addDocuments] does, by cases on the batch and on the
    embedding service. *)
Lemma addDocuments_run now documents (s : VectorStoreManager) :
  addDocuments now documents s =
    if bool_decide (length documents = 0)
    then (Returns [], setVectorStore (Some (storeDocs s)) s)
    else match embedDocuments (pageContent <$> documents) with
         | Returns _ =>
             let r := trackChunks now 0 documents ([], documentRegistry s) in
             (Returns r.1, mkVSM (Some (storeDocs s ++ documents)) r.2)
         | Throws e =>
             (Throws (mkExn VectorStoreError
                ("Failed to add documents to vector store: " +:+ exn_message e)),
              setVectorStore (Some (storeDocs s)) s)
         end.
Proof.
  unfold addDocuments. unfold try_catch at 1.
  unfold mbind at 1. unfold M_bind at 1. rewrite ensureStore_run.
  unfold_M. simpl. destruct (bool_decide (length documents = 0)); [done|].
  unfold MemoryVectorStore.addDocuments.
  by destruct (embedDocuments (pageContent <$> documents)).
Qed.

Arguments MemoryVectorStore.similaritySearch : simpl never.
Arguments Init.Nat.of_num_uint : simpl never.

(** What [deleteDocument] does once the id has passed the emptiness guard:
    the registry decides whether anything happens, the full scan and the
    re-embedding of the remainder decide whether it throws. *)
Lemma deleteDocument_run documentId (s : VectorStoreManager) :
  blank documentId = false →
  deleteDocument documentId s =
    match documentRegistry s !! documentId with
    | None | Some [] => (Returns false, setVectorStore (Some (storeDocs s)) s)
    | Some (_ :: _) =>
        match MemoryVectorStore.similaritySearch "" 10000 (storeDocs s) with
        | Throws e =>
            (Throws (mkExn VectorStoreError
               ("Failed to delete document: " +:+ exn_message e)),
             setVectorStore (Some (storeDocs s)) s)
        | Returns allDocs =>
            let remainingDocs :=
              filter (λ doc, md_documentId (metadata doc) ≠ Some documentId) allDocs in
            if bool_decide (0 < length remainingDocs)
            then match embedDocuments (pageContent <$> remainingDocs) with
                 | Returns _ =>
                     (Returns true,
                      mkVSM (Some remainingDocs) (delete documentId (documentRegistry s)))
                 | Throws e =>
                     (Throws (mkExn VectorStoreError
                        ("Failed to delete document: " +:+ exn_message e)),
                      mkVSM (Some []) (documentRegistry s))
                 end
            else (Returns true, mkVSM (Some []) (delete documentId (documentRegistry s)))
        end
    end.
Proof.
  intros Hb. unfold deleteDocument. unfold try_catch at 1.
  unfold mbind at 1. unfold M_bind at 1. rewrite ensureStore_run, Hb.
  unfold_M. simpl.
  destruct (documentRegistry s !! documentId) as [[|c cs]|]; simpl; [done| |done].
  destruct (MemoryVectorStore.similaritySearch "" 10000 (storeDocs s))
    as [allDocs|e]; simpl; [|done].
  destruct (bool_decide (0 < length _)); simpl; [|done].
  unfold MemoryVectorStore.addDocuments.
  by destruct (embedDocuments _).
Qed.

Lemma deleteDocument_blank documentId (s : VectorStoreManager) :
  blank documentId = true →
  deleteDocument documentId s =
    (Throws (mkExn VectorStoreError
       "Failed to delete document: Document ID cannot be empty"),
     setVectorStore (Some (storeDocs s)) s).
Proof.
  intros Hb. unfold deleteDocument. unfold try_catch at 1.
  unfold mbind at 1. unfold M_bind at 1. rewrite ensureStore_run, Hb.
  reflexivity.
Qed.

Lemma slice0_take {A} (k : Z) (l : list A) :
  (0 ≤ k)%Z → slice0 k l = take (Z.to_nat k) l.
Proof. intros Hk. unfold slice0. by rewrite (proj2 (Z.leb_le 0 k) Hk). Qed.

Lemma similaritySearchSigned_take query (k : Z) (vs : MemoryVectorStore.t) :
  (0 ≤ k)%Z →
  MemoryVectorStore.similaritySearchSigned query k vs
  = MemoryVectorStore.similaritySearch query (Z.to_nat k) vs.
Proof.
  intros Hk. unfold MemoryVectorStore.similaritySearchSigned,
    MemoryVectorStore.similaritySearch.
  destruct (ranked query vs); [|done]. by rewrite slice0_take.
Qed.

(** What [searchWithinDocument] does by its two guards, in full. *)
Lemma searchWithinDocument_run documentId query (k : Z) (s : VectorStoreManager) :
  searchWithinDocument documentId query k s =
    (if blank documentId
     then Throws (mkExn VectorStoreError
            "Failed to search within document: Document ID cannot be empty")
     else if blank query
     then Throws (mkExn VectorStoreError
            "Failed to search within document: Query cannot be empty")
     else if hasDocument documentId s
     then match MemoryVectorStore.similaritySearchSigned query (k * 3) (storeDocs s) with
          | Returns results =>
              Returns (slice0 k (filter (λ doc, belongsTo documentId doc = true) results))
          | Throws e =>
              Throws (mkExn VectorStoreError
                ("Failed to search within document: " +:+ exn_message e))
          end
     else Returns [],
     setVectorStore (Some (storeDocs s)) s).
Proof.
  unfold searchWithinDocument. unfold try_catch at 1.
  unfold mbind at 1. unfold M_bind at 1. rewrite ensureStore_run.
  destruct (blank documentId); [reflexivity|].
  destruct (blank query); [reflexivity|].
  unfold_M. simpl.
  replace (hasDocument documentId (setVectorStore (Some (storeDocs s)) s))
    with (hasDocument documentId s) by reflexivity.
  destruct (hasDocument documentId s); simpl; [|done].
  rewrite storeDocs_ensured.
  by destruct (MemoryVectorStore.similaritySearchSigned query (k * 3) (storeDocs s)).
Qed.

(** *** Every key of the registry is a truthy id with at least one chunk *)

Lemma registry_wf_empty : registry_wf ∅.
Proof. intros d ids Hd. by rewrite lookup_empty in Hd. Qed.

Lemma trackChunk_wf now acc i doc :
  registry_wf acc.2 → registry_wf (trackChunk now acc i doc).2.
Proof.
  intros Hwf. unfold trackChunk.
  destruct (md_documentId (metadata doc)) as [d|]; [|done].
  destruct (truthy (Some d)) eqn:Ht; [|done]. simpl.
  intros d' ids. destruct (decide (d = d')) as [<-|Hne].
  - rewrite lookup_insert_eq. intros [= <-]. split.
    + by apply truthy_Some.
    + by destruct (default [] (acc.2 !! d)).
  - rewrite lookup_insert_ne by done. apply Hwf.
Qed.

Lemma trackChunks_wf now docs : ∀ i acc,
  registry_wf acc.2 → registry_wf (trackChunks now i docs acc).2.
Proof.
  induction docs as [|doc rest IH]; intros i acc Hwf; simpl; [done|].
  apply IH. by apply trackChunk_wf.
Qed.

Lemma registry_wf_delete d reg : registry_wf reg → registry_wf (delete d reg).
Proof.
  intros Hwf d' ids Hd'. apply lookup_delete_Some in Hd' as [_ Hd']. eauto.
Qed.

(** A chunk without a truthy [documentId] leaves the registry as it is. *)
Lemma trackChunk_unregistered now acc i doc :
  truthy (md_documentId (metadata doc)) = false →
  (trackChunk now acc i doc).2 = acc.2.
Proof.
  unfold trackChunk. destruct (md_documentId (metadata doc)) as [d|]; [|done].
  by intros ->.
Qed.

Lemma trackChunks_unregistered now docs : ∀ i acc,
  Forall (λ doc, truthy (md_documentId (metadata doc)) = false) docs →
  (trackChunks now i docs acc).2 = acc.2.
Proof.
  induction docs as [|doc rest IH]; intros i acc Hall; simpl; [done|].
  inversion Hall; subst. rewrite IH by done. by apply trackChunk_unregistered.
Qed.

(** *** The chunk total of [getStoreStats] *)

Lemma sumChunks_insert d chunkIds reg :
  sumChunks (<[d := chunkIds]> reg) + countIn reg d = sumChunks reg + length chunkIds.
Proof.
  unfold sumChunks, countIn. destruct (reg !! d) as [old|] eqn:Hd.
  - rewrite <-insert_delete_eq.
    rewrite map_fold_insert_L; [|intros; lia|apply lookup_delete_eq].
    rewrite (map_fold_delete_L _ _ d old reg); [lia|intros; lia|done].
  - rewrite map_fold_insert_L; [lia|intros; lia|done].
Qed.

Lemma trackChunk_sum now acc i doc :
  sumChunks (trackChunk now acc i doc).2
  = sumChunks acc.2 + (if truthy (md_documentId (metadata doc)) then 1 else 0).
Proof.
  unfold trackChunk. destruct (md_documentId (metadata doc)) as [d|]; [|simpl; lia].
  destruct (truthy (Some d)); [|simpl; lia]. simpl.
  pose proof (sumChunks_insert d (default [] (acc.2 !! d) ++ [chunkId (Some d) i (now i)])
                acc.2) as Hs.
  rewrite length_app in Hs. unfold countIn in Hs.
  destruct (acc.2 !! d); simpl in *; lia.
Qed.

Lemma trackChunks_sum now docs : ∀ i acc,
  sumChunks (trackChunks now i docs acc).2
  = sumChunks acc.2
    + length (filter (λ doc, truthy (md_documentId (metadata doc)) = true) docs).
Proof.
  induction docs as [|doc rest IH]; intros i acc; simpl; [lia|].
  rewrite IH, trackChunk_sum, filter_cons.
  destruct (truthy (md_documentId (metadata doc))).
  - rewrite decide_True by done. simpl. lia.
  - rewrite decide_False by (by intros ?). lia.
Qed.

End ManagerFacts.

(** ** The claims about the vector index *)

Section ManagerClaims.
Context {backend : VectorBackend}.

(** C1, as amended.  For every [documentId] that is not empty after
    trimming: when the registry has no entry for it, or an entry with no
    chunk ids, [deleteDocument] returns [false] and leaves the registry
    and the chunks of the store as they were (a manager whose store
    already exists is left exactly as it was); when the registry has an
    entry with chunk ids, and the embedding service answers the full scan
    and the re-embedding of the remainder, [deleteDocument] returns
    [true], after which [hasDocument] is [false] and no chunk of the store
    carries that [documentId]. *)
Theorem deleteDocument_spec (documentId : string) (s : VectorStoreManager) :
  blank documentId = false →
  ((documentRegistry s !! documentId = None
    ∨ documentRegistry s !! documentId = Some []) →
     ∃ s', deleteDocument documentId s = (Returns false, s')
           ∧ documentRegistry s' = documentRegistry s
           ∧ storeDocs s' = storeDocs s
           ∧ (is_Some (vectorStore s) → s' = s))
  ∧ (∀ chunkIds allDocs,
       documentRegistry s !! documentId = Some chunkIds → chunkIds ≠ [] →
       MemoryVectorStore.similaritySearch "" 10000 (storeDocs s) = Returns allDocs →
       embedDocuments
         (pageContent <$>
            filter (λ doc, md_documentId (metadata doc) ≠ Some documentId) allDocs)
       = Returns tt →
       ∃ s', deleteDocument documentId s = (Returns true, s')
             ∧ hasDocument documentId s' = false
             ∧ filter (λ doc, belongsTo documentId doc = true) (storeDocs s') = []).
Proof.
  intros Hb. rewrite (deleteDocument_run _ _ Hb). split.
  - intros Hreg. exists (setVectorStore (Some (storeDocs s)) s).
    split; [by destruct Hreg as [-> | ->]|].
    split; [done|]. split; [done|].
    intros [vs Hvs]. destruct s as [st reg]. simpl in *. by subst.
  - intros chunkIds allDocs Hreg Hne Hscan Hembed.
    rewrite Hreg, Hscan. destruct chunkIds as [|c cs]; [done|]. simpl.
    set (remainingDocs :=
           filter (λ doc, md_documentId (metadata doc) ≠ Some documentId) allDocs)
      in *.
    assert (Hnone :
              filter (λ doc, belongsTo documentId doc = true) remainingDocs = []).
    { apply filter_none, Forall_forall. intros doc Hin.
      apply list_elem_of_filter in Hin as [Hid _].
      rewrite belongsTo_true. done. }
    assert (Hgone : ∀ vs,
              hasDocument documentId
                (mkVSM vs (delete documentId (documentRegistry s))) = false).
    { intros vs. unfold hasDocument. simpl. rewrite lookup_delete_eq.
      apply bool_decide_eq_false_2. by intros [? ?]. }
    destruct (bool_decide (0 < length remainingDocs)) eqn:Hlen.
    + rewrite Hembed. eexists. split; [done|]. split; [apply Hgone|done].
    + eexists. split; [done|]. split; [apply Hgone|done].
Qed.

(** C6, as amended.  [addDocuments([])] returns [[]] and changes neither
    the chunks of the store nor the registry.  A batch the embedding
    service accepts is added, and after every successful
    [addDocuments(chunks)] the store has the batch appended, the returned
    list holds one minted id per chunk of the batch, in order, and for
    every non-empty [documentId] the chunk count of the registry has grown
    by exactly the number of chunks of the batch carrying that id. *)
Theorem addDocuments_spec (now : nat → Z) (documents : list Document)
    (s : VectorStoreManager) :
  (∃ s', addDocuments now [] s = (Returns [], s')
         ∧ documentRegistry s' = documentRegistry s
         ∧ storeDocs s' = storeDocs s)
  ∧ (embedDocuments (pageContent <$> documents) = Returns tt →
     ∃ ids s', addDocuments now documents s = (Returns ids, s'))
  ∧ (∀ ids s', addDocuments now documents s = (Returns ids, s') →
       storeDocs s' = storeDocs s ++ documents
       ∧ length ids = length documents
       ∧ (∀ i doc, documents !! i = Some doc →
            ids !! i = Some (chunkId (md_documentId (metadata doc)) i (now i)))
       ∧ (∀ d, d ≠ "" →
            getDocumentChunkCount d s'
            = getDocumentChunkCount d s
              + length (filter (λ doc, belongsTo d doc = true) documents))).
Proof.
  split; [|split].
  - rewrite addDocuments_run. simpl. eauto.
  - intros Hembed. rewrite addDocuments_run, Hembed.
    destruct (bool_decide (length documents = 0)); eauto.
  - intros ids s'. rewrite addDocuments_run.
    destruct (bool_decide (length documents = 0)) eqn:Hlen.
    + apply bool_decide_eq_true in Hlen. apply nil_length_inv in Hlen as ->.
      intros [= <- <-]. simpl. rewrite app_nil_r.
      split; [done|]. split; [done|]. split; [by intros i doc Hi|].
      intros d _. unfold getDocumentChunkCount. simpl. lia.
    + destruct (embedDocuments (pageContent <$> documents)) as [[]|e]; [|done].
      intros [= <- <-]. simpl.
      destruct (trackChunks_ids now documents 0 ([], documentRegistry s))
        as (Hl & _ & Hnew).
      split; [done|]. split; [done|]. split; [apply Hnew|].
      intros d Hd.
      apply (trackChunks_count now documents d Hd 0 ([], documentRegistry s)).
Qed.

(** C7, as amended.  For every registered [documentId] and every [query],
    both not empty after trimming, and every integer [k] of at least 1,
    [searchWithinDocument(documentId, query, k)] runs one search of the
    whole store for [k * 3] candidates and, when that search answers,
    returns the first [k] of the candidates whose [documentId] is the given
    one (when it fails, the failure is rethrown as a [VectorStoreError]);
    so every returned chunk belongs to the document and at most [k] chunks
    are returned.  A [documentId] or a [query] that is empty after trimming
    makes it throw a [VectorStoreError], whatever [k] and the registry
    are. *)
Theorem searchWithinDocument_spec (documentId query : string) (k : Z)
    (s : VectorStoreManager) :
  (hasDocument documentId s = true →
   blank documentId = false →
   blank query = false →
   (1 ≤ k)%Z →
   searchWithinDocument documentId query k s =
     (match MemoryVectorStore.similaritySearch query (Z.to_nat (k * 3)) (storeDocs s) with
      | Returns candidates =>
          Returns (take (Z.to_nat k)
                     (filter (λ doc, belongsTo documentId doc = true) candidates))
      | Throws e =>
          Throws (mkExn VectorStoreError
            ("Failed to search within document: " +:+ exn_message e))
      end,
      setVectorStore (Some (storeDocs s)) s)
   ∧ (∀ found s', searchWithinDocument documentId query k s = (Returns found, s') →
        Forall (λ doc, md_documentId (metadata doc) = Some documentId) found
        ∧ (Z.of_nat (length found) ≤ k)%Z))
  ∧ (blank documentId = true →
     searchWithinDocument documentId query k s =
       (Throws (mkExn VectorStoreError
          "Failed to search within document: Document ID cannot be empty"),
        setVectorStore (Some (storeDocs s)) s))
  ∧ (blank documentId = false → blank query = true →
     searchWithinDocument documentId query k s =
       (Throws (mkExn VectorStoreError
          "Failed to search within document: Query cannot be empty"),
        setVectorStore (Some (storeDocs s)) s)).
Proof.
  rewrite searchWithinDocument_run. split; [|split].
  - intros Hhas Hd Hq Hk. rewrite Hd, Hq, Hhas.
    rewrite similaritySearchSigned_take by lia.
    destruct (MemoryVectorStore.similaritySearch query (Z.to_nat (k * 3)) (storeDocs s))
      as [candidates|e]; [|done].
    rewrite slice0_take by lia. split; [done|].
    intros found s' [= <- <-]. split.
    + apply Forall_forall. intros doc Hin.
      apply elem_of_take in Hin as (i & Hi & _).
      apply list_elem_of_lookup_2, list_elem_of_filter in Hi as [Hin _].
      by apply belongsTo_true.
    + rewrite length_take. lia.
  - by intros ->.
  - by intros -> ->.
Qed.

End ManagerClaims.

Lemma deleteDocument_spec_witness :
  ∃ s', deleteDocument (backend:=tieBackend) "a" twoDocuments = (Returns true, s')
        ∧ hasDocument "a" s' = false
        ∧ filter (λ doc, belongsTo "a" doc = true) (storeDocs s') = [].
Proof.
  apply (proj2 (@deleteDocument_spec tieBackend "a" twoDocuments eq_refl)
           ["a_chunk_0_1700000000000"; "a_chunk_2_1700000000000"]
           [chunkOf "a" 0 "alpha"; chunkOf "b" 0 "beta"; chunkOf "a" 1 "gamma"]).
  - vm_compute. reflexivity.
  - discriminate.
  - reflexivity.
  - reflexivity.
Defined.

(** C1 as stated fails on ids that are empty after trimming: the empty id
    is in no registry, yet [deleteDocument("")] throws instead of returning
    [false]; and the id [" "], which [addDocuments] registers, cannot be
    deleted at all.  It also fails while the embedding service is down: the
    scan of the store throws, and so does [deleteDocument] of a registered
    document. *)
Lemma deleteDocument_empty_id_throws :
  (documentRegistry twoDocuments !! "" = None
   ∧ deleteDocument (backend:=tieBackend) "" twoDocuments
     = (Throws (mkExn VectorStoreError
          "Failed to delete document: Document ID cannot be empty"), twoDocuments))
  ∧ (∃ ids s1,
       addDocuments (backend:=tieBackend) fixedClock [chunkOf " " 0 "text"]
         newVectorStoreManager = (Returns ids, s1)
       ∧ hasDocument " " s1 = true
       ∧ deleteDocument (backend:=tieBackend) " " s1
         = (Throws (mkExn VectorStoreError
              "Failed to delete document: Document ID cannot be empty"), s1))
  ∧ (hasDocument "a" twoDocuments = true
     ∧ deleteDocument (backend:=downBackend) "a" twoDocuments
       = (Throws (mkExn VectorStoreError
            "Failed to delete document: Connection error."), twoDocuments)).
Proof.
  split; [|split].
  - split; [vm_compute; reflexivity | reflexivity].
  - eexists _, _. split; [vm_compute; reflexivity|].
    split; vm_compute; reflexivity.
  - split; vm_compute; reflexivity.
Qed.

Lemma addDocuments_spec_witness :
  ∃ ids s',
    addDocuments (backend:=tieBackend) fixedClock [chunkOf "a" 2 "delta"; strayChunk]
      twoDocuments = (Returns ids, s')
    ∧ length ids = 2
    ∧ getDocumentChunkCount "a" s' = 3.
Proof.
  destruct (@addDocuments_spec tieBackend fixedClock
              [chunkOf "a" 2 "delta"; strayChunk] twoDocuments)
    as (_ & Hruns & Hafter).
  destruct (Hruns eq_refl) as (ids & s' & Hrun).
  destruct (Hafter ids s' Hrun) as (_ & Hlen & _ & Hcount).
  exists ids, s'. split; [exact Hrun|]. split; [exact Hlen|].
  rewrite (Hcount "a") by discriminate. vm_compute. reflexivity.
Defined.

(** C6 as stated fails at the empty [documentId]: a chunk whose
    [documentId] is [""] is added and gets its id, but the chunk count of
    [""] does not grow. *)
Lemma addDocuments_empty_id_uncounted :
  ∃ ids s',
    addDocuments (backend:=tieBackend) fixedClock [emptyIdChunk] newVectorStoreManager
    = (Returns ids, s')
    ∧ length (filter (λ doc, belongsTo "" doc = true) [emptyIdChunk]) = 1
    ∧ getDocumentChunkCount "" newVectorStoreManager = 0
    ∧ getDocumentChunkCount "" s' = 0.
Proof.
  eexists _, _. split; [vm_compute; reflexivity|].
  repeat split; vm_compute; reflexivity.
Qed.

Lemma searchWithinDocument_spec_witness :
  searchWithinDocument (backend:=tieBackend) "b" "what is beta" 2 twoDocuments
  = (Returns [chunkOf "b" 0 "beta"], twoDocuments)
  ∧ searchWithinDocument (backend:=tieBackend) "b" "  " 2 twoDocuments
    = (Throws (mkExn VectorStoreError
         "Failed to search within document: Query cannot be empty"), twoDocuments).
Proof.
  split.
  - apply (proj1 (@searchWithinDocument_spec tieBackend "b" "what is beta" 2
                    twoDocuments)); [reflexivity | reflexivity | reflexivity | lia].
  - apply (proj2 (proj2 (@searchWithinDocument_spec tieBackend "b" "  " 2
                           twoDocuments))); reflexivity.
Defined.

(** C7 as stated fails on arguments that are empty after trimming: for the
    registered id ["a"] the non-empty query [" "] is rejected, and the
    registered id [" "] is rejected whatever the query.  It also fails while
    the embedding service is down: the search throws. *)
Lemma searchWithinDocument_blank_arguments_throw :
  (hasDocument "a" twoDocuments = true
   ∧ " " ≠ ""
   ∧ searchWithinDocument (backend:=tieBackend) "a" " " 1 twoDocuments
     = (Throws (mkExn VectorStoreError
          "Failed to search within document: Query cannot be empty"), twoDocuments))
  ∧ (∃ ids s1,
       addDocuments (backend:=tieBackend) fixedClock [chunkOf " " 0 "text"]
         newVectorStoreManager = (Returns ids, s1)
       ∧ hasDocument " " s1 = true
       ∧ searchWithinDocument (backend:=tieBackend) " " "text" 1 s1
         = (Throws (mkExn VectorStoreError
              "Failed to search within document: Document ID cannot be empty"), s1))
  ∧ (searchWithinDocument (backend:=downBackend) "a" "alpha" 1 twoDocuments
     = (Throws (mkExn VectorStoreError
          "Failed to search within document: Connection error."), twoDocuments)).
Proof.
  split; [|split].
  - split; [vm_compute; reflexivity|]. split; [discriminate | reflexivity].
  - eexists _, _. split; [vm_compute; reflexivity|].
    split; vm_compute; reflexivity.
  - vm_compute. reflexivity.
Qed.

(** Why the claim asks for [k >= 1]: the method has no guard on [k], and a
    negative [k] makes both cuts count from the end.  With six chunks in the
    store, [k = -1] returns two chunks. *)
Example searchWithinDocument_negative_k :
  let s := (addDocuments (backend:=tieBackend) fixedClock
              [chunkOf "a" 0 "alpha"; chunkOf "a" 1 "beta"; chunkOf "a" 2 "gamma";
               chunkOf "b" 0 "delta"; chunkOf "b" 1 "epsilon"; chunkOf "b" 2 "zeta"]
              newVectorStoreManager).2 in
  (searchWithinDocument (backend:=tieBackend) "a" "alpha" (-1) s).1
  = Returns [chunkOf "a" 0 "alpha"; chunkOf "a" 1 "beta"].
Proof. vm_compute. reflexivity. Qed.

(** ** Chunks the registry does not track *)

Section Untracked.
Context {backend : VectorBackend}.

Arguments MemoryVectorStore.similaritySearch : simpl never.
Arguments Init.Nat.of_num_uint : simpl never.

(** Apart from [addDocuments], [deleteDocument] and [clearStore], an
    operation leaves the registry alone. *)
Lemma initializeStore_registry (s : VectorStoreManager) :
  documentRegistry (initializeStore s).2 = documentRegistry s.
Proof. by destruct s as [[vs|] reg]. Qed.

Lemma similaritySearch_registry query k (s : VectorStoreManager) :
  documentRegistry (similaritySearch query k s).2 = documentRegistry s.
Proof.
  unfold similaritySearch. unfold try_catch at 1.
  unfold mbind at 1. unfold M_bind at 1. rewrite ensureStore_run.
  unfold_M. simpl. destruct (blank query); [done|].
  destruct (bool_decide (k < 1)); [done|].
  by destruct (MemoryVectorStore.similaritySearch query k (storeDocs s)).
Qed.

Lemma getDocumentMetadata_registry documentId (s : VectorStoreManager) :
  documentRegistry (getDocumentMetadata documentId s).2 = documentRegistry s.
Proof.
  unfold getDocumentMetadata. unfold try_catch at 1.
  unfold mbind at 1. unfold M_bind at 1. rewrite ensureStore_run.
  unfold_M. simpl. destruct (blank documentId); [done|].
  destruct (negb _); [done|]. simpl.
  by destruct (MemoryVectorStore.similaritySearch "" 10000 _).
Qed.

Lemma searchWithinDocument_registry documentId query k (s : VectorStoreManager) :
  documentRegistry (searchWithinDocument documentId query k s).2 = documentRegistry s.
Proof.
  unfold searchWithinDocument. unfold try_catch at 1.
  unfold mbind at 1. unfold M_bind at 1. rewrite ensureStore_run.
  unfold_M. simpl. destruct (blank documentId); [done|].
  destruct (blank query); [done|]. destruct (negb _); [done|]. simpl.
  by destruct (MemoryVectorStore.similaritySearchSigned query (k * 3) _).
Qed.

Lemma addDocuments_registry now documents (s : VectorStoreManager) :
  documentRegistry (addDocuments now documents s).2 = documentRegistry s
  ∨ documentRegistry (addDocuments now documents s).2
    = (trackChunks now 0 documents ([], documentRegistry s)).2.
Proof.
  rewrite addDocuments_run. destruct (bool_decide (length documents = 0)); [by left|].
  destruct (embedDocuments (pageContent <$> documents)); [by right | by left].
Qed.

Lemma deleteDocument_registry documentId (s : VectorStoreManager) :
  documentRegistry (deleteDocument documentId s).2 = documentRegistry s
  ∨ documentRegistry (deleteDocument documentId s).2
    = delete documentId (documentRegistry s).
Proof.
  destruct (blank documentId) eqn:Hb.
  - rewrite deleteDocument_blank by done. by left.
  - rewrite deleteDocument_run by done.
    destruct (documentRegistry s !! documentId) as [[|c cs]|]; [by left| |by left].
    destruct (MemoryVectorStore.similaritySearch "" 10000 (storeDocs s));
      [|by left].
    simpl. destruct (bool_decide (0 < length _)); [|by right].
    destruct (embedDocuments _); [by right | by left].
Qed.

(** Every operation keeps the keys of the registry truthy and its entries
    non-empty. *)
Lemma stateAfter_wf op (s : VectorStoreManager) :
  registry_wf (documentRegistry s) →
  registry_wf (documentRegistry (stateAfter op s)).
Proof.
  intros Hwf. destruct op as [|now docs|q k|d|d|d q k|]; simpl.
  - by rewrite initializeStore_registry.
  - destruct (addDocuments_registry now docs s) as [-> | ->]; [done|].
    by apply (trackChunks_wf now docs 0 ([], documentRegistry s)).
  - by rewrite similaritySearch_registry.
  - destruct (deleteDocument_registry d s) as [-> | ->]; [done|].
    by apply registry_wf_delete.
  - by rewrite getDocumentMetadata_registry.
  - by rewrite searchWithinDocument_registry.
  - apply registry_wf_empty.
Qed.

Lemma reachable_wf (s : VectorStoreManager) :
  reachable s → registry_wf (documentRegistry s).
Proof.
  induction 1 as [|op s _ IH]; [apply registry_wf_empty | by apply stateAfter_wf].
Qed.

(** So a falsy id is never a document of a reachable manager. *)
Lemma reachable_no_empty_id (s : VectorStoreManager) :
  reachable s → hasDocument "" s = false ∧ getDocumentChunkCount "" s = 0.
Proof.
  intros Hr. apply reachable_wf in Hr.
  unfold hasDocument, getDocumentChunkCount.
  destruct (documentRegistry s !! "") as [ids|] eqn:He.
  - by destruct (Hr _ _ He) as [? _].
  - split; [|done]. apply bool_decide_eq_false_2. by intros [? ?].
Qed.

(** A batch of chunks without a truthy [documentId] goes into the store
    and leaves every count of the registry as it was. *)
Lemma addDocuments_untracked now documents (s : VectorStoreManager) :
  Forall (λ doc, truthy (md_documentId (metadata doc)) = false) documents →
  embedDocuments (pageContent <$> documents) = Returns tt →
  ∃ ids s', addDocuments now documents s = (Returns ids, s')
    ∧ storeDocs s' = storeDocs s ++ documents
    ∧ documentRegistry s' = documentRegistry s
    ∧ getStoreStats s' = getStoreStats s.
Proof.
  intros Hall Hembed. rewrite addDocuments_run, Hembed.
  destruct (bool_decide (length documents = 0)) eqn:Hlen.
  - apply bool_decide_eq_true, nil_length_inv in Hlen as ->.
    eexists _, _. split; [done|]. simpl. by rewrite app_nil_r.
  - eexists _, _. split; [done|]. simpl.
    pose proof (trackChunks_unregistered now documents 0
                  ([], documentRegistry s) Hall) as Hreg.
    simpl in Hreg. split; [done|]. split; [done|].
    unfold getStoreStats, getStoredDocumentIds. simpl. by rewrite Hreg.
Qed.

(** The chunk total of the statistics grows by the chunks of the batch
    that carry a truthy [documentId], and by no others. *)
Lemma addDocuments_totalChunks now documents ids (s s' : VectorStoreManager) :
  addDocuments now documents s = (Returns ids, s') →
  totalChunks (getStoreStats s')
  = totalChunks (getStoreStats s)
    + length (filter (λ doc, truthy (md_documentId (metadata doc)) = true) documents).
Proof.
  rewrite addDocuments_run. destruct (bool_decide (length documents = 0)) eqn:Hlen.
  - apply bool_decide_eq_true, nil_length_inv in Hlen as ->.
    intros [= <- <-]. simpl. lia.
  - destruct (embedDocuments (pageContent <$> documents)); [|done].
    intros [= <- <-]. simpl.
    apply (trackChunks_sum now documents 0 ([], documentRegistry s)).
Qed.

(** [deleteDocument] keeps every chunk of another document, or of none,
    that its scan of the store returned. *)
Lemma deleteDocument_keeps_scanned documentId allDocs doc (s s' : VectorStoreManager) :
  blank documentId = false →
  deleteDocument documentId s = (Returns true, s') →
  MemoryVectorStore.similaritySearch "" 10000 (storeDocs s) = Returns allDocs →
  doc ∈ allDocs →
  md_documentId (metadata doc) ≠ Some documentId →
  doc ∈ storeDocs s'.
Proof.
  intros Hb Hrun Hscan Hin Hother.
  rewrite (deleteDocument_run _ _ Hb), Hscan in Hrun.
  destruct (documentRegistry s !! documentId) as [[|c cs]|]; [done| |done].
  simpl in Hrun.
  assert (Hkept : doc ∈ filter
            (λ doc, md_documentId (metadata doc) ≠ Some documentId) allDocs)
    by (by apply list_elem_of_filter).
  destruct (bool_decide (0 < length _)) eqn:Hlen.
  - destruct (embedDocuments _); [|done]. by injection Hrun as <-.
  - apply bool_decide_eq_false in Hlen.
    destruct (filter _ allDocs); [by apply elem_of_nil in Hkept | simpl in Hlen; lia].
Qed.

(** The scan returns the whole store as long as the store holds at most
    10000 chunks and the ranking loses none. *)
Lemma full_scan_small_store (docs r : list Document) :
  ranked "" docs = Returns r → r ≡ₚ docs → length docs ≤ 10000 →
  MemoryVectorStore.similaritySearch "" 10000 docs = Returns r.
Proof.
  intros Hr Hperm Hlen. unfold MemoryVectorStore.similaritySearch. rewrite Hr.
  rewrite take_ge; [done|]. by rewrite Hperm.
Qed.

End Untracked.

(** C10, the failing run.  After an upload of 10000 chunks of document
    ["a"] and one chunk without a [documentId], the store holds the 10001
    chunks and the registry counts 10000 for ["a"]; with the chunk without
    a [documentId] ranked last, the scan of [deleteDocument("a")] stops at
    10000 chunks, and the store rebuilt from it is empty: the chunk that
    belongs to no document is removed. *)
Lemma deleteDocument_removes_untracked_chunk :
  let added := addDocuments (backend:=tieBackend) fixedClock largeBatch newVectorStoreManager in
  let deleted := deleteDocument (backend:=tieBackend) "a" added.2 in
  length (storeDocs added.2) = 10001
  ∧ last (storeDocs added.2) = Some strayChunk
  ∧ getDocumentChunkCount "a" added.2 = 10000
  ∧ totalChunks (getStoreStats added.2) = 10000
  ∧ deleted.1 = Returns true
  ∧ storeDocs deleted.2 = [].
Proof. vm_compute. done. Qed.

(** ** The claims about the configuration *)

Lemma Qltb_lt (a b : Q) : Qltb a b = true ↔ (a < b)%Q.
Proof.
  unfold Qltb. rewrite negb_true_iff, <-not_true_iff_false, Qle_bool_iff.
  split; [apply Qnot_le_lt | apply Qlt_not_le].
Qed.

Lemma Qltb_ge (a b : Q) : Qltb a b = false ↔ (b <= a)%Q.
Proof. unfold Qltb. by rewrite negb_false_iff, Qle_bool_iff. Qed.

Lemma Qgeb_lt (a b : Q) : Qgeb a b = false ↔ (a < b)%Q.
Proof.
  unfold Qgeb. rewrite <-not_true_iff_false, Qle_bool_iff.
  split; [apply Qnot_le_lt | apply Qlt_not_le].
Qed.

Lemma in_range_iff (x lo hi : Q) :
  negb (Qltb x lo || Qltb hi x) = true ↔ (lo <= x ∧ x <= hi)%Q.
Proof.
  rewrite negb_true_iff, orb_false_iff, !Qltb_ge. done.
Qed.

Lemma acceptedb_accepted (c : RAGConfig) : acceptedb c = true ↔ accepted c.
Proof.
  unfold acceptedb, accepted.
  rewrite !andb_true_iff, !in_range_iff, negb_true_iff, Qgeb_lt. tauto.
Qed.

Section ConfigClaims.
Context {env : ProcessEnv} {fmt : NumberFormat}.

Lemma getConfig_run (st : ConfigInstance) :
  getConfig st =
    match st with
    | Some config => (Returns config, st)
    | None =>
        match loadConfig with
        | Returns config => (Returns config, Some config)
        | Throws e => (Throws e, None)
        end
    end.
Proof.
  destruct st as [config|]; [done|].
  unfold getConfig. unfold_M. simpl. by destruct loadConfig.
Qed.

(** Once [getConfig] has answered, the instance holds its answer and
    answers the same again. *)
Lemma getConfig_stored (st st0 : ConfigInstance) (current : RAGConfig) :
  getConfig st = (Returns current, st0) →
  st0 = Some current ∧ (is_Some st → st0 = st)
  ∧ getConfig st0 = (Returns current, st0).
Proof.
  rewrite getConfig_run. destruct st as [config|].
  - intros [= <- <-]. done.
  - destruct loadConfig; [|done]. intros [= <- <-].
    split; [done|]. split; [by intros [? ?] | done].
Qed.

Lemma updateConfig_run updates (st st0 : ConfigInstance) (current : RAGConfig) :
  getConfig st = (Returns current, st0) →
  updateConfig updates st =
    let newConfig := mergeConfig current updates in
    if acceptedb newConfig
    then (Returns newConfig, Some newConfig)
    else (Throws (mkExn ConfigurationError (rejection newConfig)), st0).
Proof.
  intros Hget. unfold updateConfig.
  unfold mbind at 1. unfold M_bind at 1. rewrite Hget.
  cbv zeta. generalize (mergeConfig current updates) as newConfig.
  intros newConfig. unfold acceptedb, rejection, throw.
  destruct (Qgeb (chunkOverlap newConfig) (chunkSize newConfig));
    cbn [negb andb]; [done|].
  destruct (Qltb (chunkSize newConfig) 100 || Qltb 10000 (chunkSize newConfig));
    cbn [negb andb]; [done|].
  destruct (Qltb (topK newConfig) 1 || Qltb 20 (topK newConfig));
    cbn [negb andb]; [done|].
  destruct (Qltb (llmTemperature newConfig) 0 || Qltb 2 (llmTemperature newConfig));
    cbn [negb andb]; [done|].
  destruct (Qltb (scoreThreshold newConfig) 0 || Qltb 1 (scoreThreshold newConfig));
    cbn [negb andb]; done.
Qed.

(** On finite numbers the update is validated.  Let [current] be the
    configuration in force, the one [getConfig]
    answers with.  For every partial update, if the merge of the update
    over [current] breaks [chunkOverlap < chunkSize] or one of the ranges
    [updateConfig] checks (chunk size in [100, 10000], topK in [1, 20],
    temperature in [0, 2], score threshold in [0, 1]), [updateConfig]
    throws a [ConfigurationError] and the configuration in force is still
    [current] (an instance that was already loaded is left exactly as it
    was); otherwise it stores the merge, in one assignment, and returns
    it. *)
Theorem updateConfig_spec updates (st st0 : ConfigInstance) (current : RAGConfig) :
  getConfig st = (Returns current, st0) →
  (¬ accepted (mergeConfig current updates) →
     ∃ msg, updateConfig updates st = (Throws (mkExn ConfigurationError msg), st0)
            ∧ getConfig st0 = (Returns current, st0)
            ∧ (is_Some st → st0 = st))
  ∧ (accepted (mergeConfig current updates) →
     updateConfig updates st
     = (Returns (mergeConfig current updates), Some (mergeConfig current updates))).
Proof.
  intros Hget. rewrite (updateConfig_run updates st st0 current Hget). cbv zeta.
  destruct (getConfig_stored _ _ _ Hget) as (_ & Hsame & Hagain).
  destruct (acceptedb (mergeConfig current updates)) eqn:Hacc.
  - apply acceptedb_accepted in Hacc. split; [done|]. by intros _.
  - apply not_true_iff_false in Hacc. rewrite acceptedb_accepted in Hacc.
    split; [|done]. intros _. eauto.
Qed.

(** A configuration that cannot be loaded fails the update the same way,
    and nothing is stored. *)
Lemma updateConfig_unloadable updates (e : Exn) :
  loadConfig = Throws e →
  updateConfig updates None = (Throws e, None).
Proof.
  intros Hload. unfold updateConfig. unfold mbind at 1. unfold M_bind at 1.
  by rewrite getConfig_run, Hload.
Qed.

End ConfigClaims.

(** *** [updateConfig] on every value *)

Section RuntimeConfig.
Context {env : ProcessEnv} {fmt : NumberFormat}.

Lemma merge_finite (current : RAGConfig) (updates : RAGConfigUpdate) :
  JS.merge (JS.ofFinite current) (JS.ofFiniteUpdate updates)
  = JS.ofFinite (mergeConfig current updates).
Proof.
  destruct current, updates as [a b c d p f g h i j].
  by destruct a, b, c, d, p, f, g, h, i, j.
Qed.

Lemma getConfig_finite (st : ConfigInstance) :
  JS.getConfig (JS.ofFinite <$> st)
  = (match (getConfig st).1 with
     | Returns config => Returns (JS.ofFinite config)
     | Throws e => Throws e
     end, JS.ofFinite <$> (getConfig st).2).
Proof.
  rewrite getConfig_run. destruct st as [config|]; [done|].
  unfold JS.getConfig. unfold_M. simpl. by destruct loadConfig.
Qed.

(** On a configuration and an update of finite numbers, [JS.updateConfig]
    is [updateConfig]: the same outcome, message included, and the same
    stored configuration. *)
Lemma updateConfig_finite (updates : RAGConfigUpdate) (st : ConfigInstance) :
  JS.updateConfig (JS.ofFiniteUpdate updates) (JS.ofFinite <$> st)
  = (match (updateConfig updates st).1 with
     | Returns config => Returns (JS.ofFinite config)
     | Throws e => Throws e
     end, JS.ofFinite <$> (updateConfig updates st).2).
Proof.
  unfold JS.updateConfig. unfold mbind at 1. unfold M_bind at 1.
  rewrite getConfig_finite.
  destruct (getConfig st) as [[current|e] st0] eqn:Hget.
  - rewrite (updateConfig_run updates st st0 current Hget). cbv zeta.
    cbn [fst snd]. rewrite merge_finite.
    unfold acceptedb, rejection, overlapMessage.
    destruct (mergeConfig current updates) as [size overlap ? ? ? ? temp ? k th].
    unfold JS.ge, JS.gt, JS.lt, JS.le, throw. cbn.
    unfold Qgeb.
    destruct (Qle_bool size overlap); [done|].
    destruct (Qltb size 100 || Qltb 10000 size); [done|].
    destruct (Qltb k 1 || Qltb 20 k); [done|].
    destruct (Qltb temp 0 || Qltb 2 temp); [done|].
    by destruct (Qltb th 0 || Qltb 1 th).
  - assert (Hthrows : updateConfig updates st = (Throws e, st0)).
    { unfold updateConfig. unfold mbind at 1. unfold M_bind at 1. by rewrite Hget. }
    by rewrite Hthrows.
Qed.

(** C3.  [updateConfig] does not reject what is not a number.  Whatever
    accepted configuration is stored, the update [{ chunkSize: v }] with
    [v] NaN or [undefined] passes every check, because each check is a
    comparison and every comparison with NaN is false: the call returns,
    and the merge is stored with [chunkOverlap < chunkSize] false and the
    chunk size not within [100, 10000]. *)
Theorem updateConfig_stores_not_a_number (current : RAGConfig) (v : JS.NumberValue) :
  accepted current →
  JS.toNumber v = NotANumber →
  let newConfig := JS.merge (JS.ofFinite current) (JS.onlyChunkSize v) in
  JS.updateConfig (JS.onlyChunkSize v) (Some (JS.ofFinite current))
  = (Returns newConfig, Some newConfig)
  ∧ JS.chunkSize newConfig = v
  ∧ JS.lt (JS.chunkOverlap newConfig) (JS.chunkSize newConfig) = false
  ∧ JS.ge (JS.chunkSize newConfig) (JS.num 100) = false
  ∧ JS.le (JS.chunkSize newConfig) (JS.num 10000) = false.
Proof.
  intros Hacc Hv. apply acceptedb_accepted in Hacc.
  destruct current as [size overlap ? ? ? ? temp ? k th].
  unfold acceptedb in Hacc. cbn in Hacc.
  apply andb_prop in Hacc as [Hacc Hth]. apply andb_prop in Hacc as [Hacc Htemp].
  apply andb_prop in Hacc as [Hacc Hk]. apply negb_true_iff in Hth, Htemp, Hk.
  cbv zeta. unfold JS.updateConfig, JS.getConfig, JS.merge, JS.onlyChunkSize.
  unfold_M. cbn.
  unfold JS.ge, JS.gt, JS.lt, JS.le. cbn. rewrite Hv. cbn.
  rewrite Hk, Htemp, Hth. done.
Qed.

End RuntimeConfig.

Lemma updateConfig_stores_not_a_number_witness :
  let newConfig :=
    JS.mkConfig (JS.Number NotANumber) (JS.num 200) (Some "text-embedding-ada-002")
      (Some memory) (Some "./data/vectorstore") (Some "gpt-3.5-turbo") (JS.num 0)
      (JS.num 500) (JS.num 4) (JS.num (7 # 10)) in
  JS.updateConfig (env:=emptyEnv) (fmt:=fractionFormat)
    (JS.onlyChunkSize (JS.Number NotANumber)) (Some (JS.ofFinite DEFAULT_CONFIG))
  = (Returns newConfig, Some newConfig).
Proof.
  apply (@updateConfig_stores_not_a_number emptyEnv fractionFormat DEFAULT_CONFIG
           (JS.Number NotANumber)).
  - vm_compute. intuition discriminate.
  - reflexivity.
Defined.

(** The update of the end-to-end scenario: chunk size 50 under overlap 100. *)
Lemma updateConfig_spec_witness :
  ∃ msg,
    updateConfig (env:=emptyEnv) (fmt:=fractionFormat)
      (mkRAGConfigUpdate (Some 50%Q) (Some 100%Q) None None None None None None None None)
      (Some DEFAULT_CONFIG)
    = (Throws (mkExn ConfigurationError msg), Some DEFAULT_CONFIG)
    ∧ getConfig (env:=emptyEnv) (fmt:=fractionFormat) (Some DEFAULT_CONFIG)
      = (Returns DEFAULT_CONFIG, Some DEFAULT_CONFIG)
    ∧ (is_Some (Some DEFAULT_CONFIG) → Some DEFAULT_CONFIG = Some DEFAULT_CONFIG).
Proof.
  apply (proj1 (@updateConfig_spec emptyEnv fractionFormat
                  (mkRAGConfigUpdate (Some 50%Q) (Some 100%Q)
                     None None None None None None None None)
                  (Some DEFAULT_CONFIG) (Some DEFAULT_CONFIG) DEFAULT_CONFIG eq_refl)).
  unfold accepted. simpl. intros [Hlt _]. revert Hlt. vm_compute. discriminate.
Defined.

(** The ranges of [chunkOverlap] and [llmMaxTokens] are not among the checks
    of [updateConfig]: a negative overlap and a token limit of 0 are
    stored. *)
Example updateConfig_unchecked_ranges :
  ∃ stored,
    updateConfig (env:=emptyEnv) (fmt:=fractionFormat)
      (mkRAGConfigUpdate None (Some (-5)%Q) None None None None None (Some 0%Q) None None)
      (Some DEFAULT_CONFIG)
    = (Returns stored, Some stored)
    ∧ chunkOverlap stored = (-5)%Q
    ∧ llmMaxTokens stored = 0%Q.
Proof. eexists. split; [vm_compute; reflexivity|]. split; reflexivity. Qed.

(** ** The claims about the chunker and the ingestion pipeline *)

Lemma blank_false_iff (s : string) : blank s = false ↔ trim s ≠ "".
Proof.
  unfold blank. rewrite orb_false_iff, !bool_decide_eq_false. split; [tauto|].
  intros Ht. split; [|done]. by intros ->.
Qed.

Section ChunkerClaims.
Context {splitter : TextSplitter}.

(** C5.  For every text that is not empty after trimming and whose
    trimmed length is at most [chunkSize], [splitText] returns exactly one
    chunk: its content is the trimmed text, its [chunkIndex] is 0 and its
    [totalChunks] is 1, and every other key of its metadata is the
    caller's. *)
Theorem splitText_single_chunk (text : string) (config : RAGConfig) (extra : Metadata) :
  trim text ≠ "" →
  (lengthOf (trim text) <= chunkSize config)%Q →
  ∃ chunk,
    splitText text config extra = Returns [chunk]
    ∧ pageContent chunk = trim text
    ∧ md_chunkIndex (metadata chunk) = Some 0
    ∧ md_totalChunks (metadata chunk) = Some 1
    ∧ md_documentId (metadata chunk) = md_documentId extra
    ∧ md_filename (metadata chunk) = md_filename extra
    ∧ md_fileType (metadata chunk) = md_fileType extra
    ∧ md_fileSize (metadata chunk) = md_fileSize extra
    ∧ md_pageCount (metadata chunk) = md_pageCount extra
    ∧ md_score (metadata chunk) = md_score extra.
Proof.
  intros Htrim Hlen. apply blank_false_iff in Htrim. apply Qle_bool_iff in Hlen.
  exists (mkDocument (trim text) (withChunkPosition extra 0 1)).
  unfold splitText. rewrite Htrim. cbv zeta. rewrite Hlen. simpl. done.
Qed.

End ChunkerClaims.

Lemma splitText_single_chunk_witness :
  ∃ chunk,
    splitText (splitter:=hundredsSplitter)
      "  The capital of France is Paris, on the Seine.  " DEFAULT_CONFIG
      (mkMetadata (Some "doc-1") (Some "notes.txt") (Some "txt") (Some 50%Q)
         None None None None)
    = Returns [chunk]
    ∧ pageContent chunk = "The capital of France is Paris, on the Seine."
    ∧ md_chunkIndex (metadata chunk) = Some 0
    ∧ md_totalChunks (metadata chunk) = Some 1
    ∧ md_documentId (metadata chunk) = Some "doc-1"
    ∧ md_filename (metadata chunk) = Some "notes.txt"
    ∧ md_fileType (metadata chunk) = Some "txt"
    ∧ md_fileSize (metadata chunk) = Some 50%Q
    ∧ md_pageCount (metadata chunk) = None
    ∧ md_score (metadata chunk) = None.
Proof.
  apply (@splitText_single_chunk hundredsSplitter
           "  The capital of France is Paris, on the Seine.  " DEFAULT_CONFIG
           (mkMetadata (Some "doc-1") (Some "notes.txt") (Some "txt") (Some 50%Q)
              None None None None)).
  - vm_compute. discriminate.
  - vm_compute. discriminate.
Defined.

Section IngestionClaims.
Context {fs : FileSystem} {splitter : TextSplitter} {fmt : NumberFormat}.

Lemma lookup_progressed status progress error uuid (states : IngestionStates) :
  alter (progressed status progress error) uuid states !! uuid
  = progressed status progress error <$> states !! uuid.
Proof. apply lookup_alter_eq. Qed.

(** C4.  For every file path, configuration and size limit,
    [ingestDocument] returns and does not throw.  When validating the
    file, validating the splitting configuration, loading or chunking
    throws, the result is [{success: false, documentId, chunkCount: 0,
    error: message}] and the state recorded for the document is [failed];
    when they all return, the result is [{success: true, documentId,
    chunkCount}] with the number of chunks produced, and the state
    recorded is [completed] at progress 100, holding those chunks. *)
Theorem ingestDocument_returns (uuid : string) (today : Z) (filePath : string)
    (config : RAGConfig) (maxFileSize : option Q) (states : IngestionStates) :
  ∃ result states',
    ingestDocument uuid today filePath config maxFileSize states
    = (Returns result, states')
    ∧ match prepared uuid filePath config maxFileSize with
      | Throws e =>
          result = mkIngestResult false uuid 0 (Some (exn_message e))
          ∧ ∃ state, states' !! uuid = Some state
              ∧ is_status state = failed
      | Returns (loadedDoc, chunks) =>
          result = mkIngestResult true uuid (length chunks) None
          ∧ ∃ state, states' !! uuid = Some state
              ∧ is_status state = completed
              ∧ is_progress state = 100
              ∧ is_chunks state = Some chunks
      end.
Proof.
  unfold ingestDocument, prepared, updateProgress. unfold_M. simpl.
  destruct (validateFile filePath maxFileSize) as [[]|e]; simpl.
  2: { eexists _, _. split; [done|]. split; [done|].
       rewrite !lookup_alter_eq, lookup_insert_eq. simpl. eauto. }
  destruct (validateSplittingConfig config) as [[]|e]; simpl.
  2: { eexists _, _. split; [done|]. split; [done|].
       rewrite !lookup_alter_eq, lookup_insert_eq. simpl. eauto. }
  destruct (loadDocument filePath) as [loadedDoc|e]; simpl.
  2: { eexists _, _. split; [done|]. split; [done|].
       rewrite !lookup_alter_eq, lookup_insert_eq. simpl. eauto. }
  destruct (splitText _ _ _) as [chunks|e]; simpl.
  2: { eexists _, _. split; [done|]. split; [done|].
       rewrite !lookup_alter_eq, lookup_insert_eq. simpl. eauto. }
  eexists _, _. split; [done|]. split; [done|].
  rewrite !lookup_alter_eq, lookup_insert_eq. simpl. eauto.
Qed.

End IngestionClaims.

(** The upload of the end-to-end scenario: a text file of 50 characters
    under a chunk size of 1000 is ingested as one chunk. *)
Example ingestDocument_notes :
  ∃ states',
    ingestDocument (fs:=notesFile) (splitter:=hundredsSplitter) (fmt:=fractionFormat)
      "doc-1" 0%Z "notes.txt" DEFAULT_CONFIG None ∅
    = (Returns (mkIngestResult true "doc-1" 1 None), states')
    ∧ getDocumentChunks "doc-1" states'
      = Some [mkDocument "The capital of France is Paris, on the Seine."
                (mkMetadata (Some "doc-1") (Some "notes.txt") (Some "txt") (Some 50%Q)
                   None (Some 0) (Some 1) None)].
Proof. eexists. split; vm_compute; reflexivity. Qed.

(** A file that is not there is reported, not thrown. *)
Example ingestDocument_missing_file :
  ∃ states',
    ingestDocument (fs:=notesFile) (splitter:=hundredsSplitter) (fmt:=fractionFormat)
      "doc-2" 0%Z "missing.txt" DEFAULT_CONFIG None ∅
    = (Returns (mkIngestResult false "doc-2" 0
         (Some "File validation failed: ENOENT: no such file or directory")),
       states')
    ∧ is_status <$> states' !! "doc-2" = Some failed.
Proof. eexists. split; vm_compute; reflexivity. Qed.

(** ** The claims about the query engine *)

(** *** Confidence *)

Lemma sumScores_present (scores : list (option Q)) : ∀ acc : Q,
  (foldl (λ sum score, sum + default 0 score) acc (filter (λ score, score ≠ None) scores)
   == acc + foldr Qplus 0 (omap id scores))%Q.
Proof.
  induction scores as [|[q|] rest IH]; intros acc.
  - simpl. ring.
  - rewrite filter_cons, decide_True by done. simpl. rewrite IH. symmetry. apply Qplus_assoc.
  - rewrite filter_cons, decide_False by (by intros ?). apply IH.
Qed.

Lemma length_present (scores : list (option Q)) :
  length (filter (λ score, score ≠ None) scores) = length (omap id scores).
Proof.
  induction scores as [|[q|] rest IH]; [done| |].
  - rewrite filter_cons, decide_True by done. simpl. by rewrite IH.
  - rewrite filter_cons, decide_False by (by intros ?). done.
Qed.

Lemma presentScores_omap (documents : list Document) :
  presentScores documents = omap id ((λ doc, md_score (metadata doc)) <$> documents).
Proof.
  unfold presentScores. induction documents as [|doc rest IH]; [done|].
  cbn. destruct (md_score (metadata doc)); cbn; [f_equal|]; exact IH.
Qed.

Lemma clamp01_min_max (x y : Q) : (x == y)%Q → (Qmin 1 (Qmax 0 x) == clamp01 y)%Q.
Proof.
  intros Hxy. unfold clamp01.
  destruct (Q.max_spec 0 x) as [[H0 ->] | [H0 ->]];
    destruct (Qltb y 0) eqn:Hlo;
    try (apply Qltb_lt in Hlo); try (apply Qltb_ge in Hlo);
    try (destruct (Qltb 1 y) eqn:Hhi;
         [apply Qltb_lt in Hhi | apply Qltb_ge in Hhi]).
  all: first [ destruct (Q.min_spec 1 x) as [[H1 ->] | [H1 ->]]; lra
             | destruct (Q.min_spec 1 0) as [[H1 ->] | [H1 ->]]; lra ].
Qed.

Lemma clamp01_bounds (x : Q) : (0 <= clamp01 x ∧ clamp01 x <= 1)%Q.
Proof.
  unfold clamp01. destruct (Qltb x 0) eqn:Hlo; [lra|]. apply Qltb_ge in Hlo.
  destruct (Qltb 1 x) eqn:Hhi; [lra|]. apply Qltb_ge in Hhi. lra.
Qed.

Lemma calculateConfidence_scored (documents : list Document) :
  presentScores documents ≠ [] →
  (calculateConfidence documents == clamp01 (mean (presentScores documents)))%Q.
Proof.
  intros Hpresent. unfold calculateConfidence.
  destruct documents as [|doc rest]; [done|].
  rewrite bool_decide_eq_false_2 by done. cbv zeta.
  rewrite presentScores_omap in *.
  set (scores := (λ doc, md_score (metadata doc)) <$> doc :: rest) in *.
  rewrite bool_decide_eq_true_2.
  2: { rewrite length_present. destruct (omap id scores); [done | simpl; lia]. }
  apply clamp01_min_max. unfold mean, sumScores.
  rewrite sumScores_present, length_present. by rewrite Qplus_0_l.
Qed.

Lemma calculateConfidence_unscored (documents : list Document) :
  documents ≠ [] → presentScores documents = [] →
  calculateConfidence documents
  = (Qmin (inject_Z (Z.of_nat (length documents)) / 4) 1 * (8 # 10))%Q.
Proof.
  intros Hne Hnone. unfold calculateConfidence.
  rewrite bool_decide_eq_false_2 by (by destruct documents).
  cbv zeta. rewrite bool_decide_eq_false_2; [done|].
  rewrite length_present, <-presentScores_omap, Hnone. simpl. lia.
Qed.

(** C2.  [calculateConfidence] returns 0 on no chunk; when some chunks
    carry a score, the mean of the scores present, clamped to [0, 1]; when
    none does, [min(count / 4, 1) * 0.8], where [count] is the number of
    chunks.  In every case the result lies in [0, 1]. *)
Theorem calculateConfidence_spec (documents : list Document) :
  calculateConfidence [] = 0%Q
  ∧ (presentScores documents ≠ [] →
     (calculateConfidence documents == clamp01 (mean (presentScores documents)))%Q)
  ∧ (documents ≠ [] → presentScores documents = [] →
     (calculateConfidence documents
      == Qmin (inject_Z (Z.of_nat (length documents)) / 4) 1 * (8 # 10))%Q)
  ∧ (0 <= calculateConfidence documents ∧ calculateConfidence documents <= 1)%Q.
Proof.
  split; [done|]. split; [apply calculateConfidence_scored|].
  split; [by intros Hne Hnone; rewrite calculateConfidence_unscored|].
  destruct documents as [|doc rest]; [by vm_compute|].
  destruct (presentScores (doc :: rest)) as [|q qs] eqn:Hpresent.
  - rewrite calculateConfidence_unscored by done.
    set (n := (inject_Z (Z.of_nat (length (doc :: rest))) / 4)%Q).
    assert (0 <= n)%Q.
    { unfold n. apply Qle_shift_div_l; [lra|]. rewrite Qmult_0_l.
      change 0%Q with (inject_Z 0). rewrite <-Zle_Qle. lia. }
    destruct (Q.min_spec n 1) as [[Hlt ->] | [Hge ->]]; lra.
  - rewrite calculateConfidence_scored by (by rewrite Hpresent).
    apply clamp01_bounds.
Qed.

Lemma calculateConfidence_spec_witness :
  (calculateConfidence
     [mkDocument "x" (mkMetadata None None None None None None None (Some (9 # 10)));
      mkDocument "y" emptyMetadata;
      mkDocument "z" (mkMetadata None None None None None None None (Some (5 # 10)))]
   == 7 # 10)%Q
  ∧ (calculateConfidence [mkDocument "y" emptyMetadata] == 2 # 10)%Q.
Proof.
  split.
  - rewrite (proj1 (proj2 (calculateConfidence_spec _))).
    + vm_compute. reflexivity.
    + vm_compute. discriminate.
  - rewrite (proj1 (proj2 (proj2 (calculateConfidence_spec _)))).
    + vm_compute. reflexivity.
    + discriminate.
    + reflexivity.
Defined.

(** *** Sources *)

(** C8.  [formatSourceDocuments] maps the chunk at position [i] to a source
    with the chunk's content; the [documentId] is the chunk's, and
    ["unknown_i"] when the metadata lacks one (or holds an empty one); the
    [filename] is the chunk's or ["Unknown"]; the [chunkIndex] is the
    chunk's or [i]; the [relevanceScore] is the chunk's score, and 1, not
    0, when the metadata carries none. *)
Theorem formatSourceDocuments_spec (documents : list Document) :
  length (formatSourceDocuments documents) = length documents
  ∧ ∀ i doc, documents !! i = Some doc →
      ∃ source, formatSourceDocuments documents !! i = Some source
        ∧ sd_content source = pageContent doc
        ∧ sd_documentId source
          = orElse (md_documentId (metadata doc)) ("unknown_" +:+ pretty i)
        ∧ (md_documentId (metadata doc) = None →
           sd_documentId source = "unknown_" +:+ pretty i)
        ∧ sd_filename source = orElse (md_filename (metadata doc)) "Unknown"
        ∧ sd_chunkIndex source = default i (md_chunkIndex (metadata doc))
        ∧ (∀ score, md_score (metadata doc) = Some score →
           sd_relevanceScore source = score)
        ∧ (md_score (metadata doc) = None →
           sd_relevanceScore source = 1%Q ∧ ¬ (sd_relevanceScore source == 0)%Q).
Proof.
  unfold formatSourceDocuments. split; [apply length_imap|].
  intros i doc Hdoc. rewrite list_lookup_imap, Hdoc. simpl.
  eexists. split; [done|]. simpl.
  split; [by destruct (pageContent doc)|]. split; [done|].
  split; [by intros ->|]. split; [done|]. split; [done|].
  split; [by intros score ->|]. intros ->. simpl. split; [done|]. discriminate.
Qed.

Lemma formatSourceDocuments_spec_witness :
  ∃ source,
    formatSourceDocuments [chunkOf "a" 0 "alpha"; strayChunk] !! 1 = Some source
    ∧ sd_content source = "stray text"
    ∧ sd_documentId source = "unknown_1"
    ∧ sd_chunkIndex source = 1
    ∧ sd_relevanceScore source = 1%Q.
Proof.
  destruct (proj2 (formatSourceDocuments_spec [chunkOf "a" 0 "alpha"; strayChunk])
              1 strayChunk eq_refl)
    as (source & Hsource & Hcontent & _ & Hid & _ & Hindex & _ & Hscore).
  exists source. split; [exact Hsource|]. split; [exact Hcontent|].
  split; [exact (Hid eq_refl)|]. split; [exact Hindex|].
  exact (proj1 (Hscore eq_refl)).
Defined.

(** *** The chains, once built *)

Section EngineClaims.
Context {env : ProcessEnv} {fmt : NumberFormat} {runner : ChainRunner}.

Ltac unfold_engine :=
  unfold keepQueryError, onConfig, onManager, setEngine; unfold_M.

Lemma askQuestion_rejected startTime endTime question config (sys : Service) :
  blank question = true →
  askQuestion startTime endTime question config sys
  = (Throws (mkExn RetrievalError "Question cannot be empty"), sys).
Proof. intros Hb. unfold askQuestion. unfold_engine. by rewrite Hb. Qed.

Lemma askWithHistory_rejected startTime endTime question history config
    (sys : Service) :
  blank question = true →
  askWithHistory startTime endTime question history config sys
  = (Throws (mkExn RetrievalError "Question cannot be empty"), sys).
Proof. intros Hb. unfold askWithHistory. unfold_engine. by rewrite Hb. Qed.

Lemma askQuestion_unconfigured startTime endTime question config (sys : Service)
    (e : Exn) (cfg' : option RAGConfig) :
  blank question = false →
  getConfig (configInstance sys) = (Throws e, cfg') →
  askQuestion startTime endTime question config sys
  = (Throws (queryError "Failed to process question: " e),
     mkService cfg' (storeManager sys) (engine sys)).
Proof.
  intros Hb Hget. unfold askQuestion. unfold_engine. by rewrite Hb, Hget.
Qed.

Lemma askWithHistory_unconfigured startTime endTime question history config
    (sys : Service) (e : Exn) (cfg' : option RAGConfig) :
  blank question = false →
  getConfig (configInstance sys) = (Throws e, cfg') →
  askWithHistory startTime endTime question history config sys
  = (Throws (queryError "Failed to process question with history: " e),
     mkService cfg' (storeManager sys) (engine sys)).
Proof.
  intros Hb Hget. unfold askWithHistory. unfold_engine. by rewrite Hb, Hget.
Qed.

(** A question put to an engine whose chain is built: the chain is
    invoked as it is, and only the [llm] field may change. *)
Lemma askQuestion_run startTime endTime question config (sys : Service)
    (ragConfig : RAGConfig) (cfg' : option RAGConfig) (chain : RetrievalChain) :
  blank question = false →
  getConfig (configInstance sys) = (Returns ragConfig, cfg') →
  qaChain (engine sys) = Some chain →
  askQuestion startTime endTime question config sys
  = (match invoke chain question None with
     | Returns result => Returns (respond result startTime endTime)
     | Throws e => Throws (queryError "Failed to process question: " e)
     end,
     mkService cfg' (storeManager sys) (withOverrides config ragConfig (engine sys))).
Proof.
  intros Hb Hget Hchain. unfold askQuestion, withOverrides. unfold_engine.
  rewrite Hb, Hget. simpl.
  destruct (overridesModel config); simpl; rewrite Hchain; simpl;
    rewrite ?Hchain; simpl;
    by destruct (invoke chain question None).
Qed.

Lemma askWithHistory_run startTime endTime question history config (sys : Service)
    (ragConfig : RAGConfig) (cfg' : option RAGConfig) (chain : RetrievalChain) :
  blank question = false →
  getConfig (configInstance sys) = (Returns ragConfig, cfg') →
  conversationalChain (engine sys) = Some chain →
  askWithHistory startTime endTime question history config sys
  = (match invoke chain question (Some (formatHistory history)) with
     | Returns result => Returns (respond result startTime endTime)
     | Throws e =>
         Throws (queryError "Failed to process question with history: " e)
     end,
     mkService cfg' (storeManager sys) (withOverrides config ragConfig (engine sys))).
Proof.
  intros Hb Hget Hchain. unfold askWithHistory, withOverrides. unfold_engine.
  rewrite Hb, Hget. simpl.
  destruct (overridesModel config); simpl; rewrite Hchain; simpl;
    rewrite ?Hchain; simpl;
    by destruct (invoke chain question (Some (formatHistory history))).
Qed.

Lemma withOverrides_chains config ragConfig (e : QAEngine) :
  qaChain (withOverrides config ragConfig e) = qaChain e
  ∧ conversationalChain (withOverrides config ragConfig e) = conversationalChain e.
Proof. unfold withOverrides. by destruct (overridesModel config). Qed.

(** The first question builds the chain from the configuration merged at
    that moment. *)
Lemma askQuestion_builds_chain startTime endTime question config (sys : Service)
    (ragConfig : RAGConfig) (cfg' : option RAGConfig) :
  blank question = false →
  getConfig (configInstance sys) = (Returns ragConfig, cfg') →
  qaChain (engine sys) = None →
  qaChain (engine (askQuestion startTime endTime question config sys).2)
  = Some (mkRetrievalChain
            (StoreRetriever (qa_topK (mergeQAConfig config ragConfig)))
            (llm (withOverrides config ragConfig (engine sys))) false).
Proof.
  intros Hb Hget Hnone. unfold askQuestion, withOverrides, initializeQAChain.
  unfold_engine. rewrite Hb, Hget. simpl.
  destruct (overridesModel config); simpl; rewrite Hnone; simpl;
    destruct (storeManager sys) as [[vs|] reg]; simpl;
    by destruct (invoke _ question None).
Qed.

(** C9.  Once the chain of [askQuestion] is built, every later call
    leaves it in place, whatever the call's outcome; a call that passes
    the validation of the question invokes that very chain, with the
    retriever's [k] and the language-model client it was built with,
    whatever [topK] the overrides ask for, while a [temperature] or
    [maxTokens] override replaces the engine's [llm] field.  The same
    holds of [askWithHistory] and its chain. *)
Theorem chains_reused startTime endTime (question : string) (history : list Message)
    (config : option QAConfigOverrides) (sys : Service) :
  (∀ chain, qaChain (engine sys) = Some chain →
     let asked := askQuestion startTime endTime question config sys in
     qaChain (engine asked.2) = Some chain
     ∧ (∀ ragConfig cfg',
          blank question = false →
          getConfig (configInstance sys) = (Returns ragConfig, cfg') →
          asked.1 = match invoke chain question None with
                    | Returns result => Returns (respond result startTime endTime)
                    | Throws e => Throws (queryError "Failed to process question: " e)
                    end
          ∧ (overridesModel config = true →
             llm (engine asked.2)
             = mkChatOpenAI (llmModel ragConfig)
                 (default (llmTemperature ragConfig) (config ≫= o_temperature))
                 (default (llmMaxTokens ragConfig) (config ≫= o_maxTokens)))
          ∧ (overridesModel config = false →
             llm (engine asked.2) = llm (engine sys))))
  ∧ (∀ chain, conversationalChain (engine sys) = Some chain →
     let asked := askWithHistory startTime endTime question history config sys in
     conversationalChain (engine asked.2) = Some chain
     ∧ (∀ ragConfig cfg',
          blank question = false →
          getConfig (configInstance sys) = (Returns ragConfig, cfg') →
          asked.1 = match invoke chain question (Some (formatHistory history)) with
                    | Returns result => Returns (respond result startTime endTime)
                    | Throws e =>
                        Throws (queryError
                                  "Failed to process question with history: " e)
                    end
          ∧ (overridesModel config = true →
             llm (engine asked.2)
             = mkChatOpenAI (llmModel ragConfig)
                 (default (llmTemperature ragConfig) (config ≫= o_temperature))
                 (default (llmMaxTokens ragConfig) (config ≫= o_maxTokens)))
          ∧ (overridesModel config = false →
             llm (engine asked.2) = llm (engine sys)))).
Proof.
  split; intros chain Hchain; cbv zeta; (split; [|intros ragConfig cfg' Hb Hget]).
  - destruct (blank question) eqn:Hb.
    { by rewrite askQuestion_rejected. }
    destruct (getConfig (configInstance sys)) as [[ragConfig|e] cfg'] eqn:Hget.
    + rewrite (askQuestion_run _ _ _ _ _ ragConfig cfg' chain) by done. simpl.
      by rewrite (proj1 (withOverrides_chains _ _ _)).
    + by rewrite (askQuestion_unconfigured _ _ _ _ _ e cfg').
  - rewrite (askQuestion_run _ _ _ _ _ ragConfig cfg' chain) by done. simpl.
    split; [done|]. unfold withOverrides. split; by intros ->.
  - destruct (blank question) eqn:Hb.
    { by rewrite askWithHistory_rejected. }
    destruct (getConfig (configInstance sys)) as [[ragConfig|e] cfg'] eqn:Hget.
    + rewrite (askWithHistory_run _ _ _ _ _ _ ragConfig cfg' chain) by done. simpl.
      by rewrite (proj2 (withOverrides_chains _ _ _)).
    + by rewrite (askWithHistory_unconfigured _ _ _ _ _ _ e cfg').
  - rewrite (askWithHistory_run _ _ _ _ _ _ ragConfig cfg' chain) by done. simpl.
    split; [done|]. unfold withOverrides. split; by intros ->.
Qed.

End EngineClaims.

Lemma chains_reused_witness :
  (let asked :=
     askQuestion (env:=emptyEnv) (fmt:=fractionFormat) 
       (runner:=echoRunner) 0%Z 5%Z "What is the capital?" (Some tenChunksWarm)
       readyService in
   qaChain (engine asked.2) = Some builtChain
   ∧ asked.1 = Returns (mkQAResponse "What is the capital?" [] 0 5)
   ∧ llm (engine asked.2) = mkChatOpenAI "gpt-3.5-turbo" 1 500)
  ∧ (let asked :=
       askWithHistory (env:=emptyEnv) (fmt:=fractionFormat) 
         (runner:=echoRunner) 0%Z 5%Z "And of Spain?"
         [mkMessage user "What is the capital?"; mkMessage assistant "Paris."]
         (Some tenChunksWarm) readyService in
     conversationalChain (engine asked.2) = Some builtConversation
     ∧ asked.1 = Returns (mkQAResponse "And of Spain?" [] 0 5)
     ∧ llm (engine asked.2) = mkChatOpenAI "gpt-3.5-turbo" 1 500).
Proof.
  pose proof (@chains_reused emptyEnv fractionFormat echoRunner 0%Z 5%Z
                "What is the capital?" [] (Some tenChunksWarm) readyService)
    as [Hask _].
  pose proof (@chains_reused emptyEnv fractionFormat echoRunner 0%Z 5%Z
                "And of Spain?"
                [mkMessage user "What is the capital?"; mkMessage assistant "Paris."]
                (Some tenChunksWarm) readyService)
    as [_ Hchat].
  split.
  - destruct (Hask builtChain eq_refl) as [Hkept Hrun].
    destruct (Hrun DEFAULT_CONFIG (Some DEFAULT_CONFIG) eq_refl eq_refl)
      as (Hresult & Hllm & _).
    split; [exact Hkept|]. split; [exact Hresult|]. exact (Hllm eq_refl).
  - destruct (Hchat builtConversation eq_refl) as [Hkept Hrun].
    destruct (Hrun DEFAULT_CONFIG (Some DEFAULT_CONFIG) eq_refl eq_refl)
      as (Hresult & Hllm & _).
    split; [exact Hkept|]. split; [exact Hresult|]. exact (Hllm eq_refl).
Defined.

(** The chain of [readyService] is the one a first question builds on a
    fresh service under the default configuration. *)
Example first_question_builds_chain :
  qaChain (engine (askQuestion (env:=emptyEnv) (fmt:=fractionFormat)
                     (runner:=echoRunner) 0%Z 5%Z
                     "What is the capital?" None freshService).2)
  = Some builtChain.
Proof. reflexivity. Qed.

(** ** More about the vector index *)

Section ManagerMore.
Context {backend : VectorBackend} {scoring : ScoringBackend}.

Arguments MemoryVectorStore.similaritySearch : simpl never.
Arguments Init.Nat.of_num_uint : simpl never.

Lemma similaritySearch_run query k (s : VectorStoreManager) :
  similaritySearch query k s =
    (if blank query
     then Throws (mkExn VectorStoreError
            "Failed to perform similarity search: Query cannot be empty")
     else if bool_decide (k < 1)
     then Throws (mkExn VectorStoreError
            "Failed to perform similarity search: k must be at least 1")
     else match MemoryVectorStore.similaritySearch query k (storeDocs s) with
          | Returns found => Returns found
          | Throws e =>
              Throws (mkExn VectorStoreError
                ("Failed to perform similarity search: " +:+ exn_message e))
          end,
     readied s).
Proof.
  unfold similaritySearch. unfold try_catch at 1.
  unfold mbind at 1. unfold M_bind at 1. rewrite ensureStore_run.
  unfold_M. simpl. destruct (blank query); [done|].
  destruct (bool_decide (k < 1)); [done|].
  by destruct (MemoryVectorStore.similaritySearch query k (storeDocs s)).
Qed.

Lemma similaritySearchWithScore_run query k (s : VectorStoreManager) :
  similaritySearchWithScore query k s =
    (if blank query
     then Throws (mkExn VectorStoreError
            "Failed to perform similarity search with scores: Query cannot be empty")
     else if bool_decide (k < 1)
     then Throws (mkExn VectorStoreError
            "Failed to perform similarity search with scores: k must be at least 1")
     else match rankedWithScore query (storeDocs s) with
          | Returns r => Returns (take k r)
          | Throws e =>
              Throws (mkExn VectorStoreError
                ("Failed to perform similarity search with scores: "
                 +:+ exn_message e))
          end,
     readied s).
Proof.
  unfold similaritySearchWithScore. unfold try_catch at 1.
  unfold mbind at 1. unfold M_bind at 1. rewrite ensureStore_run.
  unfold_M. simpl. destruct (blank query); [done|].
  destruct (bool_decide (k < 1)); [done|].
  by destruct (rankedWithScore query (storeDocs s)).
Qed.

(** X1.  Both searches of the manager reject a query that is empty after
    trimming, and a [k] below 1, with a [VectorStoreError] and without
    asking the store; a search that returns gives at most [k] results, the
    first [k] of the store's ranking; and no search changes the registry or
    the chunks of the store. *)
Theorem searches_validate (query : string) (k : nat) (s : VectorStoreManager) :
  (blank query = true →
     (similaritySearch query k s).1
     = Throws (mkExn VectorStoreError
         "Failed to perform similarity search: Query cannot be empty")
     ∧ (similaritySearchWithScore query k s).1
       = Throws (mkExn VectorStoreError
           "Failed to perform similarity search with scores: Query cannot be empty"))
  ∧ (blank query = false → k < 1 →
     (similaritySearch query k s).1
     = Throws (mkExn VectorStoreError
         "Failed to perform similarity search: k must be at least 1")
     ∧ (similaritySearchWithScore query k s).1
       = Throws (mkExn VectorStoreError
           "Failed to perform similarity search with scores: k must be at least 1"))
  ∧ (∀ found, (similaritySearch query k s).1 = Returns found →
       length found ≤ k
       ∧ ∃ r, ranked query (storeDocs s) = Returns r ∧ found = take k r)
  ∧ (∀ found, (similaritySearchWithScore query k s).1 = Returns found →
       length found ≤ k
       ∧ ∃ r, rankedWithScore query (storeDocs s) = Returns r ∧ found = take k r)
  ∧ (similaritySearch query k s).2 = readied s
  ∧ (similaritySearchWithScore query k s).2 = readied s.
Proof.
  rewrite similaritySearch_run, similaritySearchWithScore_run. simpl.
  split; [by intros ->|].
  split.
  { intros -> Hk. by rewrite bool_decide_eq_true_2. }
  split.
  { intros found. destruct (blank query); [done|].
    destruct (bool_decide (k < 1)); [done|].
    unfold MemoryVectorStore.similaritySearch.
    destruct (ranked query (storeDocs s)) as [r|e]; [|done].
    intros [= <-]. split; [rewrite length_take; lia | eauto]. }
  split; [|done].
  intros found. destruct (blank query); [done|].
  destruct (bool_decide (k < 1)); [done|].
  destruct (rankedWithScore query (storeDocs s)) as [r|e]; [|done].
  intros [= <-]. split; [rewrite length_take; lia | eauto].
Qed.

Lemma getDocumentMetadata_run documentId (s : VectorStoreManager) :
  getDocumentMetadata documentId s =
    (if blank documentId
     then Throws (mkExn VectorStoreError
            "Failed to retrieve document metadata: Document ID cannot be empty")
     else if hasDocument documentId s
     then match MemoryVectorStore.similaritySearch "" 10000 (storeDocs s) with
          | Returns allDocs =>
              Returns (filter (λ doc, belongsTo documentId doc = true) allDocs)
          | Throws e =>
              Throws (mkExn VectorStoreError
                ("Failed to retrieve document metadata: " +:+ exn_message e))
          end
     else Returns [],
     readied s).
Proof.
  unfold getDocumentMetadata. unfold try_catch at 1.
  unfold mbind at 1. unfold M_bind at 1. rewrite ensureStore_run.
  unfold_M. simpl. destruct (blank documentId); [done|].
  replace (hasDocument documentId (setVectorStore (Some (storeDocs s)) s))
    with (hasDocument documentId s) by reflexivity.
  destruct (hasDocument documentId s); simpl; [|done].
  rewrite storeDocs_ensured.
  by destruct (MemoryVectorStore.similaritySearch "" 10000 (storeDocs s)).
Qed.

(** X2.  [getDocumentMetadata] of an id that is not empty after trimming
    returns [[]] for a document the registry does not know; for a known one
    it returns only chunks of that document, and, when the store holds at
    most 10000 chunks and the ranking loses none, all of them. *)
Theorem getDocumentMetadata_chunks (documentId : string) (s : VectorStoreManager) :
  blank documentId = false →
  (hasDocument documentId s = false →
     getDocumentMetadata documentId s = (Returns [], readied s))
  ∧ (∀ found s', getDocumentMetadata documentId s = (Returns found, s') →
       Forall (λ doc, md_documentId (metadata doc) = Some documentId) found)
  ∧ (∀ r, hasDocument documentId s = true →
       ranked "" (storeDocs s) = Returns r → r ≡ₚ storeDocs s →
       length (storeDocs s) ≤ 10000 →
       ∃ found, getDocumentMetadata documentId s = (Returns found, readied s)
         ∧ found ≡ₚ filter (λ doc, belongsTo documentId doc = true) (storeDocs s)).
Proof.
  intros Hb. rewrite getDocumentMetadata_run, Hb. split; [by intros ->|]. split.
  - intros found s'. destruct (hasDocument documentId s).
    + destruct (MemoryVectorStore.similaritySearch "" 10000 (storeDocs s))
        as [allDocs|e]; [|done].
      intros [= <- <-]. apply Forall_forall. intros doc Hin.
      apply list_elem_of_filter in Hin as [Hin _]. by apply belongsTo_true.
    + intros [= <- <-]. constructor.
  - intros r -> Hr Hperm Hlen.
    rewrite (full_scan_small_store _ _ Hr Hperm Hlen).
    eexists. split; [done|]. by rewrite Hperm.
Qed.

(** X3.  Every registered id of a manager a program can reach is non-empty
    and has at least one chunk id: [hasDocument] holds exactly of the ids
    whose chunk count is positive. *)
Theorem registered_ids_have_chunks (documentId : string) (s : VectorStoreManager) :
  reachable s →
  (hasDocument documentId s = true ↔ 0 < getDocumentChunkCount documentId s)
  ∧ (hasDocument documentId s = true → documentId ≠ "").
Proof.
  intros Hr. apply reachable_wf in Hr.
  unfold hasDocument, getDocumentChunkCount.
  destruct (documentRegistry s !! documentId) as [ids|] eqn:Hd.
  - destruct (Hr _ _ Hd) as [Hne Hids]. split; [|done].
    rewrite bool_decide_eq_true. split; [|by eauto].
    intros _. destruct ids; [done | simpl; lia].
  - split.
    + rewrite bool_decide_eq_true. split; [by intros [? ?] | lia].
    + rewrite bool_decide_eq_true. by intros [? ?].
Qed.

Lemma sum_over_entries (reg : gmap string (list string))
    (l : list (string * list string)) :
  Forall (λ p, reg !! p.1 = Some p.2) l →
  foldr (uncurry (λ (_ : string) chunks sum, sum + length chunks)) 0 l
  = sum_list ((λ d, countIn reg d) <$> l.*1).
Proof.
  induction 1 as [|[d ids] l Hd _ IH]; [done|].
  simpl in *. rewrite IH.
  replace (countIn reg d) with (length ids) by (unfold countIn; by rewrite Hd).
  apply Nat.add_comm.
Qed.

(** X4.  The statistics agree with the lookups: [documentIds] lists the
    registered ids, each once; [totalDocuments] is its length; and
    [totalChunks] is the sum of [getDocumentChunkCount] over it. *)
Theorem getStoreStats_consistent (s : VectorStoreManager) :
  let stats := getStoreStats s in
  NoDup (documentIds stats)
  ∧ (∀ d, d ∈ documentIds stats ↔ hasDocument d s = true)
  ∧ totalDocuments stats = length (documentIds stats)
  ∧ totalChunks stats
    = sum_list ((λ d, getDocumentChunkCount d s) <$> documentIds stats).
Proof.
  unfold getStoreStats, getStoredDocumentIds. simpl.
  split; [apply NoDup_fst_map_to_list|]. split; [|split].
  - intros d. unfold hasDocument. rewrite bool_decide_eq_true, list_elem_of_fmap.
    split.
    + intros [[d' ids] [-> Hin]]. apply elem_of_map_to_list in Hin. by eexists.
    + intros [ids Hd]. exists (d, ids). split; [done|]. by apply elem_of_map_to_list.
  - by rewrite length_fmap, length_map_to_list.
  - rewrite map_fold_foldr. apply sum_over_entries, Forall_forall.
    intros [d ids] Hin. by apply elem_of_map_to_list.
Qed.

(** X5.  [clearStore] never throws and forgets everything: afterwards the
    statistics are zero, no id is a document, and deleting, reading or
    searching any document finds nothing. *)
Theorem clearStore_forgets (s : VectorStoreManager) (documentId query : string)
    (k : Z) :
  ∃ s', clearStore s = (Returns tt, s')
    ∧ storeDocs s' = []
    ∧ totalDocuments (getStoreStats s') = 0
    ∧ totalChunks (getStoreStats s') = 0
    ∧ documentIds (getStoreStats s') = []
    ∧ hasDocument documentId s' = false
    ∧ (blank documentId = false →
       deleteDocument documentId s' = (Returns false, s')
       ∧ getDocumentMetadata documentId s' = (Returns [], s')
       ∧ (blank query = false →
          searchWithinDocument documentId query k s' = (Returns [], s'))).
Proof.
  exists (mkVSM (Some []) ∅). split; [done|]. split; [done|].
  split; [done|]. split; [done|]. split; [done|]. split; [done|].
  intros Hb. split; [by rewrite deleteDocument_run|].
  split; [by rewrite getDocumentMetadata_run, Hb|].
  intros Hq. by rewrite searchWithinDocument_run, Hb, Hq.
Qed.

(** X6.  [deleteDocument] touches the registry entry of no other document,
    whether it returns or throws; when it returns [true], the number of
    documents has gone down by one. *)
Theorem deleteDocument_frame (documentId other : string) (s : VectorStoreManager) :
  (other ≠ documentId →
     documentRegistry (deleteDocument documentId s).2 !! other
     = documentRegistry s !! other)
  ∧ ((deleteDocument documentId s).1 = Returns true →
     S (totalDocuments (getStoreStats (deleteDocument documentId s).2))
     = totalDocuments (getStoreStats s)).
Proof.
  split.
  - intros Hne. destruct (deleteDocument_registry documentId s) as [-> | ->]; [done|].
    by rewrite lookup_delete_ne.
  - destruct (blank documentId) eqn:Hb.
    { by rewrite deleteDocument_blank. }
    rewrite deleteDocument_run by done.
    destruct (documentRegistry s !! documentId) as [[|c cs]|] eqn:Hreg; [done| |done].
    assert (Hsize : S (size (delete documentId (documentRegistry s)))
                    = size (documentRegistry s)).
    { rewrite map_size_delete, Hreg. simpl.
      assert (size (documentRegistry s) ≠ 0); [|lia].
      apply map_size_non_empty_iff. intros Hempty.
      by rewrite Hempty, lookup_empty in Hreg. }
    destruct (MemoryVectorStore.similaritySearch "" 10000 (storeDocs s)); [|done].
    simpl. destruct (bool_decide (0 < length _)); [|done].
    by destruct (embedDocuments _).
Qed.

(** X7.  In a store of at most 10000 chunks whose ranking loses none,
    [deleteDocument] of a registered document removes exactly the chunks of
    that document: the store afterwards holds the other chunks, each as
    often as before. *)
Theorem deleteDocument_exact (documentId : string) (r : list Document)
    (s : VectorStoreManager) :
  blank documentId = false →
  0 < getDocumentChunkCount documentId s →
  ranked "" (storeDocs s) = Returns r → r ≡ₚ storeDocs s →
  length (storeDocs s) ≤ 10000 →
  embedDocuments
    (pageContent <$>
       filter (λ doc, md_documentId (metadata doc) ≠ Some documentId) r)
  = Returns tt →
  ∃ s', deleteDocument documentId s = (Returns true, s')
    ∧ storeDocs s'
      ≡ₚ filter (λ doc, md_documentId (metadata doc) ≠ Some documentId) (storeDocs s)
    ∧ documentRegistry s' = delete documentId (documentRegistry s).
Proof.
  intros Hb Hcount Hr Hperm Hlen Hembed.
  rewrite deleteDocument_run by done. unfold getDocumentChunkCount in Hcount.
  destruct (documentRegistry s !! documentId) as [[|c cs]|];
    [simpl in Hcount; lia| |lia].
  rewrite (full_scan_small_store _ _ Hr Hperm Hlen). simpl.
  destruct (bool_decide (0 < length _)) eqn:Hrem.
  - rewrite Hembed. eexists. split; [done|]. split; [|done].
    unfold storeDocs at 1. simpl. by rewrite Hperm.
  - eexists. split; [done|]. split; [|done].
    unfold storeDocs at 1. simpl.
    apply bool_decide_eq_false in Hrem. rewrite <-Hperm.
    destruct (filter _ r); [done | simpl in Hrem; lia].
Qed.

(** X8.  Deleting is idempotent: after [deleteDocument] has returned
    [true], deleting the same document again returns [false] and changes
    nothing. *)
Theorem deleteDocument_twice (documentId : string) (s s' : VectorStoreManager) :
  deleteDocument documentId s = (Returns true, s') →
  deleteDocument documentId s' = (Returns false, s').
Proof.
  destruct (blank documentId) eqn:Hb.
  { by rewrite deleteDocument_blank. }
  rewrite !deleteDocument_run by done.
  destruct (documentRegistry s !! documentId) as [[|c cs]|]; [done| |done].
  destruct (MemoryVectorStore.similaritySearch "" 10000 (storeDocs s)); [|done].
  simpl. destruct (bool_decide (0 < length _)).
  - destruct (embedDocuments _); [|done].
    intros [= <-]. simpl. by rewrite lookup_delete_eq.
  - intros [= <-]. simpl. by rewrite lookup_delete_eq.
Qed.

(** X9.  A batch the embedding service refuses is not added: [addDocuments]
    throws a [VectorStoreError] carrying the service's message, and the
    registry and the chunks of the store are as before. *)
Theorem addDocuments_refused (now : nat → Z) (documents : list Document)
    (e : Exn) (s : VectorStoreManager) :
  documents ≠ [] →
  embedDocuments (pageContent <$> documents) = Throws e →
  ∃ s', addDocuments now documents s
        = (Throws (mkExn VectorStoreError
             ("Failed to add documents to vector store: " +:+ exn_message e)), s')
    ∧ documentRegistry s' = documentRegistry s
    ∧ storeDocs s' = storeDocs s
    ∧ getStoreStats s' = getStoreStats s.
Proof.
  intros Hne Hembed. rewrite addDocuments_run, Hembed.
  rewrite bool_decide_eq_false_2 by (by destruct documents).
  eexists. split; [done|]. done.
Qed.

(** X10.  [deleteDocument] is not atomic: when the scan has answered and the
    re-embedding of the remaining chunks fails, it throws, the store is left
    empty, and the registry still has every document, the one to delete
    included. *)
Theorem deleteDocument_failed_rebuild (documentId : string) (allDocs : list Document)
    (e : Exn) (s : VectorStoreManager) :
  blank documentId = false →
  0 < getDocumentChunkCount documentId s →
  MemoryVectorStore.similaritySearch "" 10000 (storeDocs s) = Returns allDocs →
  filter (λ doc, md_documentId (metadata doc) ≠ Some documentId) allDocs ≠ [] →
  embedDocuments
    (pageContent <$>
       filter (λ doc, md_documentId (metadata doc) ≠ Some documentId) allDocs)
  = Throws e →
  ∃ s', deleteDocument documentId s
        = (Throws (mkExn VectorStoreError
             ("Failed to delete document: " +:+ exn_message e)), s')
    ∧ storeDocs s' = []
    ∧ documentRegistry s' = documentRegistry s
    ∧ hasDocument documentId s' = true.
Proof.
  intros Hb Hcount Hscan Hrem Hembed.
  rewrite deleteDocument_run by done. unfold getDocumentChunkCount in Hcount.
  destruct (documentRegistry s !! documentId) as [[|c cs]|] eqn:Hreg;
    [simpl in Hcount; lia| |lia].
  rewrite Hscan. simpl. rewrite Hembed.
  rewrite bool_decide_eq_true_2.
  2: { destruct (filter _ allDocs); [done | simpl; lia]. }
  eexists. split; [done|]. split; [done|]. split; [done|].
  unfold hasDocument. simpl. rewrite Hreg. apply bool_decide_eq_true_2. by eexists.
Qed.

End ManagerMore.

Lemma searches_validate_witness :
  ((similaritySearch (backend:=tieBackend) "  " 3 twoDocuments).1
   = Throws (mkExn VectorStoreError
       "Failed to perform similarity search: Query cannot be empty")
   ∧ (similaritySearchWithScore (scoring:=tieScoring) "  " 3 twoDocuments).1
     = Throws (mkExn VectorStoreError
         "Failed to perform similarity search with scores: Query cannot be empty"))
  ∧ ((similaritySearch (backend:=tieBackend) "alpha" 0 twoDocuments).1
     = Throws (mkExn VectorStoreError
         "Failed to perform similarity search: k must be at least 1")
     ∧ (similaritySearchWithScore (scoring:=tieScoring) "alpha" 0 twoDocuments).1
       = Throws (mkExn VectorStoreError
           "Failed to perform similarity search with scores: k must be at least 1"))
  ∧ (length [chunkOf "a" 0 "alpha"; chunkOf "b" 0 "beta"] ≤ 2
     ∧ ∃ r, ranked (VectorBackend:=tieBackend) "alpha" (storeDocs twoDocuments)
            = Returns r
         ∧ [chunkOf "a" 0 "alpha"; chunkOf "b" 0 "beta"] = take 2 r).
Proof.
  split; [|split].
  - apply (proj1 (@searches_validate tieBackend tieScoring "  " 3 twoDocuments)).
    reflexivity.
  - apply (proj1 (proj2 (@searches_validate tieBackend tieScoring "alpha" 0
                           twoDocuments))).
    + reflexivity.
    + lia.
  - apply (proj1 (proj2 (proj2 (@searches_validate tieBackend tieScoring "alpha" 2
                                  twoDocuments)))).
    reflexivity.
Defined.

Lemma getDocumentMetadata_chunks_witness :
  ∃ found,
    getDocumentMetadata (backend:=tieBackend) "a" twoDocuments
    = (Returns found, readied twoDocuments)
    ∧ found ≡ₚ filter (λ doc, belongsTo "a" doc = true) (storeDocs twoDocuments).
Proof.
  apply (proj2 (proj2 (@getDocumentMetadata_chunks tieBackend "a" twoDocuments
                         eq_refl))
           (storeDocs twoDocuments)).
  - vm_compute. reflexivity.
  - reflexivity.
  - reflexivity.
  - vm_compute. lia.
Defined.

Lemma registered_ids_have_chunks_witness :
  0 < getDocumentChunkCount "a"
        (stateAfter (backend:=tieBackend)
           (OpAddDocuments fixedClock [chunkOf "a" 0 "alpha"]) newVectorStoreManager).
Proof.
  apply (proj1 (@registered_ids_have_chunks tieBackend "a" _
                  (reachable_step (OpAddDocuments fixedClock [chunkOf "a" 0 "alpha"])
                     _ reachable_new))).
  vm_compute. reflexivity.
Defined.

Lemma clearStore_forgets_witness :
  ∃ s', clearStore twoDocuments = (Returns tt, s')
    ∧ hasDocument "a" s' = false
    ∧ deleteDocument (backend:=tieBackend) "a" s' = (Returns false, s')
    ∧ getDocumentMetadata (backend:=tieBackend) "a" s' = (Returns [], s')
    ∧ searchWithinDocument (backend:=tieBackend) "a" "alpha" 2 s' = (Returns [], s').
Proof.
  destruct (@clearStore_forgets tieBackend twoDocuments "a" "alpha" 2)
    as (s' & Hrun & _ & _ & _ & _ & Hhas & Hafter).
  destruct (Hafter eq_refl) as (Hdelete & Hread & Hsearch).
  exists s'. split; [exact Hrun|]. split; [exact Hhas|]. split; [exact Hdelete|].
  split; [exact Hread | exact (Hsearch eq_refl)].
Defined.

Lemma deleteDocument_frame_witness :
  documentRegistry (deleteDocument (backend:=tieBackend) "a" twoDocuments).2 !! "b"
  = Some ["b_chunk_1_1700000000000"]
  ∧ S (totalDocuments
         (getStoreStats (deleteDocument (backend:=tieBackend) "a" twoDocuments).2))
    = 2.
Proof.
  destruct (@deleteDocument_frame tieBackend "a" "b" twoDocuments) as [Hother Hcount].
  split.
  - rewrite Hother by discriminate. vm_compute. reflexivity.
  - rewrite Hcount by (vm_compute; reflexivity). vm_compute. reflexivity.
Defined.

Lemma deleteDocument_exact_witness :
  ∃ s', deleteDocument (backend:=tieBackend) "a" twoDocuments = (Returns true, s')
    ∧ storeDocs s' ≡ₚ [chunkOf "b" 0 "beta"]
    ∧ documentRegistry s' = delete "a" (documentRegistry twoDocuments).
Proof.
  apply (@deleteDocument_exact tieBackend "a" (storeDocs twoDocuments) twoDocuments).
  - reflexivity.
  - vm_compute. lia.
  - reflexivity.
  - reflexivity.
  - vm_compute. lia.
  - reflexivity.
Defined.

Lemma deleteDocument_twice_witness :
  deleteDocument (backend:=tieBackend) "a"
    (deleteDocument (backend:=tieBackend) "a" twoDocuments).2
  = (Returns false, (deleteDocument (backend:=tieBackend) "a" twoDocuments).2).
Proof.
  apply (@deleteDocument_twice tieBackend "a" twoDocuments).
  vm_compute. reflexivity.
Defined.

Lemma addDocuments_refused_witness :
  ∃ s', addDocuments (backend:=downBackend) fixedClock [chunkOf "a" 2 "delta"]
          twoDocuments
        = (Throws (mkExn VectorStoreError
             "Failed to add documents to vector store: Connection error."), s')
    ∧ documentRegistry s' = documentRegistry twoDocuments
    ∧ storeDocs s' = storeDocs twoDocuments
    ∧ getStoreStats s' = getStoreStats twoDocuments.
Proof.
  apply (@addDocuments_refused downBackend fixedClock [chunkOf "a" 2 "delta"]
           (mkExn PlainError "Connection error.") twoDocuments).
  - discriminate.
  - reflexivity.
Defined.

Lemma deleteDocument_failed_rebuild_witness :
  ∃ s', deleteDocument (backend:=scanOnlyBackend) "a" twoDocuments
        = (Throws (mkExn VectorStoreError
             "Failed to delete document: Connection error."), s')
    ∧ storeDocs s' = []
    ∧ documentRegistry s' = documentRegistry twoDocuments
    ∧ hasDocument "a" s' = true.
Proof.
  apply (@deleteDocument_failed_rebuild scanOnlyBackend "a" (storeDocs twoDocuments)
           (mkExn PlainError "Connection error.") twoDocuments).
  - reflexivity.
  - vm_compute. lia.
  - reflexivity.
  - vm_compute. discriminate.
  - reflexivity.
Defined.

Lemma getStoreStats_consistent_witness :
  "a" ∈ documentIds (getStoreStats twoDocuments)
  ∧ totalChunks (getStoreStats twoDocuments)
    = sum_list ((λ d, getDocumentChunkCount d twoDocuments)
                  <$> documentIds (getStoreStats twoDocuments)).
Proof.
  destruct (getStoreStats_consistent twoDocuments) as (_ & Hids & _ & Hsum).
  split; [|exact Hsum]. apply Hids. vm_compute. reflexivity.
Defined.

(** ** More about the chunker, the loaders and the ingestion service *)

Lemma keepProcessingError_class {A} (prefix : string) (o : outcome A) (e : Exn) :
  keepProcessingError prefix o = Throws e → exn_class e = DocumentProcessingError.
Proof.
  unfold keepProcessingError. destruct o as [a|e']; [done|].
  destruct (bool_decide (exn_class e' = DocumentProcessingError)) eqn:Hc.
  - apply bool_decide_eq_true in Hc. by intros [= <-].
  - by intros [= <-].
Qed.

Lemma Qeq_bool_false (a b : Q) : Qeq_bool a b = false ↔ ¬ (a == b)%Q.
Proof. rewrite <-not_true_iff_false, Qeq_bool_iff. done. Qed.

Section ChunkerMore.
Context {splitter : TextSplitter} {fmt : NumberFormat}.

(** X11.  In whatever [splitText] returns, the chunk at position [i] has
    [chunkIndex] [i], and every chunk has the number of chunks returned as
    its [totalChunks]: the indices are [0 .. n-1]. *)
Theorem splitText_positions (text : string) (config : RAGConfig) (extra : Metadata)
    (chunks : list Document) :
  splitText text config extra = Returns chunks →
  ∀ i chunk, chunks !! i = Some chunk →
    md_chunkIndex (metadata chunk) = Some i
    ∧ md_totalChunks (metadata chunk) = Some (length chunks).
Proof.
  unfold splitText. destruct (blank text); [done|]. cbv zeta.
  destruct (Qle_bool (lengthOf (trim text)) (chunkSize config)).
  - simpl. intros [= <-] [|i] chunk; [|done]. by intros [= <-].
  - destruct (createDocuments _ _ _ _) as [documents|e]; simpl.
    + intros [= <-] i chunk. rewrite list_lookup_imap, length_imap.
      destruct (documents !! i); [|done]. by intros [= <-].
    + by destruct (bool_decide _).
Qed.

Lemma validateSplittingConfig_cases (config : RAGConfig) :
  (validateSplittingConfig config = Returns tt
   ↔ (0 < chunkSize config ∧ 0 <= chunkOverlap config
      ∧ chunkOverlap config < chunkSize config)%Q)
  ∧ (∀ e, validateSplittingConfig config = Throws e →
       exn_class e = DocumentProcessingError).
Proof.
  unfold validateSplittingConfig.
  destruct (Qle_bool (chunkSize config) 0) eqn:Hsize.
  { apply Qle_bool_iff in Hsize. split; [|by intros e [= <-]].
    split; [done|]. intros (? & _). lra. }
  apply not_true_iff_false in Hsize. rewrite Qle_bool_iff in Hsize.
  destruct (Qltb (chunkOverlap config) 0) eqn:Hneg.
  { apply Qltb_lt in Hneg. split; [|by intros e [= <-]].
    split; [done|]. intros (_ & ? & _). lra. }
  apply Qltb_ge in Hneg.
  destruct (Qgeb (chunkOverlap config) (chunkSize config)) eqn:Hover.
  { apply Qle_bool_iff in Hover. split; [|by intros e [= <-]].
    split; [done|]. intros (_ & _ & ?). lra. }
  apply Qgeb_lt in Hover. split; [|done]. split; [|done].
  intros _. split; [lra|]. done.
Qed.

(** On a configuration of finite numbers [JS.validateSplittingConfig] is
    [validateSplittingConfig]. *)
Lemma validateSplittingConfig_finite (config : RAGConfig) :
  JS.validateSplittingConfig (JS.ofFinite config) = validateSplittingConfig config.
Proof. by destruct config. Qed.

(** X12.  On a chunk size and an overlap that are numbers other than NaN,
    [validateSplittingConfig] accepts exactly the configurations with
    [chunkSize > 0] and [0 <= chunkOverlap < chunkSize]; for finite numbers
    these are the inequalities of the rationals.  Whatever it rejects, it
    rejects with a [DocumentProcessingError].  A chunk size that is NaN or
    [undefined] fails no comparison: it is accepted unless the overlap is
    negative. *)
Theorem validateSplittingConfig_accepts (config : JS.Config) :
  (JS.toNumber (JS.chunkSize config) ≠ NotANumber →
   JS.toNumber (JS.chunkOverlap config) ≠ NotANumber →
   (JS.validateSplittingConfig config = Returns tt
    ↔ JS.gt (JS.chunkSize config) (JS.num 0) = true
      ∧ JS.ge (JS.chunkOverlap config) (JS.num 0) = true
      ∧ JS.lt (JS.chunkOverlap config) (JS.chunkSize config) = true))
  ∧ (∀ size overlap : Q,
       JS.chunkSize config = JS.num size →
       JS.chunkOverlap config = JS.num overlap →
       (JS.validateSplittingConfig config = Returns tt
        ↔ (0 < size ∧ 0 <= overlap ∧ overlap < size)%Q))
  ∧ (∀ e, JS.validateSplittingConfig config = Throws e →
       exn_class e = DocumentProcessingError)
  ∧ (JS.toNumber (JS.chunkSize config) = NotANumber →
     (JS.validateSplittingConfig config = Returns tt
      ↔ JS.lt (JS.chunkOverlap config) (JS.num 0) = false)).
Proof.
  destruct config as [size overlap em vst vsp lm temp tokens k th].
  unfold JS.validateSplittingConfig, JS.gt, JS.ge, JS.lt, JS.le.
  cbn [JS.chunkSize JS.chunkOverlap].
  split; [|split; [|split]].
  - intros Hsize Hoverlap.
    destruct size as [|[s| | |]], overlap as [|[o| | |]]; try done; cbn;
      unfold Qltb;
      repeat match goal with
             | |- context [Qle_bool ?a ?b] => destruct (Qle_bool a b)
             end; cbn; intuition discriminate.
  - intros s o -> ->. cbn.
    pose proof (validateSplittingConfig_cases
                  (mkRAGConfig s o "" memory None "" 0 0 0 0)) as [Hiff _].
    unfold validateSplittingConfig in Hiff. cbn in Hiff. unfold Qgeb in Hiff.
    rewrite <-Hiff.
    destruct (Qle_bool s 0); [done|]. destruct (Qltb o 0); [done|].
    by destruct (Qle_bool s o).
  - intros e.
    destruct (JS.leb _ _); [by intros [= <-]|].
    destruct (JS.ltb _ _); [by intros [= <-]|].
    destruct (JS.leb _ _); [by intros [= <-]|]. done.
  - intros Hsize. rewrite Hsize.
    assert (Hleft : ∀ n, JS.leb NotANumber n = false) by (by intros []).
    rewrite !Hleft.
    destruct (JS.ltb _ _); [|done]. split; discriminate.
Qed.

End ChunkerMore.

Section LoadersMore.
Context {fs : FileSystem} {fmt : NumberFormat}.

Lemma detectDocumentType_class filename (e : Exn) :
  detectDocumentType filename = Throws e → exn_class e = DocumentProcessingError.
Proof.
  unfold detectDocumentType. repeat (destruct (bool_decide _); [done|]).
  by intros [= <-].
Qed.

Lemma loadDocument_class filePath (e : Exn) :
  loadDocument filePath = Throws e → exn_class e = DocumentProcessingError.
Proof.
  unfold loadDocument. destruct (fs_access filePath); [|by intros [= <-]].
  destruct (detectDocumentType (path_basename filePath)) as [[]|e'] eqn:Htype; simpl.
  - apply keepProcessingError_class.
  - apply keepProcessingError_class.
  - apply keepProcessingError_class.
  - intros [= <-]. by apply detectDocumentType_class in Htype.
Qed.

(** A document that loads has content that is not empty after trimming,
    the name and size the file system gives, and the type its extension
    names. *)
Lemma loadDocument_loaded filePath (loadedDoc : LoadedDocument) :
  loadDocument filePath = Returns loadedDoc →
  blank (ld_content loadedDoc) = false
  ∧ ld_filename loadedDoc = path_basename filePath
  ∧ fs_stat_size filePath = Returns (ld_fileSize loadedDoc)
  ∧ ∃ documentType,
      detectDocumentType (path_basename filePath) = Returns documentType
      ∧ ld_fileType loadedDoc = documentTypeName documentType
      ∧ (documentType ≠ PDF → ld_pageCount loadedDoc = None).
Proof.
  unfold loadDocument. destruct (fs_access filePath); [|done].
  destruct (detectDocumentType (path_basename filePath)) as [[]|e'] eqn:Htype;
    simpl; [| | |done].
  - unfold loadPDF. destruct (fs_readFile filePath) as [buffer|e]; simpl.
    2: { by destruct (bool_decide _). }
    destruct (pdfParse buffer) as [[text pages]|e]; simpl.
    2: { by destruct (bool_decide _). }
    destruct (blank text) eqn:Hb; [done|].
    destruct (fs_stat_size filePath) as [size|e]; simpl.
    2: { by destruct (bool_decide _). }
    intros [= <-]. simpl. repeat split; [done..|]. exists PDF. done.
  - unfold loadTXT. destruct (fs_readFile filePath) as [text|e]; simpl.
    2: { by destruct (bool_decide _). }
    destruct (blank text) eqn:Hb; [done|].
    destruct (fs_stat_size filePath) as [size|e]; simpl.
    2: { by destruct (bool_decide _). }
    intros [= <-]. simpl. repeat split; [done..|]. exists TXT. done.
  - unfold loadDOCX. destruct (mammoth_extractRawText filePath) as [text|e]; simpl.
    2: { by destruct (bool_decide _). }
    destruct (blank text) eqn:Hb; [done|].
    destruct (fs_stat_size filePath) as [size|e]; simpl.
    2: { by destruct (bool_decide _). }
    intros [= <-]. simpl. repeat split; [done..|]. exists DOCX. done.
Qed.

(** X14.  A file [validateFile] accepts exists, is not empty, is no larger
    than the limit (10485760 bytes when none is given) and has a supported
    extension. *)
Theorem validateFile_accepts (filePath : string) (maxSizeBytes : option Q) :
  validateFile filePath maxSizeBytes = Returns tt →
  ∃ size documentType,
    fs_stat_size filePath = Returns size
    ∧ ¬ (size == 0)%Q
    ∧ (size <= default 10485760 maxSizeBytes)%Q
    ∧ detectDocumentType (path_basename filePath) = Returns documentType.
Proof.
  unfold validateFile. cbv zeta.
  destruct (fs_stat_size filePath) as [size|e]; simpl.
  2: { by destruct (bool_decide _). }
  destruct (Qeq_bool size 0) eqn:Hzero; [done|].
  destruct (Qltb (default 10485760%Q maxSizeBytes) size) eqn:Hbig; [done|].
  destruct (detectDocumentType (path_basename filePath)) as [documentType|e] eqn:Ht;
    simpl.
  2: { by destruct (bool_decide _). }
  intros _. exists size, documentType. split; [done|].
  split; [by apply Qeq_bool_false|]. split; [by apply Qltb_ge | done].
Qed.

(** X15.  A document [loadDocument] returns has content that is not empty
    after trimming; its [filename] and [fileSize] are the file system's, and
    its [fileType] names the type its extension selects; only a PDF has a
    page count. *)
Theorem loadDocument_returns (filePath : string) (loadedDoc : LoadedDocument) :
  loadDocument filePath = Returns loadedDoc →
  trim (ld_content loadedDoc) ≠ ""
  ∧ ld_filename loadedDoc = path_basename filePath
  ∧ fs_stat_size filePath = Returns (ld_fileSize loadedDoc)
  ∧ ∃ documentType,
      detectDocumentType (path_basename filePath) = Returns documentType
      ∧ ld_fileType loadedDoc = documentTypeName documentType
      ∧ (documentType ≠ PDF → ld_pageCount loadedDoc = None).
Proof.
  intros Hload. destruct (loadDocument_loaded _ _ Hload) as (Hb & Hrest).
  split; [by apply blank_false_iff | exact Hrest].
Qed.

End LoadersMore.

Section PipelineErrors.
Context {fs : FileSystem} {splitter : TextSplitter} {fmt : NumberFormat}.

Lemma splitText_class text config extra (e : Exn) :
  splitText text config extra = Throws e → exn_class e = DocumentProcessingError.
Proof. apply keepProcessingError_class. Qed.

Lemma validateFile_class filePath maxSizeBytes (e : Exn) :
  validateFile filePath maxSizeBytes = Throws e →
  exn_class e = DocumentProcessingError.
Proof. apply keepProcessingError_class. Qed.

(** X16.  Whatever the file system, the parsers and the text splitter do,
    every error that leaves [detectDocumentType], [validateFile],
    [loadDocument] or [splitText] is a [DocumentProcessingError]; a failure
    of the splitter library arrives as ["Failed to split text: ..."], and a
    text that is empty after trimming as ["Cannot split empty document"]. *)
Theorem loading_throws_processing_errors (e : Exn) :
  (∀ filename, detectDocumentType filename = Throws e →
     exn_class e = DocumentProcessingError)
  ∧ (∀ filePath maxSizeBytes, validateFile filePath maxSizeBytes = Throws e →
       exn_class e = DocumentProcessingError)
  ∧ (∀ filePath, loadDocument filePath = Throws e →
       exn_class e = DocumentProcessingError)
  ∧ (∀ text config extra, splitText text config extra = Throws e →
       exn_class e = DocumentProcessingError)
  ∧ (∀ text config extra, trim text = "" →
       splitText text config extra
       = Throws (mkExn DocumentProcessingError "Cannot split empty document"))
  ∧ (∀ text config extra failure,
       trim text ≠ "" →
       (chunkSize config < lengthOf (trim text))%Q →
       createDocuments (chunkSize config) (chunkOverlap config) (trim text) extra
       = Throws failure →
       exn_class failure ≠ DocumentProcessingError →
       splitText text config extra
       = Throws (mkExn DocumentProcessingError
           ("Failed to split text: " +:+ exn_message failure))).
Proof.
  split; [intros ?; apply detectDocumentType_class|].
  split; [intros ? ?; apply validateFile_class|].
  split; [intros ?; apply loadDocument_class|].
  split; [intros ? ? ?; apply splitText_class|].
  split.
  - intros text config extra Hempty. unfold splitText.
    assert (blank text = true) as ->; [|done].
    unfold blank. rewrite (bool_decide_eq_true_2 (trim text = "")) by done.
    apply orb_true_r.
  - intros text config extra failure Htrim Hlong Hfail Hclass. unfold splitText.
    apply blank_false_iff in Htrim. rewrite Htrim. cbv zeta.
    apply Qlt_not_le in Hlong. rewrite <-Qle_bool_iff in Hlong.
    apply not_true_iff_false in Hlong. rewrite Hlong, Hfail. simpl.
    by rewrite bool_decide_eq_false_2.
Qed.

End PipelineErrors.

Section IngestionMore.
Context {fs : FileSystem} {splitter : TextSplitter} {fmt : NumberFormat}.

(** What [ingestDocument] returns and the table it leaves, in full. *)
Lemma ingestDocument_run (uuid : string) (today : Z) (filePath : string)
    (config : RAGConfig) (maxFileSize : option Q) (states : IngestionStates) :
  ingestDocument uuid today filePath config maxFileSize states
  = (Returns (ingestResult uuid (prepared uuid filePath config maxFileSize)),
     <[uuid := ingestedState uuid today (prepared uuid filePath config maxFileSize)]>
       states).
Proof.
  unfold ingestDocument, prepared, updateProgress. unfold_M. simpl.
  destruct (validateFile filePath maxFileSize) as [[]|e]; simpl.
  2: { by rewrite !alter_insert_eq. }
  destruct (validateSplittingConfig config) as [[]|e]; simpl.
  2: { by rewrite !alter_insert_eq. }
  destruct (loadDocument filePath) as [loadedDoc|e]; simpl.
  2: { by rewrite !alter_insert_eq. }
  destruct (splitText _ _ _) as [chunks|e]; simpl.
  2: { by rewrite !alter_insert_eq. }
  by rewrite !alter_insert_eq.
Qed.

Lemma getAllDocuments_insert (uuid : string) (state : IngestionState)
    (states : IngestionStates) :
  Ingestion.getAllDocuments (<[uuid := state]> states)
  ≡ₚ match Ingestion.listed state with
     | Some metadata => metadata :: Ingestion.getAllDocuments (delete uuid states)
     | None => Ingestion.getAllDocuments (delete uuid states)
     end.
Proof.
  unfold Ingestion.getAllDocuments. rewrite <-insert_delete_eq.
  rewrite map_to_list_insert by apply lookup_delete_eq. simpl.
  by destruct (Ingestion.listed state).
Qed.

(** X17.  [ingestDocument] records one state, the new document's: the
    state of every other document is as before, and the number of tracked
    documents grows by one, or stays when the id was tracked already. *)
Theorem ingestDocument_frame (uuid other : string) (today : Z) (filePath : string)
    (config : RAGConfig) (maxFileSize : option Q) (states : IngestionStates) :
  let states' := (ingestDocument uuid today filePath config maxFileSize states).2 in
  (other ≠ uuid → states' !! other = states !! other)
  ∧ (states !! uuid = None →
     Ingestion.getDocumentCount states' = S (Ingestion.getDocumentCount states))
  ∧ (is_Some (states !! uuid) →
     Ingestion.getDocumentCount states' = Ingestion.getDocumentCount states).
Proof.
  rewrite ingestDocument_run. simpl. unfold Ingestion.getDocumentCount.
  split; [by intros ?; rewrite lookup_insert_ne|].
  split; [by apply map_size_insert_None | by apply map_size_insert_Some].
Qed.

(** X18.  Ingesting a document under a fresh id and removing it again
    gives back the table as it was: [removeDocument] returns [true], and
    asking for the status of the id throws a [DocumentProcessingError]. *)
Theorem ingest_then_remove (uuid : string) (today : Z) (filePath : string)
    (config : RAGConfig) (maxFileSize : option Q) (states : IngestionStates) :
  states !! uuid = None →
  let states' := (ingestDocument uuid today filePath config maxFileSize states).2 in
  removeDocument uuid states' = (Returns true, states)
  ∧ getIngestionStatus uuid states
    = (Throws (mkExn DocumentProcessingError
         ("No ingestion record found for document ID: " +:+ uuid)), states).
Proof.
  intros Hfresh. rewrite ingestDocument_run. simpl. split.
  - unfold removeDocument. unfold_M. simpl.
    rewrite lookup_insert_eq, delete_insert_id by done.
    rewrite bool_decide_eq_true_2 by eauto. done.
  - unfold getIngestionStatus. unfold_M. simpl. by rewrite Hfresh.
Qed.

(** X19.  After [ingestDocument], a document whose steps all returned is
    listed by [getAllDocuments], with the metadata [getDocumentMetadata]
    gives and the chunk count of the result, and its chunks can be read;
    a document that failed is not listed and has neither metadata nor
    chunks.  The other documents are listed as before. *)
Theorem ingested_documents_listed (uuid : string) (today : Z) (filePath : string)
    (config : RAGConfig) (maxFileSize : option Q) (states : IngestionStates) :
  let ingested := ingestDocument uuid today filePath config maxFileSize states in
  match prepared uuid filePath config maxFileSize with
  | Returns (loadedDoc, chunks) =>
      let metadata := ingestedMetadata uuid today loadedDoc chunks in
      Ingestion.getDocumentMetadata uuid ingested.2 = Some metadata
      ∧ Returns (mkIngestResult true uuid (dm_chunkCount metadata) None) = ingested.1
      ∧ getDocumentChunks uuid ingested.2 = Some chunks
      ∧ Ingestion.getAllDocuments ingested.2
        ≡ₚ metadata :: Ingestion.getAllDocuments (delete uuid states)
  | Throws e =>
      Ingestion.getDocumentMetadata uuid ingested.2 = None
      ∧ getDocumentChunks uuid ingested.2 = None
      ∧ Ingestion.getAllDocuments ingested.2
        ≡ₚ Ingestion.getAllDocuments (delete uuid states)
  end.
Proof.
  cbv zeta. rewrite ingestDocument_run. simpl.
  unfold Ingestion.getDocumentMetadata, getDocumentChunks.
  destruct (prepared uuid filePath config maxFileSize) as [[loadedDoc chunks]|e];
    rewrite lookup_insert_eq, getAllDocuments_insert; done.
Qed.

(** After [ingestDocument], the status of the document is
    [completed] at progress 100 or [failed] at progress 0, never
    [processing]; the status of an id that is not tracked cannot be read:
    [getIngestionStatus] throws a [DocumentProcessingError]. *)
Theorem getIngestionStatus_reports (uuid unknown : string) (today : Z)
    (filePath : string) (config : RAGConfig) (maxFileSize : option Q)
    (states : IngestionStates) :
  let ingested := ingestDocument uuid today filePath config maxFileSize states in
  (getIngestionStatus uuid ingested.2).1
  = Returns (if success (ingestResult uuid (prepared uuid filePath config maxFileSize))
             then mkIngestionStatus uuid completed 100
             else mkIngestionStatus uuid failed 0)
  ∧ Returns (ingestResult uuid (prepared uuid filePath config maxFileSize))
    = ingested.1
  ∧ (states !! unknown = None →
     (getIngestionStatus unknown states).1
     = Throws (mkExn DocumentProcessingError
         ("No ingestion record found for document ID: " +:+ unknown))).
Proof.
  rewrite ingestDocument_run. simpl. split; [|split; [done|]].
  - unfold getIngestionStatus. unfold_M. simpl. rewrite lookup_insert_eq.
    by destruct (prepared uuid filePath config maxFileSize) as [[loadedDoc chunks]|e].
  - intros Hnone. unfold getIngestionStatus. unfold_M. simpl. by rewrite Hnone.
Qed.

(** X20.  A file that passes the validations and loads with a text of at
    most [chunkSize] characters after trimming is ingested as one chunk:
    the result is a success with [chunkCount] 1, and the chunk kept for the
    document is the trimmed text, tagged with the document's id, name, type
    and size, at index 0 of 1. *)
Theorem ingest_short_document (uuid : string) (today : Z) (filePath : string)
    (config : RAGConfig) (maxFileSize : option Q) (loadedDoc : LoadedDocument)
    (states : IngestionStates) :
  validateFile filePath maxFileSize = Returns tt →
  validateSplittingConfig config = Returns tt →
  loadDocument filePath = Returns loadedDoc →
  (lengthOf (trim (ld_content loadedDoc)) <= chunkSize config)%Q →
  let ingested := ingestDocument uuid today filePath config maxFileSize states in
  ingested.1 = Returns (mkIngestResult true uuid 1 None)
  ∧ getDocumentChunks uuid ingested.2
    = Some [mkDocument (trim (ld_content loadedDoc))
              (mkMetadata (Some uuid) (Some (ld_filename loadedDoc))
                 (Some (ld_fileType loadedDoc)) (Some (ld_fileSize loadedDoc))
                 (ld_pageCount loadedDoc) (Some 0) (Some 1) None)].
Proof.
  intros Hfile Hconfig Hload Hshort. rewrite ingestDocument_run. simpl.
  unfold getDocumentChunks. rewrite lookup_insert_eq. simpl.
  unfold prepared. rewrite Hfile, Hconfig, Hload. simpl.
  destruct (loadDocument_loaded _ _ Hload) as [Hb _].
  apply Qle_bool_iff in Hshort.
  unfold splitText. rewrite Hb. cbv zeta. rewrite Hshort. simpl. done.
Qed.

End IngestionMore.

Lemma splitText_positions_witness :
  md_chunkIndex
    (metadata (mkDocument (substring 100 100 (String.concat "" (replicate 25 "0123456789")))
                 (withChunkPosition emptyMetadata 1 3)))
  = Some 1
  ∧ md_totalChunks
      (metadata (mkDocument (substring 100 100 (String.concat "" (replicate 25 "0123456789")))
                   (withChunkPosition emptyMetadata 1 3)))
    = Some 3.
Proof.
  apply (@splitText_positions hundredsSplitter
           (String.concat "" (replicate 25 "0123456789"))
           (mkRAGConfig 100 20 "" memory None "" 0 500 4 (7 # 10)) emptyMetadata
           (imap (λ index piece,
                    mkDocument piece (withChunkPosition emptyMetadata index 3))
              (pieces 250 (String.concat "" (replicate 25 "0123456789"))))
           eq_refl 1).
  reflexivity.
Defined.

Lemma validateSplittingConfig_accepts_witness :
  JS.validateSplittingConfig (fmt:=fractionFormat) (JS.ofFinite DEFAULT_CONFIG)
  = Returns tt
  ∧ JS.validateSplittingConfig (fmt:=fractionFormat)
      (JS.merge (JS.ofFinite DEFAULT_CONFIG) (JS.onlyChunkSize (JS.Number NotANumber)))
    = Returns tt.
Proof.
  split.
  - apply (proj1 (@validateSplittingConfig_accepts fractionFormat
                    (JS.ofFinite DEFAULT_CONFIG))); [discriminate | discriminate |].
    vm_compute. repeat split; reflexivity.
  - apply (proj2 (proj2 (proj2 (@validateSplittingConfig_accepts fractionFormat
                    (JS.merge (JS.ofFinite DEFAULT_CONFIG)
                       (JS.onlyChunkSize (JS.Number NotANumber))))))); reflexivity.
Defined.

Lemma validateFile_accepts_witness :
  ∃ size documentType,
    fs_stat_size (FileSystem:=notesFile) "notes.txt" = Returns size
    ∧ ¬ (size == 0)%Q
    ∧ (size <= 10485760)%Q
    ∧ detectDocumentType (fs:=notesFile) "notes.txt" = Returns documentType.
Proof.
  apply (@validateFile_accepts notesFile fractionFormat "notes.txt" None).
  reflexivity.
Defined.

Lemma loadDocument_returns_witness :
  trim "  The capital of France is Paris, on the Seine.  " ≠ ""
  ∧ "notes.txt" = path_basename (FileSystem:=notesFile) "notes.txt"
  ∧ fs_stat_size (FileSystem:=notesFile) "notes.txt" = Returns 50%Q
  ∧ ∃ documentType,
      detectDocumentType (fs:=notesFile) "notes.txt" = Returns documentType
      ∧ "txt" = documentTypeName documentType
      ∧ (documentType ≠ PDF → @None Q = None).
Proof.
  apply (@loadDocument_returns notesFile "notes.txt"
           (mkLoadedDocument "  The capital of France is Paris, on the Seine.  "
              "notes.txt" "txt" 50 None)).
  reflexivity.
Defined.

Lemma loading_throws_processing_errors_witness :
  splitText (splitter:=hundredsSplitter) "   " DEFAULT_CONFIG emptyMetadata
  = Throws (mkExn DocumentProcessingError "Cannot split empty document")
  ∧ exn_class (mkExn DocumentProcessingError
                 "File validation failed: ENOENT: no such file or directory")
    = DocumentProcessingError.
Proof.
  destruct (@loading_throws_processing_errors notesFile hundredsSplitter
              fractionFormat
              (mkExn DocumentProcessingError
                 "File validation failed: ENOENT: no such file or directory"))
    as (_ & Hfile & _ & _ & Hempty & _).
  split.
  - apply Hempty. reflexivity.
  - apply (Hfile "missing.txt" None). reflexivity.
Defined.

Lemma ingestDocument_frame_witness :
  (ingestDocument (fs:=notesFile) (splitter:=hundredsSplitter) (fmt:=fractionFormat)
     "doc-2" 0%Z "notes.txt" DEFAULT_CONFIG None
     (<["doc-1" := mkIngestionState "doc-1" failed 0 None None None]> ∅)).2 !! "doc-1"
  = Some (mkIngestionState "doc-1" failed 0 None None None)
  ∧ Ingestion.getDocumentCount
      (ingestDocument (fs:=notesFile) (splitter:=hundredsSplitter)
         (fmt:=fractionFormat) "doc-2" 0%Z "notes.txt" DEFAULT_CONFIG None
         (<["doc-1" := mkIngestionState "doc-1" failed 0 None None None]> ∅)).2
    = 2.
Proof.
  destruct (@ingestDocument_frame notesFile hundredsSplitter fractionFormat
              "doc-2" "doc-1" 0%Z "notes.txt" DEFAULT_CONFIG None
              (<["doc-1" := mkIngestionState "doc-1" failed 0 None None None]> ∅))
    as (Hother & Hfresh & _).
  split.
  - rewrite Hother by discriminate. vm_compute. reflexivity.
  - rewrite Hfresh by (vm_compute; reflexivity). vm_compute. reflexivity.
Defined.

Lemma ingest_then_remove_witness :
  removeDocument "doc-1"
    (ingestDocument (fs:=notesFile) (splitter:=hundredsSplitter) (fmt:=fractionFormat)
       "doc-1" 0%Z "notes.txt" DEFAULT_CONFIG None ∅).2
  = (Returns true, ∅)
  ∧ getIngestionStatus "doc-1" ∅
    = (Throws (mkExn DocumentProcessingError
         "No ingestion record found for document ID: doc-1"), ∅).
Proof.
  apply (@ingest_then_remove notesFile hundredsSplitter fractionFormat
           "doc-1" 0%Z "notes.txt" DEFAULT_CONFIG None ∅).
  reflexivity.
Defined.

Lemma getIngestionStatus_reports_witness :
  (getIngestionStatus "doc-9" (∅ : IngestionStates)).1
  = Throws (mkExn DocumentProcessingError
      "No ingestion record found for document ID: doc-9").
Proof.
  apply (proj2 (proj2 (@getIngestionStatus_reports notesFile hundredsSplitter
                         fractionFormat "doc-1" "doc-9" 0%Z "notes.txt"
                         DEFAULT_CONFIG None ∅))).
  reflexivity.
Defined.

Lemma ingest_short_document_witness :
  (ingestDocument (fs:=notesFile) (splitter:=hundredsSplitter) (fmt:=fractionFormat)
     "doc-1" 0%Z "notes.txt" DEFAULT_CONFIG None ∅).1
  = Returns (mkIngestResult true "doc-1" 1 None)
  ∧ getDocumentChunks "doc-1"
      (ingestDocument (fs:=notesFile) (splitter:=hundredsSplitter)
         (fmt:=fractionFormat) "doc-1" 0%Z "notes.txt" DEFAULT_CONFIG None ∅).2
    = Some [mkDocument "The capital of France is Paris, on the Seine."
              (mkMetadata (Some "doc-1") (Some "notes.txt") (Some "txt") (Some 50%Q)
                 None (Some 0) (Some 1) None)].
Proof.
  apply (@ingest_short_document notesFile hundredsSplitter fractionFormat
           "doc-1" 0%Z "notes.txt" DEFAULT_CONFIG None
           (mkLoadedDocument "  The capital of France is Paris, on the Seine.  "
              "notes.txt" "txt" 50 None) ∅).
  - reflexivity.
  - reflexivity.
  - reflexivity.
  - vm_compute. discriminate.
Defined.

(** ** More about the configuration *)

Section ConfigMore.
Context {env : ProcessEnv} {server : ServerEnv} {fmt : NumberFormat}.

Lemma parseNumber_cases (value : EnvNumber) (defaultValue : Q) (min max : option Q)
    (v : Q) :
  parseNumber value defaultValue min max = Returns v →
  (value = EnvUnset ∧ v = defaultValue)
  ∨ (value = EnvNum v
     ∧ (∀ lo, min = Some lo → (lo <= v)%Q)
     ∧ (∀ hi, max = Some hi → (v <= hi)%Q)).
Proof.
  unfold parseNumber. destruct value as [|raw|parsed]; [|done|].
  - intros [= <-]. by left.
  - destruct min as [lo|], max as [hi|]; simpl.
    + destruct (Qltb parsed lo) eqn:Hlo; [done|].
      destruct (Qltb hi parsed) eqn:Hhi; [done|].
      intros [= <-]. right. split; [done|].
      split; intros ? [= <-]; by apply Qltb_ge.
    + destruct (Qltb parsed lo) eqn:Hlo; [done|].
      intros [= <-]. right. split; [done|].
      split; [intros ? [= <-]; by apply Qltb_ge | done].
    + destruct (Qltb hi parsed) eqn:Hhi; [done|].
      intros [= <-]. right. split; [done|].
      split; [done | intros ? [= <-]; by apply Qltb_ge].
    + intros [= <-]. right. done.
Qed.

Lemma parseNumber_class (value : EnvNumber) (defaultValue : Q) (min max : option Q)
    (e : Exn) :
  parseNumber value defaultValue min max = Throws e →
  exn_class e = ConfigurationError.
Proof.
  unfold parseNumber. destruct value as [|raw|parsed]; [done|by intros [= <-]|].
  destruct (match min with Some m => Qltb parsed m | None => false end);
    [by intros [= <-]|].
  destruct (match max with Some m => Qltb m parsed | None => false end);
    [by intros [= <-] | done].
Qed.

Lemma parseNumber_range (value : EnvNumber) (defaultValue lo hi v : Q) :
  (lo <= defaultValue ∧ defaultValue <= hi)%Q →
  parseNumber value defaultValue (Some lo) (Some hi) = Returns v →
  (lo <= v ∧ v <= hi)%Q.
Proof.
  intros Hdefault Hparse.
  destruct (parseNumber_cases _ _ _ _ _ Hparse) as [[_ ->] | (_ & Hlo & Hhi)];
    [done|].
  split; [by apply Hlo | by apply Hhi].
Qed.

(** X21.  [parseNumber] returns the default for a variable that is not set, and
    otherwise only a number within the bounds it was given; what it throws
    is a [ConfigurationError].  So every server configuration that loads has
    a port in [1, 65535] and a size limit of at least 1024 bytes, and an API
    key that validates is the trimmed, non-empty value of the variable. *)
Theorem server_configuration_bounds :
  (∀ value defaultValue min max v,
     parseNumber value defaultValue min max = Returns v →
     (value = EnvUnset ∧ v = defaultValue)
     ∨ (value = EnvNum v
        ∧ (∀ lo, min = Some lo → (lo <= v)%Q)
        ∧ (∀ hi, max = Some hi → (v <= hi)%Q)))
  ∧ (∀ value defaultValue min max e,
       parseNumber value defaultValue min max = Throws e →
       exn_class e = ConfigurationError)
  ∧ (∀ config, getServerConfig = Returns config →
       (1 <= port config ∧ port config <= 65535 ∧ 1024 <= maxFileSize config)%Q
       ∧ nodeEnv config ≠ "" ∧ uploadDir config ≠ "")
  ∧ (∀ key, validateApiKey = Returns key →
       key ≠ "" ∧ ∃ raw, OPENAI_API_KEY = Some raw ∧ key = trim raw).
Proof.
  split; [apply parseNumber_cases|]. split; [apply parseNumber_class|]. split.
  - intros config. unfold getServerConfig.
    destruct (parseNumber PORT _ _ _) as [p|e] eqn:Hport; [|done].
    destruct (parseNumber MAX_FILE_SIZE _ _ _) as [m|e] eqn:Hmax; [|done].
    simpl. intros [= <-]. simpl.
    apply parseNumber_range in Hport; [|lra].
    split.
    + split; [tauto|]. split; [tauto|].
      destruct (parseNumber_cases _ _ _ _ _ Hmax) as [[_ ->] | (_ & Hlo & _)];
        [lra | by apply Hlo].
    + unfold orElse. split.
      * destruct NODE_ENV as [v|]; [|done].
        destruct (bool_decide (v = "")) eqn:Hv; [done|].
        by apply bool_decide_eq_false in Hv.
      * destruct UPLOAD_DIR as [v|]; [|done].
        destruct (bool_decide (v = "")) eqn:Hv; [done|].
        by apply bool_decide_eq_false in Hv.
  - intros key. unfold validateApiKey, validateRequiredString.
    destruct OPENAI_API_KEY as [raw|]; [|done].
    destruct (blank raw) eqn:Hb; [done|]. intros [= <-].
    split; [by apply blank_false_iff | eauto].
Qed.

Lemma andThen_throws {A B} (o : outcome A) (k : A → outcome B) (e : Exn) :
  andThen o k = Throws e → o = Throws e ∨ ∃ a, o = Returns a ∧ k a = Throws e.
Proof. destruct o as [a|e']; simpl; [eauto | by intros [= <-]; left]. Qed.

Lemma validateVectorStoreType_class (value : option string) (e : Exn) :
  validateVectorStoreType value = Throws e → exn_class e = ConfigurationError.
Proof.
  unfold validateVectorStoreType. destruct value as [v|]; [|done].
  repeat (destruct (bool_decide _); [done|]). by intros [= <-].
Qed.

Lemma loadConfig_class (e : Exn) :
  loadConfig = Throws e → exn_class e = ConfigurationError.
Proof.
  unfold loadConfig. intros H.
  apply andThen_throws in H as [H|(cs & _ & H)]; [by eapply parseNumber_class|].
  apply andThen_throws in H as [H|(co & _ & H)]; [by eapply parseNumber_class|].
  apply andThen_throws in H as [H|(vst & _ & H)];
    [by eapply validateVectorStoreType_class|].
  apply andThen_throws in H as [H|(temp & _ & H)]; [by eapply parseNumber_class|].
  apply andThen_throws in H as [H|(tokens & _ & H)]; [by eapply parseNumber_class|].
  apply andThen_throws in H as [H|(k & _ & H)]; [by eapply parseNumber_class|].
  apply andThen_throws in H as [H|(threshold & _ & H)]; [by eapply parseNumber_class|].
  simpl in H. destruct (Qgeb co cs); [by injection H as <- | done].
Qed.

Lemma loadConfig_ranges (config : RAGConfig) :
  loadConfig = Returns config → documentedRanges config.
Proof.
  unfold loadConfig.
  destruct (parseNumber CHUNK_SIZE _ _ _) as [cs|] eqn:Hcs; [|done].
  destruct (parseNumber CHUNK_OVERLAP _ _ _) as [co|] eqn:Hco; [|done].
  destruct (validateVectorStoreType VECTOR_STORE_TYPE) as [vst|]; [|done].
  destruct (parseNumber LLM_TEMPERATURE _ _ _) as [temp|] eqn:Htemp; [|done].
  destruct (parseNumber LLM_MAX_TOKENS _ _ _) as [tokens|] eqn:Htokens; [|done].
  destruct (parseNumber TOP_K _ _ _) as [k|] eqn:Hk; [|done].
  destruct (parseNumber SCORE_THRESHOLD _ _ _) as [threshold|] eqn:Hth; [|done].
  simpl. destruct (Qgeb co cs) eqn:Hover; [done|]. intros [= <-].
  apply Qgeb_lt in Hover.
  apply parseNumber_range in Hcs; [|simpl; lra].
  apply parseNumber_range in Hco; [|simpl; lra].
  apply parseNumber_range in Htemp; [|simpl; lra].
  apply parseNumber_range in Htokens; [|simpl; lra].
  apply parseNumber_range in Hk; [|simpl; lra].
  apply parseNumber_range in Hth; [|simpl; lra].
  unfold documentedRanges, accepted. simpl. tauto.
Qed.

(** X22.  Every configuration that loads from the environment lies within all
    the documented ranges, so [validateSplittingConfig] accepts it and
    [updateConfig] with no change stores it as it is; what [loadConfig]
    throws is a [ConfigurationError]. *)
Theorem loadConfig_within_ranges (config : RAGConfig) :
  (loadConfig = Returns config →
     documentedRanges config
     ∧ validateSplittingConfig config = Returns tt
     ∧ updateConfig noUpdate None = (Returns config, Some config))
  ∧ (∀ e, loadConfig = Throws e → exn_class e = ConfigurationError).
Proof.
  split; [|apply loadConfig_class].
  intros Hload. pose proof (loadConfig_ranges _ Hload) as Hranges.
  split; [done|]. destruct Hranges as [Hacc (Hlo & _)]. split.
  - apply validateSplittingConfig_cases. destruct Hacc as (? & [? ?] & _).
    split; [lra|]. done.
  - assert (Hget : getConfig None = (Returns config, Some config)).
    { by rewrite getConfig_run, Hload. }
    rewrite (updateConfig_run noUpdate None (Some config) config Hget). cbv zeta.
    assert (Hmerge : mergeConfig config noUpdate = config).
    { destruct config. reflexivity. }
    rewrite Hmerge. by rewrite (proj2 (acceptedb_accepted config) Hacc).
Qed.

Lemma mergeConfig_idempotent (current : RAGConfig) (updates : RAGConfigUpdate) :
  mergeConfig (mergeConfig current updates) updates = mergeConfig current updates.
Proof.
  destruct updates as [a b c d p f g h i j]. unfold mergeConfig. simpl.
  by destruct a, b, c, d, p, f, g, h, i, j.
Qed.

Lemma updateConfig_returns updates (st st' : ConfigInstance) (config : RAGConfig) :
  updateConfig updates st = (Returns config, st') →
  st' = Some config
  ∧ acceptedb config = true
  ∧ ∃ current st0, getConfig st = (Returns current, st0)
      ∧ config = mergeConfig current updates.
Proof.
  destruct (getConfig st) as [[current|e] st0] eqn:Hget.
  - rewrite (updateConfig_run updates st st0 current Hget). cbv zeta.
    destruct (acceptedb (mergeConfig current updates)) eqn:Hacc; [|done].
    intros [= <- <-]. split; [done|]. split; [done|]. by exists current, st0.
  - unfold updateConfig. unfold mbind at 1. unfold M_bind at 1. by rewrite Hget.
Qed.

(** X23.  After [updateConfig] has returned, [getConfig] answers with the
    configuration it returned; applying the same update again, or no update,
    returns that configuration again; and [resetConfig] forgets it: the next
    [getConfig] loads from the environment afresh. *)
Theorem updateConfig_round_trip updates (st st' : ConfigInstance)
    (config : RAGConfig) :
  updateConfig updates st = (Returns config, st') →
  getConfig st' = (Returns config, st')
  ∧ updateConfig updates st' = (Returns config, st')
  ∧ updateConfig noUpdate st' = (Returns config, st')
  ∧ getConfig (resetConfig st').2
    = match loadConfig with
      | Returns loaded => (Returns loaded, Some loaded)
      | Throws e => (Throws e, None)
      end.
Proof.
  intros Hrun. apply updateConfig_returns in Hrun
    as (-> & Hacc & current & st0 & _ & Hmerge).
  split; [done|].
  assert (Hget : getConfig (Some config) = (Returns config, Some config)) by done.
  split; [|split].
  - rewrite (updateConfig_run updates _ _ _ Hget). cbv zeta.
    rewrite Hmerge, mergeConfig_idempotent, <-Hmerge. by rewrite Hacc.
  - rewrite (updateConfig_run noUpdate _ _ _ Hget). cbv zeta.
    assert (mergeConfig config noUpdate = config) as -> by (by destruct config).
    by rewrite Hacc.
  - by rewrite getConfig_run.
Qed.

End ConfigMore.

Lemma server_configuration_bounds_witness :
  ((1 <= 8080 ∧ 8080 <= 65535 ∧ 1024 <= 10485760)%Q
   ∧ "development" ≠ "" ∧ "./uploads" ≠ "")
  ∧ ("sk-test" ≠ "" ∧ ∃ raw, Some "  sk-test  " = Some raw ∧ "sk-test" = trim raw).
Proof.
  destruct (@server_configuration_bounds portEnv fractionFormat)
    as (_ & _ & Hserver & Hkey).
  split.
  - apply (Hserver (mkServerConfig 8080 "development" 10485760 "./uploads")).
    reflexivity.
  - apply (Hkey "sk-test"). reflexivity.
Defined.

Lemma loadConfig_within_ranges_witness :
  documentedRanges
    (mkRAGConfig 500 50 "text-embedding-ada-002" chroma (Some "./data/vectorstore")
       "gpt-3.5-turbo" 0 500 8 (7 # 10))
  ∧ validateSplittingConfig (fmt:=fractionFormat)
      (mkRAGConfig 500 50 "text-embedding-ada-002" chroma (Some "./data/vectorstore")
         "gpt-3.5-turbo" 0 500 8 (7 # 10))
    = Returns tt
  ∧ updateConfig (env:=smallChunksEnv) (fmt:=fractionFormat) noUpdate None
    = (Returns (mkRAGConfig 500 50 "text-embedding-ada-002" chroma
                  (Some "./data/vectorstore") "gpt-3.5-turbo" 0 500 8 (7 # 10)),
       Some (mkRAGConfig 500 50 "text-embedding-ada-002" chroma
               (Some "./data/vectorstore") "gpt-3.5-turbo" 0 500 8 (7 # 10))).
Proof.
  apply (proj1 (@loadConfig_within_ranges smallChunksEnv fractionFormat _)).
  reflexivity.
Defined.

Lemma updateConfig_round_trip_witness :
  let update :=
    mkRAGConfigUpdate (Some 2000%Q) None None None None None None None (Some 6%Q) None in
  let stored := mergeConfig DEFAULT_CONFIG update in
  getConfig (env:=emptyEnv) (fmt:=fractionFormat) (Some stored)
  = (Returns stored, Some stored)
  ∧ updateConfig (env:=emptyEnv) (fmt:=fractionFormat) update (Some stored)
    = (Returns stored, Some stored)
  ∧ updateConfig (env:=emptyEnv) (fmt:=fractionFormat) noUpdate (Some stored)
    = (Returns stored, Some stored)
  ∧ getConfig (env:=emptyEnv) (fmt:=fractionFormat)
      (resetConfig (Some stored)).2
    = (Returns DEFAULT_CONFIG, Some DEFAULT_CONFIG).
Proof.
  apply (@updateConfig_round_trip emptyEnv fractionFormat
           (mkRAGConfigUpdate (Some 2000%Q) None None None None None None None
              (Some 6%Q) None)
           (Some DEFAULT_CONFIG)).
  reflexivity.
Defined.

(** ** More about the query engine *)

Lemma queryError_class (prefix : string) (e : Exn) :
  exn_class (queryError prefix e) = RetrievalError
  ∨ exn_class (queryError prefix e) = LLMError.
Proof.
  unfold queryError.
  destruct (bool_decide (exn_class e = RetrievalError)) eqn:Hr.
  { apply bool_decide_eq_true in Hr. by left. }
  destruct (bool_decide (exn_class e = LLMError)) eqn:Hl.
  { apply bool_decide_eq_true in Hl. by right. }
  by right.
Qed.

Lemma try_catch_queryError {S A} (body : M S A) (prefix : string) (s : S) (e : Exn) :
  (try_catch body (keepQueryError prefix) s).1 = Throws e →
  exn_class e = RetrievalError ∨ exn_class e = LLMError.
Proof.
  unfold try_catch, keepQueryError. destruct (body s) as [[a|e'] s']; [done|].
  simpl. intros [= <-]. apply queryError_class.
Qed.

Lemma calculateConfidence_bounds (documents : list Document) :
  (0 <= calculateConfidence documents ∧ calculateConfidence documents <= 1)%Q.
Proof.
  destruct documents as [|doc rest]; [by vm_compute|].
  destruct (presentScores (doc :: rest)) as [|q qs] eqn:Hpresent.
  - rewrite calculateConfidence_unscored by done.
    set (n := (inject_Z (Z.of_nat (length (doc :: rest))) / 4)%Q).
    assert (0 <= n)%Q.
    { unfold n. apply Qle_shift_div_l; [lra|]. rewrite Qmult_0_l.
      change 0%Q with (inject_Z 0). rewrite <-Zle_Qle. lia. }
    destruct (Q.min_spec n 1) as [[Hlt ->] | [Hge ->]]; lra.
  - rewrite calculateConfidence_scored by (by rewrite Hpresent).
    apply clamp01_bounds.
Qed.

Lemma initializeStore_run (s : VectorStoreManager) :
  initializeStore s = (Returns tt, readied s).
Proof. by destruct s as [[vs|] reg]. Qed.

Section EngineMore.
Context {env : ProcessEnv} {fmt : NumberFormat} {runner : ChainRunner}.

Ltac unfold_engine :=
  unfold keepQueryError, onConfig, onManager, setEngine; unfold_M.

(** A question that passes the validation, under a configuration that
    loads: the chain it runs through, and the service it leaves. *)
Lemma askQuestion_full startTime endTime question config (sys : Service)
    (ragConfig : RAGConfig) (cfg' : option RAGConfig) :
  blank question = false →
  getConfig (configInstance sys) = (Returns ragConfig, cfg') →
  askQuestion startTime endTime question config sys
  = (match invoke (questionChain config ragConfig (engine sys)) question None with
     | Returns result => Returns (respond result startTime endTime)
     | Throws e => Throws (queryError "Failed to process question: " e)
     end,
     mkService cfg'
       (match qaChain (engine sys) with
        | Some _ => storeManager sys
        | None => readied (storeManager sys)
        end)
       (setQaChain (questionChain config ragConfig (engine sys))
          (withOverrides config ragConfig (engine sys)))).
Proof.
  intros Hb Hget.
  unfold askQuestion, withOverrides, questionChain, initializeQAChain, overridesModel,
    mergeQAConfig.
  unfold_engine. rewrite Hb, Hget. simpl.
  destruct (engine sys) as [client [chain|] conversation history];
    destruct config as [[k [t|] [m|]]|]; simpl;
    destruct (storeManager sys) as [[vs|] reg]; unfold readied; simpl;
    by destruct (invoke _ question None).
Qed.

Lemma askWithHistory_full startTime endTime question history config (sys : Service)
    (ragConfig : RAGConfig) (cfg' : option RAGConfig) :
  blank question = false →
  getConfig (configInstance sys) = (Returns ragConfig, cfg') →
  askWithHistory startTime endTime question history config sys
  = (match invoke (conversationChain config ragConfig (engine sys)) question
             (Some (formatHistory history)) with
     | Returns result => Returns (respond result startTime endTime)
     | Throws e =>
         Throws (queryError "Failed to process question with history: " e)
     end,
     mkService cfg'
       (match conversationalChain (engine sys) with
        | Some _ => storeManager sys
        | None => readied (storeManager sys)
        end)
       (setConversationalChain (conversationChain config ragConfig (engine sys))
          (withOverrides config ragConfig (engine sys)))).
Proof.
  intros Hb Hget.
  unfold askWithHistory, withOverrides, conversationChain,
    initializeConversationalChain, overridesModel, mergeQAConfig.
  unfold_engine. rewrite Hb, Hget. simpl.
  destruct (engine sys) as [client chain [conversation|] stored];
    destruct config as [[k [t|] [m|]]|]; simpl;
    destruct (storeManager sys) as [[vs|] reg]; unfold readied; simpl;
    by destruct (invoke _ question _).
Qed.

Lemma respond_shape (result : ChainResult) (startTime endTime : Z) :
  let response := respond result startTime endTime in
  (0 <= confidence response ∧ confidence response <= 1)%Q
  ∧ processingTime response = (endTime - startTime)%Z
  ∧ answer response = orElse (result_answer result) ""
  ∧ length (sources response) = length (default [] (result_context result))
  ∧ (∀ i doc, default [] (result_context result) !! i = Some doc →
       sd_content <$> sources response !! i = Some (pageContent doc)).
Proof.
  unfold respond. simpl. split; [apply calculateConfidence_bounds|].
  split; [done|]. split; [done|].
  unfold formatSourceDocuments. split; [apply length_imap|].
  intros i doc Hdoc. rewrite list_lookup_imap, Hdoc. simpl.
  by destruct (pageContent doc).
Qed.

Lemma askQuestion_returns startTime endTime question config (sys : Service)
    (response : QAResponse) :
  (askQuestion startTime endTime question config sys).1 = Returns response →
  ∃ ragConfig cfg' result,
    blank question = false
    ∧ getConfig (configInstance sys) = (Returns ragConfig, cfg')
    ∧ invoke (questionChain config ragConfig (engine sys)) question None
      = Returns result
    ∧ response = respond result startTime endTime.
Proof.
  destruct (blank question) eqn:Hb.
  { by rewrite askQuestion_rejected. }
  destruct (getConfig (configInstance sys)) as [[ragConfig|e] cfg'] eqn:Hget.
  - rewrite (askQuestion_full _ _ _ _ _ ragConfig cfg') by done. simpl.
    destruct (invoke _ question None) as [result|e] eqn:Hinvoke; [|done].
    intros [= <-]. by exists ragConfig, cfg', result.
  - by rewrite (askQuestion_unconfigured _ _ _ _ _ e cfg').
Qed.

Lemma askWithHistory_returns startTime endTime question history config
    (sys : Service) (response : QAResponse) :
  (askWithHistory startTime endTime question history config sys).1
  = Returns response →
  ∃ ragConfig cfg' result,
    blank question = false
    ∧ getConfig (configInstance sys) = (Returns ragConfig, cfg')
    ∧ invoke (conversationChain config ragConfig (engine sys)) question
        (Some (formatHistory history)) = Returns result
    ∧ response = respond result startTime endTime.
Proof.
  destruct (blank question) eqn:Hb.
  { by rewrite askWithHistory_rejected. }
  destruct (getConfig (configInstance sys)) as [[ragConfig|e] cfg'] eqn:Hget.
  - rewrite (askWithHistory_full _ _ _ _ _ _ ragConfig cfg') by done. simpl.
    destruct (invoke _ question _) as [result|e] eqn:Hinvoke; [|done].
    intros [= <-]. by exists ragConfig, cfg', result.
  - by rewrite (askWithHistory_unconfigured _ _ _ _ _ _ e cfg').
Qed.

(** X24.  Whatever LangChain, the language model or the configuration do, an
    error that leaves [askQuestion] or [askWithHistory] is a
    [RetrievalError] or an [LLMError].  A question that is empty after
    trimming is a [RetrievalError]; a configuration that does not load, or
    a failure of the chain that is neither of the two, is wrapped into an
    [LLMError] that carries its message. *)
Theorem asking_throws_query_errors (startTime endTime : Z) (question : string)
    (history : list Message) (config : option QAConfigOverrides) (sys : Service)
    (e : Exn) :
  ((askQuestion startTime endTime question config sys).1 = Throws e →
     exn_class e = RetrievalError ∨ exn_class e = LLMError)
  ∧ ((askWithHistory startTime endTime question history config sys).1 = Throws e →
       exn_class e = RetrievalError ∨ exn_class e = LLMError)
  ∧ (blank question = true →
     askQuestion startTime endTime question config sys
     = (Throws (mkExn RetrievalError "Question cannot be empty"), sys)
     ∧ askWithHistory startTime endTime question history config sys
       = (Throws (mkExn RetrievalError "Question cannot be empty"), sys))
  ∧ (blank question = false → configInstance sys = None → loadConfig = Throws e →
     (askQuestion startTime endTime question config sys).1
     = Throws (mkExn LLMError ("Failed to process question: " +:+ exn_message e))
     ∧ (askWithHistory startTime endTime question history config sys).1
       = Throws (mkExn LLMError
           ("Failed to process question with history: " +:+ exn_message e)))
  ∧ (∀ ragConfig cfg' chain,
       blank question = false →
       getConfig (configInstance sys) = (Returns ragConfig, cfg') →
       qaChain (engine sys) = Some chain →
       invoke chain question None = Throws e →
       exn_class e ≠ RetrievalError → exn_class e ≠ LLMError →
       (askQuestion startTime endTime question config sys).1
       = Throws (mkExn LLMError ("Failed to process question: " +:+ exn_message e))).
Proof.
  split; [apply try_catch_queryError|]. split; [apply try_catch_queryError|].
  split.
  { intros Hb. by rewrite askQuestion_rejected, askWithHistory_rejected. }
  split.
  - intros Hb Hnone Hload.
    assert (Hget : getConfig (configInstance sys) = (Throws e, None)).
    { by rewrite Hnone, getConfig_run, Hload. }
    rewrite (askQuestion_unconfigured _ _ _ _ _ e None),
      (askWithHistory_unconfigured _ _ _ _ _ _ e None) by done.
    simpl. unfold queryError. apply loadConfig_class in Hload. rewrite Hload.
    done.
  - intros ragConfig cfg' chain Hb Hget Hchain Hinvoke Hr Hl.
    rewrite (askQuestion_run _ _ _ _ _ ragConfig cfg' chain) by done.
    simpl. rewrite Hinvoke. unfold queryError.
    by rewrite !bool_decide_eq_false_2.
Qed.

(** X25.  Every response of [askQuestion] and [askWithHistory] is built from
    what the chain resolved to for this very question (and, for
    [askWithHistory], this history): the answer is the chain's (or empty),
    there is one source per retrieved chunk, in order, with the chunk's
    content, the confidence lies in [0, 1], and the processing time is the
    difference of the two clock readings. *)
Theorem responses_well_formed (startTime endTime : Z) (question : string)
    (history : list Message) (config : option QAConfigOverrides) (sys : Service)
    (response : QAResponse) :
  ((askQuestion startTime endTime question config sys).1 = Returns response →
   ∃ ragConfig cfg' result,
     getConfig (configInstance sys) = (Returns ragConfig, cfg')
     ∧ invoke (questionChain config ragConfig (engine sys)) question None
       = Returns result
     ∧ answer response = orElse (result_answer result) ""
     ∧ length (sources response) = length (default [] (result_context result))
     ∧ (∀ i doc, default [] (result_context result) !! i = Some doc →
          sd_content <$> sources response !! i = Some (pageContent doc))
     ∧ (0 <= confidence response ∧ confidence response <= 1)%Q
     ∧ processingTime response = (endTime - startTime)%Z)
  ∧ ((askWithHistory startTime endTime question history config sys).1
     = Returns response →
     ∃ ragConfig cfg' result,
       getConfig (configInstance sys) = (Returns ragConfig, cfg')
       ∧ invoke (conversationChain config ragConfig (engine sys)) question
           (Some (formatHistory history)) = Returns result
       ∧ answer response = orElse (result_answer result) ""
       ∧ length (sources response) = length (default [] (result_context result))
       ∧ (∀ i doc, default [] (result_context result) !! i = Some doc →
            sd_content <$> sources response !! i = Some (pageContent doc))
       ∧ (0 <= confidence response ∧ confidence response <= 1)%Q
       ∧ processingTime response = (endTime - startTime)%Z).
Proof.
  split; intros Hask.
  - apply askQuestion_returns in Hask
      as (ragConfig & cfg' & result & _ & Hget & Hinvoke & ->).
    destruct (respond_shape result startTime endTime) as (? & ? & ? & ? & ?).
    exists ragConfig, cfg', result. done.
  - apply askWithHistory_returns in Hask
      as (ragConfig & cfg' & result & _ & Hget & Hinvoke & ->).
    destruct (respond_shape result startTime endTime) as (? & ? & ? & ? & ?).
    exists ragConfig, cfg', result. done.
Qed.

Lemma questionChain_history config ragConfig (e : QAEngine)
    (stored : list BaseMessage) :
  questionChain config ragConfig
    (mkQAEngine (llm e) (qaChain e) (conversationalChain e) stored)
  = questionChain config ragConfig e
  ∧ conversationChain config ragConfig
      (mkQAEngine (llm e) (qaChain e) (conversationalChain e) stored)
    = conversationChain config ragConfig e.
Proof.
  unfold questionChain, conversationChain. simpl.
  split; [destruct (qaChain e) | destruct (conversationalChain e)]; try done;
    by destruct (_ || _).
Qed.

(** X26.  Asking changes no document and no history: [askQuestion] and
    [askWithHistory] leave the registry and the chunks of the vector store,
    the engine's stored history and each other's chain as they were, and
    their outcome does not depend on the stored history: the conversation
    of [askWithHistory] is the caller's.  The stored history only answers to
    [addToHistory], [getHistory] and [clearHistory]. *)
Theorem asking_frame (startTime endTime : Z) (question : string)
    (history : list Message) (config : option QAConfigOverrides) (sys : Service)
    (stored : list BaseMessage) :
  let asked := askQuestion startTime endTime question config sys in
  let chatted := askWithHistory startTime endTime question history config sys in
  (documentRegistry (storeManager asked.2) = documentRegistry (storeManager sys)
   ∧ storeDocs (storeManager asked.2) = storeDocs (storeManager sys)
   ∧ getHistory (engine asked.2) = getHistory (engine sys)
   ∧ conversationalChain (engine asked.2) = conversationalChain (engine sys))
  ∧ (documentRegistry (storeManager chatted.2) = documentRegistry (storeManager sys)
     ∧ storeDocs (storeManager chatted.2) = storeDocs (storeManager sys)
     ∧ getHistory (engine chatted.2) = getHistory (engine sys)
     ∧ qaChain (engine chatted.2) = qaChain (engine sys))
  ∧ (askQuestion startTime endTime question config (setChatHistory stored sys)).1
    = asked.1
  ∧ (askWithHistory startTime endTime question history config
       (setChatHistory stored sys)).1
    = chatted.1
  ∧ (∀ r text e, getHistory (addToHistory r text e)
       = getHistory e ++ [match r with
                          | user => HumanMessage text
                          | assistant => AIMessage text
                          end])
  ∧ (∀ e, getHistory (clearHistory e) = []).
Proof.
  cbv zeta. destruct (blank question) eqn:Hb.
  { rewrite !askQuestion_rejected, !askWithHistory_rejected by done. done. }
  destruct (getConfig (configInstance sys)) as [[ragConfig|e] cfg'] eqn:Hget.
  - rewrite (askQuestion_full _ _ _ _ sys ragConfig cfg'),
      (askWithHistory_full _ _ _ _ _ sys ragConfig cfg') by done.
    rewrite (askQuestion_full _ _ _ _ (setChatHistory stored sys) ragConfig cfg'),
      (askWithHistory_full _ _ _ _ _ (setChatHistory stored sys) ragConfig cfg')
      by done.
    simpl. destruct (questionChain_history config ragConfig (engine sys) stored)
      as [-> ->].
    unfold withOverrides, getHistory.
    split; [|split; [|done]].
    + by destruct (qaChain (engine sys)), (overridesModel config),
        (storeManager sys) as [[vs|] reg].
    + by destruct (conversationalChain (engine sys)), (overridesModel config),
        (storeManager sys) as [[vs|] reg].
  - rewrite (askQuestion_unconfigured _ _ _ _ sys e cfg'),
      (askWithHistory_unconfigured _ _ _ _ _ sys e cfg') by done.
    rewrite (askQuestion_unconfigured _ _ _ _ (setChatHistory stored sys) e cfg'),
      (askWithHistory_unconfigured _ _ _ _ _ (setChatHistory stored sys) e cfg')
      by done.
    done.
Qed.

(** X27.  The first question that passes the validation builds the chain, from
    the configuration merged at that moment: the retriever's [k] is the
    [topK] of the overrides, or else of the stored configuration, and the
    client is the engine's [llm] after the overrides.  The conversational
    chain is built the same way by the first [askWithHistory]. *)
Theorem first_question_fixes_chain (startTime endTime : Z) (question : string)
    (history : list Message) (config : option QAConfigOverrides) (sys : Service)
    (ragConfig : RAGConfig) (cfg' : option RAGConfig) :
  blank question = false →
  getConfig (configInstance sys) = (Returns ragConfig, cfg') →
  (qaChain (engine sys) = None →
     let asked := askQuestion startTime endTime question config sys in
     qaChain (engine asked.2)
     = Some (mkRetrievalChain
               (StoreRetriever (default (topK ragConfig) (config ≫= o_topK)))
               (llm (engine asked.2)) false)
     ∧ is_Some (vectorStore (storeManager asked.2)))
  ∧ (conversationalChain (engine sys) = None →
     let chatted := askWithHistory startTime endTime question history config sys in
     conversationalChain (engine chatted.2)
     = Some (mkRetrievalChain
               (HistoryAwareRetriever (llm (engine chatted.2))
                  (StoreRetriever (default (topK ragConfig) (config ≫= o_topK))))
               (llm (engine chatted.2)) true)
     ∧ is_Some (vectorStore (storeManager chatted.2))).
Proof.
  intros Hb Hget. split; intros Hnone; cbv zeta.
  - rewrite (askQuestion_full _ _ _ _ sys ragConfig cfg') by done. simpl.
    unfold questionChain, withOverrides, overridesModel, mergeQAConfig.
    rewrite Hnone. simpl. split; [by destruct (_ || _) | by eexists].
  - rewrite (askWithHistory_full _ _ _ _ _ sys ragConfig cfg') by done. simpl.
    unfold conversationChain, withOverrides, overridesModel, mergeQAConfig.
    rewrite Hnone. simpl. split; [by destruct (_ || _) | by eexists].
Qed.

End EngineMore.

Lemma asking_throws_query_errors_witness :
  (askQuestion (env:=emptyEnv) (fmt:=fractionFormat) (runner:=downRunner)
     0%Z 5%Z "What is the capital?" None readyService).1
  = Throws (mkExn LLMError "Failed to process question: 429 Too Many Requests")
  ∧ askQuestion (env:=emptyEnv) (fmt:=fractionFormat) (runner:=downRunner)
      0%Z 5%Z "   " None readyService
    = (Throws (mkExn RetrievalError "Question cannot be empty"), readyService).
Proof.
  destruct (@asking_throws_query_errors emptyEnv fractionFormat downRunner 0%Z 5%Z
              "What is the capital?" [] None readyService
              (mkExn PlainError "429 Too Many Requests"))
    as (_ & _ & _ & _ & Hwrapped).
  destruct (@asking_throws_query_errors emptyEnv fractionFormat downRunner 0%Z 5%Z
              "   " [] None readyService
              (mkExn PlainError "429 Too Many Requests"))
    as (_ & _ & Hrejected & _).
  split.
  - apply (Hwrapped DEFAULT_CONFIG (Some DEFAULT_CONFIG) builtChain);
      [reflexivity | reflexivity | reflexivity | reflexivity
      | discriminate | discriminate].
  - apply (proj1 (Hrejected eq_refl)).
Defined.

Lemma responses_well_formed_witness :
  ∃ ragConfig cfg' result,
    getConfig (env:=emptyEnv) (fmt:=fractionFormat) (configInstance readyService)
    = (Returns ragConfig, cfg')
    ∧ invoke (ChainRunner:=twoSourcesRunner)
        (questionChain None ragConfig (engine readyService))
        "What is the capital?" None
      = Returns result
    ∧ "Paris." = orElse (result_answer result) ""
    ∧ 2 = length (default [] (result_context result))
    ∧ (∀ i doc, default [] (result_context result) !! i = Some doc →
         sd_content <$>
           [mkSourceDocument "a" "Unknown" "alpha" 0 1;
            mkSourceDocument "b" "b.txt" "beta" 3 (1 # 2)] !! i
         = Some (pageContent doc))
    ∧ (0 <= 1 # 2 ∧ 1 # 2 <= 1)%Q
    ∧ (5 - 0)%Z = 5%Z.
Proof.
  apply (proj1 (@responses_well_formed emptyEnv fractionFormat twoSourcesRunner
                  0%Z 5%Z "What is the capital?" [] None readyService
                  (mkQAResponse "Paris."
                     [mkSourceDocument "a" "Unknown" "alpha" 0 1;
                      mkSourceDocument "b" "b.txt" "beta" 3 (1 # 2)]
                     (1 # 2) 5))).
  vm_compute. reflexivity.
Defined.

Lemma first_question_fixes_chain_witness :
  qaChain (engine (askQuestion (env:=emptyEnv) (fmt:=fractionFormat)
                     (runner:=echoRunner) 0%Z 5%Z "What is the capital?"
                     (Some tenChunksWarm) freshService).2)
  = Some (mkRetrievalChain (StoreRetriever 10)
            (mkChatOpenAI "gpt-3.5-turbo" 1 500) false)
  ∧ is_Some (vectorStore
               (storeManager
                  (askQuestion (env:=emptyEnv) (fmt:=fractionFormat)
                     (runner:=echoRunner) 0%Z 5%Z "What is the capital?"
                     (Some tenChunksWarm) freshService).2)).
Proof.
  apply (proj1 (@first_question_fixes_chain emptyEnv fractionFormat echoRunner
                  0%Z 5%Z "What is the capital?" [] (Some tenChunksWarm)
                  freshService DEFAULT_CONFIG (Some DEFAULT_CONFIG)
                  eq_refl eq_refl)).
  reflexivity.
Defined.

(** * The HTTP routes *)

Section ConfigRouteTheorems.
Context {env : ProcessEnv} {fmt : NumberFormat}.

Lemma numberField_class value lo hi message (e : Exn) :
  numberField value lo hi message = Throws e → exn_class e = ConfigurationError.
Proof.
  unfold numberField. destruct value as [[| |q| | |]|]; try done;
    try (by intros [= <-]).
  destruct (Qltb q lo || Qltb hi q); [by intros [= <-] | done].
Qed.

Lemma numberField_range value lo hi message (o : option Q) :
  numberField value lo hi message = Returns o →
  ∀ q, o = Some q → (lo <= q ∧ q <= hi)%Q.
Proof.
  unfold numberField. destruct value as [[| |q| | |]|]; try done.
  - destruct (Qltb q lo || Qltb hi q) eqn:Hrange; [done|].
    intros [= <-] q' [= <-]. apply in_range_iff. by rewrite Hrange.
  - by intros [= <-] q.
Qed.

Lemma nameField_class value message (e : Exn) :
  nameField value message = Throws e → exn_class e = ConfigurationError.
Proof.
  unfold nameField. destruct value as [[| | |s| |]|]; try done;
    try (by intros [= <-]).
  destruct (bool_decide _); [by intros [= <-] | done].
Qed.

Lemma storeTypeField_class value (e : Exn) :
  storeTypeField value = Throws e → exn_class e = ConfigurationError.
Proof.
  unfold storeTypeField. destruct value as [[| | |s| |]|]; try done;
    try (by intros [= <-]).
  repeat (destruct (bool_decide _); [done|]). by intros [= <-].
Qed.

Lemma pathField_class value (e : Exn) :
  pathField value = Throws e → exn_class e = ConfigurationError.
Proof.
  unfold pathField. destruct value as [[| | |s| |]|]; try done;
    by intros [= <-].
Qed.

Lemma validateUpdates_class body (e : Exn) :
  validateUpdates body = Throws e → exn_class e = ConfigurationError.
Proof.
  unfold validateUpdates. destruct body as [updates|]; [|by intros [= <-]].
  intros H.
  repeat (apply andThen_throws in H as [H|(? & _ & H)];
          [by eauto using numberField_class, nameField_class,
                storeTypeField_class, pathField_class|]).
  done.
Qed.

Lemma validateUpdates_ranges body (updates : RAGConfigUpdate) :
  validateUpdates body = Returns updates → withinRouteRanges updates.
Proof.
  unfold validateUpdates. destruct body as [b|]; [|done].
  destruct (numberField (b_chunkSize b) _ _ _) as [cs|] eqn:Hcs; [|done].
  destruct (numberField (b_chunkOverlap b) _ _ _) as [co|] eqn:Hco; [|done].
  destruct (numberField (b_topK b) _ _ _) as [k|] eqn:Hk; [|done].
  destruct (nameField (b_embeddingModel b) _) as [em|]; [|done].
  destruct (nameField (b_llmModel b) _) as [lm|]; [|done].
  destruct (numberField (b_llmTemperature b) _ _ _) as [temp|] eqn:Htemp; [|done].
  destruct (numberField (b_llmMaxTokens b) _ _ _) as [tokens|] eqn:Htokens; [|done].
  destruct (numberField (b_scoreThreshold b) _ _ _) as [th|] eqn:Hth; [|done].
  destruct (storeTypeField _) as [vst|]; [|done].
  destruct (pathField _) as [vsp|]; [|done].
  simpl. intros [= <-]. unfold withinRouteRanges. simpl.
  repeat (match goal with |- _ ∧ _ => split end); intros x Hx; split;
    match goal with
    | H : numberField _ ?lo _ _ = Returns _ |- (?lo <= _)%Q =>
        apply (proj1 (numberField_range _ _ _ _ _ H x Hx))
    | H : numberField _ _ ?hi _ = Returns _ |- (_ <= ?hi)%Q =>
        apply (proj2 (numberField_range _ _ _ _ _ H x Hx))
    end.
Qed.

Lemma mergeConfig_ranges (current : RAGConfig) (updates : RAGConfigUpdate) :
  documentedRanges current → withinRouteRanges updates →
  let newConfig := mergeConfig current updates in
  (acceptedb newConfig = true ↔ (chunkOverlap newConfig < chunkSize newConfig)%Q)
  ∧ (acceptedb newConfig = true → documentedRanges newConfig).
Proof.
  intros [(Hlt & Hcs & Hk & Htemp & Hth) (Hco1 & Hco2 & Htok1 & Htok2)].
  intros (Ucs & Uco & Uk & Utemp & Utok & Uth). cbv zeta.
  assert (Hfields :
    ((100 <= chunkSize (mergeConfig current updates)
      ∧ chunkSize (mergeConfig current updates) <= 10000)
     ∧ (1 <= topK (mergeConfig current updates)
        ∧ topK (mergeConfig current updates) <= 20)
     ∧ (0 <= llmTemperature (mergeConfig current updates)
        ∧ llmTemperature (mergeConfig current updates) <= 2)
     ∧ (0 <= scoreThreshold (mergeConfig current updates)
        ∧ scoreThreshold (mergeConfig current updates) <= 1)
     ∧ (0 <= chunkOverlap (mergeConfig current updates)
        ∧ chunkOverlap (mergeConfig current updates) <= 5000)
     ∧ (1 <= llmMaxTokens (mergeConfig current updates)
        ∧ llmMaxTokens (mergeConfig current updates) <= 4000))%Q).
  { unfold mergeConfig. simpl.
    destruct (u_chunkSize updates) as [cs|]; [specialize (Ucs cs eq_refl)|];
    destruct (u_chunkOverlap updates) as [co|]; [specialize (Uco co eq_refl)| |
      specialize (Uco co eq_refl)|];
    (destruct (u_topK updates) as [k|]; [specialize (Uk k eq_refl)|]);
    (destruct (u_llmTemperature updates) as [t|]; [specialize (Utemp t eq_refl)|]);
    (destruct (u_llmMaxTokens updates) as [m|]; [specialize (Utok m eq_refl)|]);
    (destruct (u_scoreThreshold updates) as [h|]; [specialize (Uth h eq_refl)|]);
    simpl; tauto. }
  rewrite acceptedb_accepted. unfold documentedRanges, accepted. tauto.
Qed.

(** X28.  [PUT /api/config] always answers, with 200 and the stored
    configuration or with 500 and the error name [ConfigurationError].  If
    the stored configuration was within the documented ranges (as every
    loaded one is), the stored configuration is so after the request; a
    request that is refused leaves a stored configuration as it was; and a
    body that passes the route's validation is refused only when the merged
    overlap is not below the merged chunk size. *)
Theorem putConfigRoute_keeps_ranges (nodeEnv : string) (body : option ConfigRequest)
    (st : ConfigInstance) :
  (∀ c, st = Some c → documentedRanges c) →
  ∃ reply st',
    putConfigRoute nodeEnv body st = (Returns reply, st')
    ∧ (∀ c, st' = Some c → documentedRanges c)
    ∧ match reply with
      | Replied status config =>
          status = 200 ∧ st' = Some config
          ∧ ∃ updates, validateUpdates body = Returns updates
      | Errored status error _ =>
          status = 500 ∧ error = "ConfigurationError"
          ∧ (∀ c, st = Some c → st' = st)
      end
    ∧ (∀ updates current,
         validateUpdates body = Returns updates → st = Some current →
         let newConfig := mergeConfig current updates in
         (chunkOverlap newConfig < chunkSize newConfig)%Q
         ↔ reply = Replied 200 newConfig).
Proof.
  intros Hst. unfold putConfigRoute, try_catch.
  unfold mbind at 1. unfold M_bind at 1. unfold call at 1.
  destruct (validateUpdates body) as [updates|e] eqn:Hval.
  - pose proof (validateUpdates_ranges _ _ Hval) as Hupd.
    assert (Hgot : (∃ current st0, getConfig st = (Returns current, st0)
                      ∧ documentedRanges current
                      ∧ (∀ c, st = Some c → c = current ∧ st0 = st))
                   ∨ (∃ e, getConfig st = (Throws e, None) ∧ st = None
                        ∧ exn_class e = ConfigurationError)).
    { rewrite getConfig_run. destruct st as [c|].
      - left. exists c, (Some c). split; [done|]. split; [by apply Hst|].
        by intros c' [= <-].
      - destruct loadConfig as [c|e] eqn:Hload.
        + left. exists c, (Some c). split; [done|].
          split; [by apply loadConfig_ranges|]. done.
        + right. exists e. split; [done|]. split; [done|].
          by apply (loadConfig_class e). }
    destruct Hgot as [(current & st0 & Hget & Hdoc & Hsame)|(e & Hget & -> & Hclass)].
    + unfold mbind at 1. unfold M_bind at 1.
      rewrite (updateConfig_run updates st st0 current Hget). cbv zeta.
      destruct (mergeConfig_ranges current updates Hdoc Hupd) as [Hiff Hkeep].
      destruct (acceptedb (mergeConfig current updates)) eqn:Hacc.
      * eexists _, _. split; [reflexivity|]. split.
        { intros c [= <-]. by apply Hkeep. }
        split; [by eauto|].
        intros updates' current' [= <-] Hcur.
        destruct (Hsame _ Hcur) as [-> _]. cbv zeta. split; [done|].
        intros _. by apply Hiff.
      * unfold errorHandler. simpl.
        eexists _, _. split; [reflexivity|]. split.
        { intros c ->. destruct st as [c'|].
          - destruct (Hsame c' eq_refl) as [-> [= ->]]. by apply Hst.
          - rewrite getConfig_run in Hget. destruct loadConfig eqn:Hload; [|done].
            injection Hget as <- <-. intros. by apply loadConfig_ranges. }
        split.
        { split; [done|]. split; [done|]. intros c Hc.
          by destruct (Hsame c Hc) as [_ ->]. }
        intros updates' current' [= <-] Hcur.
        destruct (Hsame _ Hcur) as [-> _]. cbv zeta. split; [|done].
        intros Hlt. apply Hiff in Hlt. congruence.
    + unfold mbind at 1. unfold M_bind at 1.
      unfold updateConfig. unfold mbind at 1. unfold M_bind at 1. rewrite Hget.
      unfold errorHandler. rewrite Hclass. simpl.
      eexists _, _. split; [reflexivity|]. split; [done|].
      split; [done|]. done.
  - unfold errorHandler. rewrite (validateUpdates_class _ _ Hval). simpl.
    eexists _, _. split; [reflexivity|]. split; [done|]. split; [done|]. done.
Qed.

End ConfigRouteTheorems.

Lemma putConfigRoute_keeps_ranges_witness :
  ∃ reply st',
    putConfigRoute (env:=emptyEnv) (fmt:=fractionFormat) "development"
      (Some (resizeRequest 500 50)) (Some DEFAULT_CONFIG) = (Returns reply, st')
    ∧ reply = Replied 200 (mergeConfig DEFAULT_CONFIG
                 (mkRAGConfigUpdate (Some 500%Q) (Some 50%Q) None None None None None
                    None None None))
    ∧ (∀ c, st' = Some c → documentedRanges c).
Proof.
  destruct (@putConfigRoute_keeps_ranges emptyEnv fractionFormat "development"
              (Some (resizeRequest 500 50)) (Some DEFAULT_CONFIG))
    as (reply & st' & Hrun & Hranges & _ & Hiff).
  - intros c [= <-]. vm_compute. intuition discriminate.
  - exists reply, st'. split; [exact Hrun|]. split; [|exact Hranges].
    apply (Hiff _ DEFAULT_CONFIG eq_refl eq_refl). reflexivity.
Defined.

Section DocumentRouteTheorems.
Context {env : ProcessEnv} {server : ServerEnv} {fmt : NumberFormat}
        {fs : FileSystem} {uploads : UploadDirectory} {splitter : TextSplitter}
        {backend : VectorBackend}.

Arguments Init.Nat.of_num_uint : simpl never.
Arguments MemoryVectorStore.similaritySearch : simpl never.

(** What [deleteDocument] leaves of the document, whatever the backend
    does. *)
Lemma deleteDocument_outcomes (documentId : string) (s : VectorStoreManager) :
  match deleteDocument documentId s with
  | (Returns deleted, s') =>
      getDocumentChunkCount documentId s' = 0
      ∧ deleted = bool_decide (0 < getDocumentChunkCount documentId s)
  | (Throws e, s') =>
      exn_class e = VectorStoreError ∧ documentRegistry s' = documentRegistry s
  end.
Proof.
  destruct (blank documentId) eqn:Hblank.
  - rewrite deleteDocument_blank by done. done.
  - rewrite deleteDocument_run by done. unfold getDocumentChunkCount.
    destruct (documentRegistry s !! documentId) as [[|c cs]|] eqn:Hreg.
    + simpl. rewrite Hreg. done.
    + destruct (MemoryVectorStore.similaritySearch _ _ _) as [allDocs|e]; [|done].
      cbv zeta. destruct (bool_decide (0 < length _)).
      * destruct (embedDocuments _) as [[]|e]; [|done]. simpl.
        rewrite lookup_delete_eq. split; [done|].
        first [done | symmetry; apply bool_decide_eq_true_2; simpl; lia].
      * simpl. rewrite lookup_delete_eq. split; [done|].
        first [done | symmetry; apply bool_decide_eq_true_2; simpl; lia].
    + simpl. rewrite Hreg. done.
Qed.

(** X29.  [DELETE /api/documents/:id] always answers, and never touches
    the configuration.  When it answers 404 or 200 the document is gone
    from the ingestion table and has no chunk left in the registry: 404
    exactly when it was in neither, 200 when it was in one of them.  When it
    answers with an error (400 for an empty id, 503 when the index throws)
    the ingestion table and the registry are as before the request. *)
Theorem deleteRoute_outcomes (nodeEnv : string) (id : string) (app : DocumentsApp) :
  ∃ reply app',
    deleteRoute nodeEnv id app = (Returns reply, app')
    ∧ app_config app' = app_config app
    ∧ app_unlinked app' = app_unlinked app
    ∧ match reply with
      | Replied status payload =>
          app_ingestion app' = delete id (app_ingestion app)
          ∧ getDocumentChunkCount id (app_index app') = 0
          ∧ (status = 404 ∧ payload = None
             ∧ getDocumentChunkCount id (app_index app) = 0
             ∧ app_ingestion app !! id = None
             ∨ status = 200 ∧ payload = Some id
               ∧ (0 < getDocumentChunkCount id (app_index app)
                  ∨ is_Some (app_ingestion app !! id)))
      | Errored status error message =>
          app_ingestion app' = app_ingestion app
          ∧ documentRegistry (app_index app') = documentRegistry (app_index app)
          ∧ (status = 400 ∧ id = ""
             ∨ status = 503 ∧ error = "Vector store unavailable" ∧ id ≠ "")
      end.
Proof.
  unfold deleteRoute, try_catch.
  destruct (decide (id = "")) as [->|Hid].
  - rewrite bool_decide_eq_true_2 by done. unfold throw, mret, M_ret, errorHandler.
    simpl. eexists _, _. split; [reflexivity|]. simpl. tauto.
  - rewrite bool_decide_eq_false_2 by done.
    unfold mbind at 1. unfold M_bind at 1. unfold onAppIndex at 1.
    pose proof (deleteDocument_outcomes id (app_index app)) as Hdel.
    destruct (deleteDocument id (app_index app)) as [[deleted|e] index'].
    + destruct Hdel as [Hgone ->]. simpl.
      unfold mbind at 1. unfold M_bind at 1. unfold onAppIngestion, removeDocument.
      unfold_M. simpl.
      destruct (decide (0 < getDocumentChunkCount id (app_index app))) as [Hpos|Hzero].
      * rewrite bool_decide_eq_true_2 by done. simpl.
        eexists _, _. split; [reflexivity|]. simpl.
        split; [done|]. split; [done|]. split; [done|]. split; [done|].
        right. by eauto.
      * rewrite bool_decide_eq_false_2 by done. simpl.
        destruct (app_ingestion app !! id) as [state|] eqn:Hstate.
        -- rewrite bool_decide_eq_true_2 by eauto. simpl.
           eexists _, _. split; [reflexivity|]. simpl.
           split; [done|]. split; [done|]. split; [done|]. split; [done|].
           right. split; [done|]. split; [done|]. right. by eauto.
        -- rewrite bool_decide_eq_false_2 by (by intros [? ?]). simpl.
           eexists _, _. split; [reflexivity|]. simpl.
           split; [done|]. split; [done|]. split; [done|]. split; [done|].
           left. split; [done|]. split; [done|]. split; [lia | done].
    + destruct Hdel as [Hclass Hreg]. simpl. unfold mret, M_ret, errorHandler.
      rewrite Hclass. eexists _, _. split; [reflexivity|]. simpl.
      split; [done|]. split; [done|]. split; [done|]. split; [done|].
      right. by eauto.
Qed.


(** X30.  An upload, once the configurations are available, always
    answers, and records the ingestion of the file under the new id.  If a
    step of the ingestion fails, the reply is 400 with that step's message,
    the index is untouched, the uploaded file is unlinked when it exists,
    and the id has no metadata.  Otherwise the document is recorded as
    completed with its metadata, and then: if the embedding of the chunks
    succeeds the reply is 201 with the chunk count, the chunks are appended
    to the store and every document's registered chunk count grows by its
    chunks among them; if it fails the reply is 503 and the store and the
    registry are as before, while the document stays recorded as
    completed. *)
Theorem uploadRoute_outcomes (nodeEnv uuid : string) (today : Z) (now : nat → Z)
    (filePath : string) (app : DocumentsApp) (config : RAGConfig)
    (st0 : ConfigInstance) (serverConfig : ServerConfig) :
  getConfig (app_config app) = (Returns config, st0) →
  getServerConfig = Returns serverConfig →
  ∃ reply app',
    uploadRoute nodeEnv uuid today now (Some filePath) app = (Returns reply, app')
    ∧ app_ingestion app'
      = (ingestDocument uuid today filePath config (Some (maxFileSize serverConfig))
           (app_ingestion app)).2
    ∧ match prepared uuid filePath config (Some (maxFileSize serverConfig)) with
      | Throws e =>
          reply = Errored 400 "Document processing failed"
                    (orElse (Some (exn_message e)) "Document processing failed")
          ∧ app_index app' = app_index app
          ∧ app_unlinked app'
            = app_unlinked app ++ (if fs_existsSync filePath then [filePath] else [])
          ∧ Ingestion.getDocumentMetadata uuid (app_ingestion app') = None
      | Returns (loadedDoc, chunks) =>
          app_unlinked app' = app_unlinked app
          ∧ Ingestion.getDocumentMetadata uuid (app_ingestion app')
            = Some (ingestedMetadata uuid today loadedDoc chunks)
          ∧ is_status <$> app_ingestion app' !! uuid = Some completed
          ∧ match (if bool_decide (0 < length chunks)
                   then embedDocuments (pageContent <$> chunks) else Returns tt) with
            | Returns _ =>
                reply = Replied 201
                          (mkUploaded uuid (length chunks)
                             (Some (ingestedMetadata uuid today loadedDoc chunks)))
                ∧ storeDocs (app_index app') = storeDocs (app_index app) ++ chunks
                ∧ (∀ d, d ≠ "" →
                     getDocumentChunkCount d (app_index app')
                     = getDocumentChunkCount d (app_index app)
                       + length (filter (λ doc, belongsTo d doc = true) chunks))
            | Throws e =>
                reply = Errored 503 "Vector store unavailable"
                          ("Failed to add documents to vector store: "
                           +:+ exn_message e)
                ∧ storeDocs (app_index app') = storeDocs (app_index app)
                ∧ documentRegistry (app_index app') = documentRegistry (app_index app)
            end
      end.
Proof.
  intros Hget Hserver. unfold uploadRoute, try_catch.
  unfold mbind at 1. unfold M_bind at 1. unfold onAppConfig at 1. rewrite Hget.
  cbn [fst snd].
  unfold mbind at 1. unfold M_bind at 1. unfold call at 1. rewrite Hserver.
  unfold mbind at 1. unfold M_bind at 1. unfold onAppIngestion at 1.
  cbn [app_ingestion app_config app_index app_unlinked].
  rewrite ingestDocument_run. cbn [fst snd].
  destruct (prepared uuid filePath config (Some (maxFileSize serverConfig)))
    as [[loadedDoc chunks]|e] eqn:Hprep.
  - cbn [ingestResult success negb ir_documentId ir_chunkCount].
    unfold mbind at 1. unfold M_bind at 1. unfold get at 1.
    cbn [app_ingestion]. unfold getDocumentChunks, Ingestion.getDocumentMetadata.
    rewrite lookup_insert_eq. cbn [ingestedState is_chunks is_metadata mbind option_bind].
    unfold mbind at 1. unfold M_bind at 1.
    destruct (decide (0 < length chunks)) as [Hpos|Hnone].
    + rewrite !bool_decide_eq_true_2 by done.
      unfold mbind at 1. unfold M_bind at 1. unfold onAppIndex at 1.
      cbn [app_index app_config app_ingestion app_unlinked].
      rewrite addDocuments_run. rewrite bool_decide_eq_false_2 by lia.
      destruct (embedDocuments (pageContent <$> chunks)) as [[]|e] eqn:Hembed.
      * cbv zeta. cbn [fst snd]. unfold mret, M_ret, get.
        unfold mbind, M_bind. cbn [fst snd app_ingestion].
        rewrite lookup_insert_eq. cbn [is_metadata option_bind].
        eexists _, _. split; [reflexivity|]. cbn [app_ingestion app_index app_unlinked].
        split; [done|]. split; [done|].
        split; [by rewrite lookup_insert_eq|].
        split; [by rewrite lookup_insert_eq|].
        split; [done|]. split; [done|].
        intros d Hd. apply (trackChunks_count now chunks d Hd 0 ([], _)).
      * cbn [fst snd]. unfold errorHandler. cbn [exn_class exn_message].
        unfold mret, M_ret.
        eexists _, _. split; [reflexivity|]. cbn [app_ingestion app_index app_unlinked].
        split; [done|]. split; [done|].
        split; [by rewrite lookup_insert_eq|].
        split; [by rewrite lookup_insert_eq|]. done.
    + rewrite !bool_decide_eq_false_2 by done.
      unfold mret, M_ret, get. unfold mbind, M_bind. cbn [fst snd app_ingestion].
      rewrite lookup_insert_eq. cbn [is_metadata option_bind].
      eexists _, _. split; [reflexivity|]. cbn [app_ingestion app_index app_unlinked].
      split; [done|]. split; [done|].
      split; [by rewrite lookup_insert_eq|].
      split; [by rewrite lookup_insert_eq|].
      assert (chunks = []) as -> by (destruct chunks; [done | simpl in Hnone; lia]).
      split; [done|]. split; [by rewrite app_nil_r|].
      intros d Hd. simpl. lia.
  - cbn [ingestResult success negb ir_error].
    unfold mbind at 1. unfold M_bind at 1. unfold when_, unlinkSync, modify, mret, M_ret.
    unfold throw, errorHandler. cbn [exn_class exn_message].
    destruct (fs_existsSync filePath);
      (eexists _, _; split; [reflexivity|];
       cbn [app_ingestion app_index app_unlinked];
       split; [done|]; split; [done|]; split; [done|];
       split; [by rewrite ?app_nil_r|];
       unfold Ingestion.getDocumentMetadata; by rewrite lookup_insert_eq).
Qed.

End DocumentRouteTheorems.

Lemma uploadRoute_outcomes_witness :
  ∃ reply app',
    uploadRoute (env:=emptyEnv) (server:=portEnv) (fmt:=fractionFormat)
      (fs:=notesFile) (uploads:=allFiles) (splitter:=hundredsSplitter)
      (backend:=tieBackend) "development" "doc-1" 0%Z fixedClock (Some "notes.txt")
      emptyApp
    = (Returns reply, app')
    ∧ reply = Replied 201
                (mkUploaded "doc-1" 1
                   (Some (mkDocumentMetadata "doc-1" "notes.txt" "txt" 0%Z 1 50%Q)))
    ∧ getDocumentChunkCount "doc-1" (app_index app') = 1.
Proof.
  destruct (@uploadRoute_outcomes emptyEnv portEnv fractionFormat notesFile allFiles
              hundredsSplitter tieBackend "development" "doc-1" 0%Z fixedClock
              "notes.txt" emptyApp DEFAULT_CONFIG (Some DEFAULT_CONFIG)
              (mkServerConfig 8080 "development" 10485760 "./uploads"))
    as (reply & app' & Hrun & _ & Hcase).
  - reflexivity.
  - reflexivity.
  - exists reply, app'. split; [exact Hrun|].
    destruct Hcase as (_ & _ & _ & Hreply & _ & Hcount).
    split; [exact Hreply|]. apply (Hcount "doc-1"). discriminate.
Defined.

